(** * Kuro mock runtime: definition model, templates, message pipeline, handlers

    A shallow embedding of the Go packages [schema], [extensions], [template]
    and [runtime] of usekuro/kuro, one Rocq module per Go package, over
    models of what they use of the Go standard library.

    Conventions.
    - A Go [string] is a [string] (a sequence of bytes); a Go [int] is a [Z].
    - A Go pointer that may be nil is an [option]; a Go map that may be nil
      is an [option (gmap _ _)].
    - A Go [error] is the text of its message; a returned [error] is an
      [option error] with [None] for nil.
    - A Go [any] is a [value].
    - Code with effects runs in the monad [M] over a [World]. *)

From stdpp Require Import gmap strings list fin_maps sorting.
From Stdlib Require Import ZArith Ascii String DecimalString.

Open Scope string_scope.
Open Scope list_scope.
Open Scope Z_scope.

(** The error interface, by its message. *)
Definition error : Type := string.

(** ** Values of type [any]

    The dynamic values that reach the templates: what YAML or JSON decoding
    puts in [context.variables], what [extractVars] binds, and what the helper
    functions return.  [VStrs] is a [[]string], [VList] a [[]any], [VMap] a
    non-nil [map[string]any].  Floating-point numbers are left out. *)
#[warnings="-register-all"]
Inductive value : Type :=
| VNil
| VStr (s : string)
| VInt (z : Z)
| VBool (b : bool)
| VStrs (l : list string)
| VList (l : list value)
| VMap (m : gmap string value).

(** * The Go standard library, as far as the runtime uses it *)

(** ** Package strings, on ASCII text

    Go's case mapping, word boundaries and white space are defined on Unicode
    code points; the functions below are those of the package on strings of
    ASCII bytes and leave every byte above 127 as it is. *)
Module strings_pkg.

Definition is_lower (c : ascii) : bool :=
  (97 <=? nat_of_ascii c)%nat && (nat_of_ascii c <=? 122)%nat.
Definition is_upper (c : ascii) : bool :=
  (65 <=? nat_of_ascii c)%nat && (nat_of_ascii c <=? 90)%nat.
Definition is_digit (c : ascii) : bool :=
  (48 <=? nat_of_ascii c)%nat && (nat_of_ascii c <=? 57)%nat.

Definition to_upper (c : ascii) : ascii :=
  if is_lower c then ascii_of_nat (nat_of_ascii c - 32) else c.
Definition to_lower (c : ascii) : ascii :=
  if is_upper c then ascii_of_nat (nat_of_ascii c + 32) else c.

(** [unicode.IsSpace] below 128: tab, line feed, vertical tab, form feed,
    carriage return, space. *)
Definition is_space (c : ascii) : bool :=
  let n := nat_of_ascii c in
  ((9 <=? n)%nat && (n <=? 13)%nat) || (n =? 32)%nat.

Fixpoint smap (f : ascii -> ascii) (s : string) : string :=
  match s with
  | EmptyString => EmptyString
  | String c r => String (f c) (smap f r)
  end.

Definition ToUpper (s : string) : string := smap to_upper s.
Definition ToLower (s : string) : string := smap to_lower s.

(** [Contains s substr]: [substr] starts at some offset of [s]. *)
Fixpoint Contains (s substr : string) : bool :=
  String.prefix substr s ||
  match s with
  | EmptyString => false
  | String _ r => Contains r substr
  end.

Definition HasPrefix (s pre : string) : bool := String.prefix pre s.

(** Equality up to the case of ASCII letters. *)
Definition EqualFold (s t : string) : bool :=
  String.eqb (ToLower s) (ToLower t).

(** [isSeparator] of [strings.Title]: letters, digits and the underscore are
    inside a word, every other ASCII byte separates words. *)
Definition is_separator (c : ascii) : bool :=
  if (nat_of_ascii c <=? 127)%nat
  then negb (is_lower c || is_upper c || is_digit c || Ascii.eqb c "_")
  else false.

Fixpoint title_from (prev : ascii) (s : string) : string :=
  match s with
  | EmptyString => EmptyString
  | String c r =>
      String (if is_separator prev then to_upper c else c) (title_from c r)
  end.

Definition Title (s : string) : string := title_from " " s.

Fixpoint trim_left (s : string) : string :=
  match s with
  | String c r => if is_space c then trim_left r else s
  | EmptyString => EmptyString
  end.

(** Drops trailing white space: a suffix of spaces becomes empty. *)
Fixpoint trim_right (s : string) : string :=
  match s with
  | EmptyString => EmptyString
  | String c r =>
      match trim_right r with
      | EmptyString => if is_space c then EmptyString else String c EmptyString
      | r' => String c r'
      end
  end.

Definition TrimSpace (s : string) : string := trim_right (trim_left s).

Fixpoint explode (s : string) : list string :=
  match s with
  | EmptyString => []
  | String c r => String c EmptyString :: explode r
  end.

(** The pieces of [s] between the occurrences of a non-empty [sep], scanning
    left to right; [skip] bytes of an occurrence are still to be dropped and
    [cur] is the piece being read, reversed. *)
Fixpoint split_scan (sep : string) (skip : nat) (cur : list ascii) (s : string)
  : list string :=
  match s with
  | EmptyString => [string_of_list_ascii (rev cur)]
  | String c r =>
      match skip with
      | S k => split_scan sep k cur r
      | O =>
          if String.prefix sep s
          then string_of_list_ascii (rev cur)
               :: split_scan sep (String.length sep - 1) [] r
          else split_scan sep O (c :: cur) r
      end
  end.

(** [Split s sep]: with an empty [sep], one piece per byte. *)
Definition Split (s sep : string) : list string :=
  match sep with
  | EmptyString => explode s
  | _ => split_scan sep O [] s
  end.

Fixpoint Join (elems : list string) (sep : string) : string :=
  match elems with
  | [] => ""
  | [e] => e
  | e :: r => e +:+ sep +:+ Join r sep
  end.

(** [ReplaceAll s old new]: an empty [old] matches before every byte and at
    the end. *)
Definition ReplaceAll (s old new : string) : string :=
  match old with
  | EmptyString => new +:+ Join (explode s) new +:+
                   match s with EmptyString => "" | _ => new end
  | _ => Join (split_scan old O [] s) new
  end.

End strings_pkg.

(** ** Package fmt: [Sprint] of one operand *)
Module fmt_pkg.

Definition itoa (z : Z) : string := NilZero.string_of_int (Z.to_int z).

Definition string_le (a b : string) : Prop := String.leb a b = true.
#[global] Instance string_le_dec a b : Decision (string_le a b).
Proof. unfold string_le. apply _. Defined.

Definition sort_keys (l : list (string * string)) : list (string * string) :=
  merge_sort (fun a b => string_le (fst a) (fst b)) l.

(** [Sprint v] in the default format: a string as it is, an integer in
    decimal, a slice between brackets, a map as [map[k:v ...]] with its keys
    in increasing order, nil as [<nil>]. *)
Fixpoint Sprint (v : value) : string :=
  match v with
  | VNil => "<nil>"
  | VStr s => s
  | VInt z => itoa z
  | VBool b => if b then "true" else "false"
  | VStrs l => "[" +:+ strings_pkg.Join l " " +:+ "]"
  | VList l => "[" +:+ strings_pkg.Join (map Sprint l) " " +:+ "]"
  | VMap m =>
      "map[" +:+
      strings_pkg.Join
        (map (fun kv => fst kv +:+ ":" +:+ snd kv)
             (sort_keys (map_to_list (Sprint <$> m)))) " "
      +:+ "]"
  end.

End fmt_pkg.

(** ** Package path/filepath, with the slash as separator *)
Module filepath.

(** One step of [Clean] over the components read so far, innermost first;
    [rooted] tells a path that starts at the root, where [..] has nowhere to
    go. *)
Definition clean_step (rooted : bool) (stack : list string) (c : string)
  : list string :=
  if String.eqb c "" || String.eqb c "." then stack
  else if String.eqb c ".." then
    match stack with
    | top :: rest => if String.eqb top ".." then c :: stack else rest
    | [] => if rooted then [] else [c]
    end
  else c :: stack.

Definition clean_components (rooted : bool) (comps : list string) : list string :=
  rev (fold_left (clean_step rooted) comps []).

Definition Clean (p : string) : string :=
  let rooted := String.prefix "/" p in
  let body := strings_pkg.Join
                (clean_components rooted (strings_pkg.Split p "/")) "/" in
  if rooted then "/" +:+ body
  else if String.eqb body "" then "." else body.

(** [Join] drops empty elements, glues the others with a slash and cleans
    the result; no element at all gives the empty string. *)
Definition Join (elems : list string) : string :=
  match filter (fun e => e <> "") elems with
  | [] => ""
  | es => Clean (strings_pkg.Join es "/")
  end.

(** The text of [p] up to and including its last slash, reversed scan. *)
Fixpoint upto_last_slash (p : string) : string :=
  match p with
  | EmptyString => EmptyString
  | String c r =>
      if strings_pkg.Contains r "/" then String c (upto_last_slash r)
      else if Ascii.eqb c "/" then String c EmptyString
      else EmptyString
  end.

Definition Dir (p : string) : string := Clean (upto_last_slash p).

End filepath.

(** ** Package regexp: the interface the runtime calls *)

(** [regexp.Compile] and the methods [FindStringSubmatch] and
    [SubexpNames] of a compiled expression.  [re_FindStringSubmatch]
    answers [None] for Go's nil slice (no match) and otherwise one string
    per group, group 0 being the whole match; [re_SubexpNames] has the same
    length, with the empty name for group 0 and for unnamed groups. *)
Class Regexp := {
  regex : Type;
  regexp_Compile : string -> error + regex;
  re_FindStringSubmatch : regex -> string -> option (list string);
  re_SubexpNames : regex -> list string
}.

(** [regexp.MatchString]: compile, then ask whether there is a match. *)
Definition regexp_MatchString `{Regexp} (pattern s : string) : bool * option error :=
  match regexp_Compile pattern with
  | inl e => (false, Some e)
  | inr re => (bool_decide (is_Some (re_FindStringSubmatch re s)), None)
  end.

(** ** A fragment of Go's regular expressions

    Literals, [.], [^], [$], the escapes [\d \w \s \D \W \S \n \t \r] and
    escaped punctuation, bracket classes with ranges and negation, groups
    (capturing, named with [?P<name>], and [?:]), alternation
    and the operators [* + ?] with their lazy forms, matched on ASCII text
    with Go's leftmost-first rule.  A pattern that uses anything else is
    answered [Unsupported]. *)
Module regexp_syntax.

Inductive re : Type :=
| REmpty
| RLit (c : ascii)
| RSet (neg : bool) (ranges : list (ascii * ascii))
| RBegin
| REnd
| RCat (a b : re)
| RAlt (a b : re)
| RStar (greedy : bool) (a : re)
| RPlus (greedy : bool) (a : re)
| RQuest (greedy : bool) (a : re)
| RCap (idx : nat) (a : re).

Inductive parsed : Type :=
| Parsed (r : re) (names : list string)
| SyntaxError (msg : string)
| Unsupported.

(** *** Parsing, with the stack of open groups that Go's parser keeps *)

Record frame := {
  f_alts : list re;          (* finished alternatives, last first *)
  f_seq : list re;           (* atoms of the alternative being read, last first *)
  f_cap : option nat         (* the group's index, when it captures *)
}.

Definition cat_of (atoms : list re) : re :=
  match rev atoms with
  | [] => REmpty
  | a :: r => fold_left RCat r a
  end.

Definition alt_of (f : frame) : re :=
  match rev (cat_of (f_seq f) :: f_alts f) with
  | [] => REmpty
  | a :: r => fold_left RAlt r a
  end.

Definition close_frame (f : frame) : re :=
  match f_cap f with
  | Some i => RCap i (alt_of f)
  | None => alt_of f
  end.

Definition push_atom (f : frame) (a : re) : frame :=
  {| f_alts := f_alts f; f_seq := a :: f_seq f; f_cap := f_cap f |}.

Definition digit_ranges : list (ascii * ascii) := [("0", "9")]%char.
Definition word_ranges : list (ascii * ascii) :=
  [("0", "9"); ("A", "Z"); ("_", "_"); ("a", "z")]%char.
Definition space_ranges : list (ascii * ascii) :=
  [(ascii_of_nat 9, ascii_of_nat 10); (ascii_of_nat 12, ascii_of_nat 13);
   (" ", " ")]%char.

Definition is_punct (c : ascii) : bool :=
  let n := nat_of_ascii c in
  (n <? 128)%nat &&
  negb (strings_pkg.is_lower c || strings_pkg.is_upper c ||
        strings_pkg.is_digit c || Ascii.eqb c "_").

(** What a backslash and the byte after it stand for, outside brackets. *)
Definition escape (c : ascii) : option re :=
  if Ascii.eqb c "d" then Some (RSet false digit_ranges)
  else if Ascii.eqb c "D" then Some (RSet true digit_ranges)
  else if Ascii.eqb c "w" then Some (RSet false word_ranges)
  else if Ascii.eqb c "W" then Some (RSet true word_ranges)
  else if Ascii.eqb c "s" then Some (RSet false space_ranges)
  else if Ascii.eqb c "S" then Some (RSet true space_ranges)
  else if Ascii.eqb c "n" then Some (RLit (ascii_of_nat 10))
  else if Ascii.eqb c "t" then Some (RLit (ascii_of_nat 9))
  else if Ascii.eqb c "r" then Some (RLit (ascii_of_nat 13))
  else if is_punct c then Some (RLit c)
  else None.

(** A bracket class after its opening bracket and optional [^]: single bytes
    and ranges up to the closing bracket.  [first] is true on the first item,
    where a closing bracket is a literal. *)
Inductive class_result : Type :=
| ClassOk (ranges : list (ascii * ascii)) (rest : list ascii)
| ClassError (msg : string)
| ClassUnsupported.

Fixpoint class_items (first : bool) (acc : list (ascii * ascii)) (s : list ascii)
  : class_result :=
  match s with
  | [] => ClassError "missing closing ]"
  | c :: r =>
      if Ascii.eqb c "]" && negb first then ClassOk (rev acc) r
      else if Ascii.eqb c "[" || Ascii.eqb c "\" then ClassUnsupported
      else
        match r with
        | d :: hi :: r' =>
            if Ascii.eqb d "-" && negb (Ascii.eqb hi "]") then
              if Ascii.eqb hi "[" || Ascii.eqb hi "\" then ClassUnsupported
              else if (nat_of_ascii hi <? nat_of_ascii c)%nat
                   then ClassError "invalid character class range"
                   else class_items false ((c, hi) :: acc) r'
            else class_items false ((c, c) :: acc) r
        | _ => class_items false ((c, c) :: acc) r
        end
  end.

(** A group name up to its closing angle bracket. *)
Fixpoint group_name (acc : list ascii) (s : list ascii)
  : option (string * list ascii) :=
  match s with
  | [] => None
  | c :: r =>
      if Ascii.eqb c ">" then Some (string_of_list_ascii (rev acc), r)
      else group_name (c :: acc) r
  end.

Definition is_word_byte (c : ascii) : bool :=
  strings_pkg.is_lower c || strings_pkg.is_upper c ||
  strings_pkg.is_digit c || Ascii.eqb c "_".

Definition valid_name (n : string) : bool :=
  negb (String.eqb n "") && forallb is_word_byte (list_ascii_of_string n).

(** Whether the last atom read is a repetition, and a lazy one: Go refuses
    a repetition operator applied to a repetition. *)
Inductive last_atom := Plain | Repeated | RepeatedLazy.

Record pstate := {
  cur : frame;
  stack : list frame;
  ncap : nat;                (* capturing groups opened so far *)
  gnames : list string;      (* their names, last first *)
  last : last_atom
}.

Definition with_cur (st : pstate) (f : frame) (l : last_atom) : pstate :=
  {| cur := f; stack := stack st; ncap := ncap st; gnames := gnames st;
     last := l |}.

Definition open_group (st : pstate) (name : option string) : pstate :=
  match name with
  | Some n =>
      {| cur := {| f_alts := []; f_seq := []; f_cap := Some (S (ncap st)) |};
         stack := cur st :: stack st; ncap := S (ncap st);
         gnames := n :: gnames st; last := Plain |}
  | None =>
      {| cur := {| f_alts := []; f_seq := []; f_cap := None |};
         stack := cur st :: stack st; ncap := ncap st;
         gnames := gnames st; last := Plain |}
  end.

Definition make_lazy (r : re) : re :=
  match r with
  | RStar _ a => RStar false a
  | RPlus _ a => RPlus false a
  | RQuest _ a => RQuest false a
  | _ => r
  end.

Definition repeat_op (op : ascii) (a : re) : re :=
  if Ascii.eqb op "*" then RStar true a
  else if Ascii.eqb op "+" then RPlus true a
  else RQuest true a.

Definition anything_but_newline : re :=
  RSet true [(ascii_of_nat 10, ascii_of_nat 10)].

(** The parser proper: one operator or atom per step.  [fuel] bounds the
    number of steps and the length of the pattern is always enough. *)
Fixpoint parse_loop (fuel : nat) (s : list ascii) (st : pstate) : parsed :=
  match fuel with
  | O => Unsupported
  | S fuel =>
      match s with
      | [] =>
          match stack st with
          | [] => Parsed (alt_of (cur st)) ("" :: rev (gnames st))
          | _ :: _ => SyntaxError "missing closing )"
          end
      | c :: r =>
          if Ascii.eqb c "(" then
            match r with
            | "?"%char :: ":"%char :: r' =>
                parse_loop fuel r' (open_group st None)
            | "?"%char :: "P"%char :: "<"%char :: r' =>
                match group_name [] r' with
                | None => SyntaxError "invalid named capture"
                | Some (n, r'') =>
                    if negb (valid_name n)
                    then SyntaxError "invalid named capture"
                    else if bool_decide (n ∈ gnames st) then Unsupported
                    else parse_loop fuel r'' (open_group st (Some n))
                end
            | "?"%char :: _ => Unsupported
            | _ => parse_loop fuel r (open_group st (Some ""))
            end
          else if Ascii.eqb c ")" then
            match stack st with
            | [] => SyntaxError "unexpected )"
            | outer :: rest =>
                parse_loop fuel r
                  {| cur := push_atom outer (close_frame (cur st));
                     stack := rest; ncap := ncap st; gnames := gnames st;
                     last := Plain |}
            end
          else if Ascii.eqb c "|" then
            parse_loop fuel r
              (with_cur st {| f_alts := cat_of (f_seq (cur st)) :: f_alts (cur st);
                              f_seq := []; f_cap := f_cap (cur st) |} Plain)
          else if Ascii.eqb c "*" || Ascii.eqb c "+" || Ascii.eqb c "?" then
            match f_seq (cur st), last st with
            | [], _ => SyntaxError "missing argument to repetition operator"
            | a :: atoms, Plain =>
                parse_loop fuel r
                  (with_cur st {| f_alts := f_alts (cur st);
                                  f_seq := repeat_op c a :: atoms;
                                  f_cap := f_cap (cur st) |} Repeated)
            | a :: atoms, Repeated =>
                if Ascii.eqb c "?" then
                  parse_loop fuel r
                    (with_cur st {| f_alts := f_alts (cur st);
                                    f_seq := make_lazy a :: atoms;
                                    f_cap := f_cap (cur st) |} RepeatedLazy)
                else SyntaxError "invalid nested repetition operator"
            | _ :: _, RepeatedLazy =>
                SyntaxError "invalid nested repetition operator"
            end
          else if Ascii.eqb c "[" then
            let '(neg, body) :=
              match r with
              | "^"%char :: r' => (true, r')
              | _ => (false, r)
              end in
            match class_items true [] body with
            | ClassOk ranges r' =>
                parse_loop fuel r'
                  (with_cur st (push_atom (cur st) (RSet neg ranges)) Plain)
            | ClassError msg => SyntaxError msg
            | ClassUnsupported => Unsupported
            end
          else if Ascii.eqb c "\" then
            match r with
            | [] => SyntaxError "trailing backslash at end of expression"
            | e :: r' =>
                match escape e with
                | Some a =>
                    parse_loop fuel r' (with_cur st (push_atom (cur st) a) Plain)
                | None => Unsupported
                end
            end
          else if Ascii.eqb c "{" then Unsupported
          else
            let a := if Ascii.eqb c "." then anything_but_newline
                     else if Ascii.eqb c "^" then RBegin
                     else if Ascii.eqb c "$" then REnd
                     else RLit c in
            parse_loop fuel r (with_cur st (push_atom (cur st) a) Plain)
      end
  end.

Definition parse (pattern : string) : parsed :=
  parse_loop (S (String.length pattern)) (list_ascii_of_string pattern)
    {| cur := {| f_alts := []; f_seq := []; f_cap := None |}; stack := [];
       ncap := 0; gnames := []; last := Plain |}.

(** *** Matching: backtracking, first alternative first *)

(** The groups closed so far, most recent first, as (index, start, end). *)
Definition captures := list (nat * (nat * nat)).

Definition cont := list ascii -> nat -> captures -> option captures.

Definition in_ranges (ranges : list (ascii * ascii)) (c : ascii) : bool :=
  existsb (fun '(lo, hi) => (nat_of_ascii lo <=? nat_of_ascii c)%nat &&
                            (nat_of_ascii c <=? nat_of_ascii hi)%nat) ranges.

(** [m r k rest pos caps]: match [r] at offset [pos], where [rest] is what
    is left of the input, then go on with [k].  An iteration of a starred
    expression must consume input, so the loop runs at most once per byte
    left. *)
Fixpoint m (r : re) (k : cont) (rest : list ascii) (pos : nat) (caps : captures)
  {struct r} : option captures :=
  let loop (greedy : bool) (a : re) :=
    fix loop (n : nat) (rest : list ascii) (pos : nat) (caps : captures)
      {struct n} : option captures :=
      match n with
      | O => k rest pos caps
      | S n' =>
          let again : cont := fun rest' pos' caps' =>
            if (pos' =? pos)%nat then None else loop n' rest' pos' caps' in
          if greedy then
            match m a again rest pos caps with
            | Some c => Some c
            | None => k rest pos caps
            end
          else
            match k rest pos caps with
            | Some c => Some c
            | None => m a again rest pos caps
            end
      end in
  match r with
  | REmpty => k rest pos caps
  | RLit c =>
      match rest with
      | x :: t => if Ascii.eqb x c then k t (S pos) caps else None
      | [] => None
      end
  | RSet neg ranges =>
      match rest with
      | x :: t => if xorb neg (in_ranges ranges x) then k t (S pos) caps else None
      | [] => None
      end
  | RBegin => if (pos =? 0)%nat then k rest pos caps else None
  | REnd => match rest with [] => k rest pos caps | _ :: _ => None end
  | RCat a b => m a (m b k) rest pos caps
  | RAlt a b =>
      match m a k rest pos caps with
      | Some c => Some c
      | None => m b k rest pos caps
      end
  | RCap i a =>
      m a (fun rest' pos' caps' => k rest' pos' ((i, (pos, pos')) :: caps'))
        rest pos caps
  | RQuest greedy a =>
      if greedy then
        match m a k rest pos caps with
        | Some c => Some c
        | None => k rest pos caps
        end
      else
        match k rest pos caps with
        | Some c => Some c
        | None => m a k rest pos caps
        end
  | RStar greedy a => loop greedy a (S (List.length rest)) rest pos caps
  | RPlus greedy a =>
      m a (fun rest' pos' caps' =>
             loop greedy a (S (List.length rest')) rest' pos' caps')
        rest pos caps
  end.

(** The leftmost match: the first offset at which [r] matches. *)
Fixpoint search (r : re) (rest : list ascii) (pos : nat) : option captures :=
  match m r (fun _ e caps => Some ((O, (pos, e)) :: caps)) rest pos [] with
  | Some caps => Some caps
  | None =>
      match rest with
      | [] => None
      | _ :: t => search r t (S pos)
      end
  end.

Definition lookup_group (caps : captures) (i : nat) : option (nat * nat) :=
  snd <$> List.find (fun e => (fst e =? i)%nat) caps.

Definition group_text (s : string) (caps : captures) (i : nat) : string :=
  match lookup_group caps i with
  | Some (b, e) => String.substring b (e - b) s
  | None => ""
  end.

Record compiled := { prog : re; subexp_names : list string }.

(** Go's message goes on with the offending piece of the pattern, which is
    left out here. *)

Definition Compile (pattern : string) : error + compiled :=
  match parse pattern with
  | Parsed r names => inr {| prog := r; subexp_names := names |}
  | SyntaxError msg =>
      inl ("error parsing regexp: " +:+ msg)
  | Unsupported => inl ("pattern outside the modelled fragment: " +:+ pattern)
  end.

Definition FindStringSubmatch (re : compiled) (s : string) : option (list string) :=
  match search (prog re) (list_ascii_of_string s) 0%nat with
  | None => None
  | Some caps =>
      Some (map (group_text s caps) (List.seq 0%nat (List.length (subexp_names re))))
  end.

End regexp_syntax.

#[global] Instance regexp_fragment : Regexp := {|
  regex := regexp_syntax.compiled;
  regexp_Compile := regexp_syntax.Compile;
  re_FindStringSubmatch := regexp_syntax.FindStringSubmatch;
  re_SubexpNames := regexp_syntax.subexp_names
|}.

(** ** Package text/template: the interface the runtime calls *)

(** A Go function stored in a [FuncMap], as the engine calls it through
    reflection: it receives the evaluated arguments and either returns a
    value or is refused (wrong number of arguments, or an argument that is
    not assignable to a typed parameter). *)
Definition callable : Type := list value -> error + value.

(** [namespace] is the set of templates associated with one another, with
    their functions (what every [Template] of a family shares); [tmpl] is
    one parsed template.
    - [tmpl_New funcs] is [template.New("base").Funcs(funcs)];
    - [tmpl_Parse ns name text] is [t.New(name).Parse(text)] for a [t] of
      the family [ns]: the template parsed and the family with the
      definitions of [text] added, or the parse error, the family unchanged;
    - [tmpl_Execute ns t data] is [t.Execute(&out, data)]: what was written
      to [out], and the error that stopped the execution, if any. *)
Class TextTemplate := {
  namespace : Type;
  tmpl : Type;
  tmpl_New : gmap string callable -> namespace;
  tmpl_Parse : namespace -> string -> string -> error + (tmpl * namespace);
  tmpl_Execute : namespace -> tmpl -> value -> string * option error
}.

(** ** A fragment of Go's template language

    Text, actions that print a pipeline, [if]/[else]/[end], [define] and
    [template]; operands that are the dot, field chains, string, integer
    and boolean constants, [nil] and function calls; the builtins [eq],
    [ne] and [not].  Everything else (variables, [range], [with], [block],
    parentheses, trim markers, comments, the other builtins) is answered
    with an error that says so. *)
Module template_syntax.

Definition unsupported (what : string) : error :=
  "outside the modelled fragment: " +:+ what.

Inductive operand : Type :=
| ODot
| OField (chain : list string)
| OString (s : string)
| ONumber (z : Z)
| OBool (b : bool)
| ONil
| OIdent (f : string).

Definition command : Type := list operand.
Definition pipeline : Type := list command.

#[warnings="-register-all"]
Inductive node : Type :=
| NText (s : string)
| NAction (p : pipeline)
| NIf (p : pipeline) (yes no : list node)
| NTemplate (name : string) (arg : option pipeline).

(** *** Lexing *)

Inductive token : Type :=
| TWord (w : string)
| TString (s : string)
| TPipe.

Inductive item : Type :=
| IText (s : string)
| IAction (toks : list token).

Inductive lex_mode : Type :=
| InText (acc : list ascii)
| InAction (toks : list token)
| InWord (acc : list ascii) (toks : list token)
| InQuoted (acc : list ascii) (toks : list token)
| InQuotedEscape (acc : list ascii) (toks : list token)
| InRaw (acc : list ascii) (toks : list token).

Definition text_item (acc : list ascii) : list item :=
  match acc with
  | [] => []
  | _ => [IText (string_of_list_ascii (rev acc))]
  end.

Definition word_token (acc : list ascii) : token :=
  TWord (string_of_list_ascii (rev acc)).

Definition dquote : ascii := ascii_of_nat 34.

Definition is_blank (c : ascii) : bool :=
  Ascii.eqb c " " || Ascii.eqb c (ascii_of_nat 9) ||
  Ascii.eqb c (ascii_of_nat 10) || Ascii.eqb c (ascii_of_nat 13).

(** One pass over the text; [skip] is true on the second byte of a
    delimiter. *)
Fixpoint lex (mode : lex_mode) (skip : bool) (s : list ascii)
  : error + list item :=
  match s with
  | [] =>
      match mode with
      | InText acc => inr (text_item acc)
      | InQuoted _ _ | InQuotedEscape _ _ => inl "unterminated quoted string"
      | InRaw _ _ => inl "unterminated raw quoted string"
      | _ => inl "unclosed action"
      end
  | c :: r =>
      if skip then lex mode false r else
      let opens := match r with d :: _ => Ascii.eqb c "{" && Ascii.eqb d "{"
                                | [] => false end in
      let closes := match r with d :: _ => Ascii.eqb c "}" && Ascii.eqb d "}"
                                 | [] => false end in
      match mode with
      | InText acc =>
          if opens then
            match lex (InAction []) true r with
            | inl e => inl e
            | inr items => inr (text_item acc ++ items)
            end
          else lex (InText (c :: acc)) false r
      | InAction toks =>
          if closes then
            match lex (InText []) true r with
            | inl e => inl e
            | inr items => inr (IAction (rev toks) :: items)
            end
          else if is_blank c then lex (InAction toks) false r
          else if Ascii.eqb c "|" then lex (InAction (TPipe :: toks)) false r
          else if Ascii.eqb c dquote then lex (InQuoted [] toks) false r
          else if Ascii.eqb c "`" then lex (InRaw [] toks) false r
          else if Ascii.eqb c "(" || Ascii.eqb c ")"
               then inl (unsupported "parenthesized pipeline")
          else lex (InWord [c] toks) false r
      | InWord acc toks =>
          if closes then
            match lex (InText []) true r with
            | inl e => inl e
            | inr items => inr (IAction (rev (word_token acc :: toks)) :: items)
            end
          else if is_blank c then lex (InAction (word_token acc :: toks)) false r
          else if Ascii.eqb c "|"
               then lex (InAction (TPipe :: word_token acc :: toks)) false r
          else if Ascii.eqb c dquote || Ascii.eqb c "`" ||
                  Ascii.eqb c "(" || Ascii.eqb c ")"
               then inl (unsupported "operand glued to a word")
          else lex (InWord (c :: acc) toks) false r
      | InQuoted acc toks =>
          if Ascii.eqb c dquote then
            lex (InAction (TString (string_of_list_ascii (rev acc)) :: toks))
              false r
          else if Ascii.eqb c "\" then lex (InQuotedEscape acc toks) false r
          else if Ascii.eqb c (ascii_of_nat 10)
               then inl "unterminated quoted string"
          else lex (InQuoted (c :: acc) toks) false r
      | InQuotedEscape acc toks =>
          if Ascii.eqb c dquote || Ascii.eqb c "\"
          then lex (InQuoted (c :: acc) toks) false r
          else if Ascii.eqb c "n"
               then lex (InQuoted (ascii_of_nat 10 :: acc) toks) false r
          else if Ascii.eqb c "t"
               then lex (InQuoted (ascii_of_nat 9 :: acc) toks) false r
          else inl (unsupported "escape sequence in a string constant")
      | InRaw acc toks =>
          if Ascii.eqb c "`" then
            lex (InAction (TString (string_of_list_ascii (rev acc)) :: toks))
              false r
          else lex (InRaw (c :: acc) toks) false r
      end
  end.

Definition lex_text (text : string) : error + list item :=
  lex (InText []) false (list_ascii_of_string text).

(** *** Parsing *)

(** The names the engine predefines.  Only [eq], [ne] and [not] are
    modelled. *)
Definition builtin_names : list string :=
  ["and"; "call"; "html"; "index"; "slice"; "js"; "len"; "not"; "or";
   "print"; "printf"; "println"; "urlquery"; "eq"; "ge"; "gt"; "le"; "lt";
   "ne"].
Definition modelled_builtins : list string := ["eq"; "ne"; "not"].

Definition is_ident_start (c : ascii) : bool :=
  strings_pkg.is_lower c || strings_pkg.is_upper c || Ascii.eqb c "_".
Definition is_ident_byte (c : ascii) : bool :=
  is_ident_start c || strings_pkg.is_digit c.

Definition is_identifier (w : string) : bool :=
  match list_ascii_of_string w with
  | [] => false
  | c :: r => is_ident_start c && forallb is_ident_byte r
  end.

Definition all_digits (w : string) : bool :=
  negb (String.eqb w "") && forallb strings_pkg.is_digit (list_ascii_of_string w).

Definition digits_value (w : string) : Z :=
  fold_left (fun acc c => 10 * acc + (Z.of_nat (nat_of_ascii c) - 48))
            (list_ascii_of_string w) 0.

(** The operand a word stands for; [funcs] are the names of the [FuncMap]. *)
Definition operand_of_word (funcs : list string) (w : string) : error + operand :=
  if String.eqb w "." then inr ODot
  else if String.prefix "." w then
    let names := strings_pkg.Split (String.substring 1 (String.length w - 1) w) "." in
    if forallb is_identifier names then inr (OField names)
    else inl (unsupported ("field chain " +:+ w))
  else if String.eqb w "true" then inr (OBool true)
  else if String.eqb w "false" then inr (OBool false)
  else if String.eqb w "nil" then inr ONil
  else if all_digits w then inr (ONumber (digits_value w))
  else if String.prefix "-" w &&
          all_digits (String.substring 1 (String.length w - 1) w)
       then inr (ONumber (- digits_value (String.substring 1 (String.length w - 1) w)))
  else if is_identifier w then
    if bool_decide (w ∈ funcs) || bool_decide (w ∈ modelled_builtins)
    then inr (OIdent w)
    else if bool_decide (w ∈ builtin_names)
         then inl (unsupported ("builtin " +:+ w))
         else inl ("function " +:+ String dquote (w +:+ String dquote "")
                   +:+ " not defined")
  else inl (unsupported ("operand " +:+ w)).

(** The tokens of a pipeline, cut at the bars: [cur] is the command being
    read, [done] the finished ones, both last first. *)
Fixpoint pipeline_of (funcs : list string) (cur : command) (done : pipeline)
  (toks : list token) : error + pipeline :=
  let finish (k : pipeline -> error + pipeline) :=
    match cur with
    | [] => inl "missing value for command"
    | _ => k (rev cur :: done)
    end in
  match toks with
  | [] => finish (fun p => inr (rev p))
  | TPipe :: r => finish (fun p => pipeline_of funcs [] p r)
  | TString s :: r => pipeline_of funcs (OString s :: cur) done r
  | TWord w :: r =>
      match operand_of_word funcs w with
      | inl e => inl e
      | inr o => pipeline_of funcs (o :: cur) done r
      end
  end.

(** Go refuses at parse time a constant, the dot or [nil] as a stage after
    the first. *)
Definition executable_stage (c : command) : bool :=
  match c with
  | (OIdent _ | OField _) :: _ => true
  | _ => false
  end.

Definition parse_pipeline (funcs : list string) (toks : list token)
  : error + pipeline :=
  match pipeline_of funcs [] [] toks with
  | inl e => inl e
  | inr p =>
      match p with
      | [ONil] :: _ => inl "nil is not a command"
      | _ :: later =>
          if forallb executable_stage later then inr p
          else inl "non executable command in pipeline stage 2"
      | [] => inl "missing value for command"
      end
  end.

(** An open control structure and the nodes read inside it, last first. *)
Inductive frame : Type :=
| FDefine (name : string) (body : list node)
| FIf (p : pipeline) (yes : list node)
| FElse (p : pipeline) (yes no : list node).

Definition add_node (n : node) (f : frame) : frame :=
  match f with
  | FDefine name body => FDefine name (n :: body)
  | FIf p yes => FIf p (n :: yes)
  | FElse p yes no => FElse p yes (n :: no)
  end.

(** [IsEmptyTree]: nothing but white space. *)
Definition is_empty_tree (body : list node) : bool :=
  forallb (fun n => match n with
                    | NText s => String.eqb (strings_pkg.TrimSpace s) ""
                    | _ => false
                    end) body.

Record parse_state := {
  root : list node;                        (* top-level nodes, last first *)
  open : list frame;                       (* innermost first *)
  defs : list (string * list node)         (* finished definitions *)
}.

Definition emit (n : node) (st : parse_state) : parse_state :=
  match open st with
  | f :: outer => {| root := root st; open := add_node n f :: outer; defs := defs st |}
  | [] => {| root := n :: root st; open := []; defs := defs st |}
  end.

(** A finished tree joins the set of the trees of this text: an empty one
    gives way, two non-empty ones with the same name are an error. *)
Definition add_tree (name : string) (body : list node)
  (trees : list (string * list node)) : error + list (string * list node) :=
  match List.find (fun e => String.eqb (fst e) name) trees with
  | None => inr (trees ++ [(name, body)])
  | Some (_, old) =>
      if is_empty_tree old then
        inr (map (fun e => if String.eqb (fst e) name then (name, body) else e) trees)
      else if is_empty_tree body then inr trees
      else inl ("template: multiple definition of template " +:+
                String dquote (name +:+ String dquote ""))
  end.

Fixpoint parse_items (funcs : list string) (items : list item) (st : parse_state)
  : error + parse_state :=
  match items with
  | [] =>
      match open st with
      | [] => inr st
      | _ :: _ => inl "unexpected EOF"
      end
  | IText s :: r => parse_items funcs r (emit (NText s) st)
  | IAction toks :: r =>
      match toks with
      | [] => inl "missing value for command"
      | TWord "if" :: rest =>
          match parse_pipeline funcs rest with
          | inl e => inl e
          | inr p => parse_items funcs r
                       {| root := root st; open := FIf p [] :: open st;
                          defs := defs st |}
          end
      | [TWord "else"] =>
          match open st with
          | FIf p yes :: outer =>
              parse_items funcs r
                {| root := root st; open := FElse p yes [] :: outer;
                   defs := defs st |}
          | _ => inl "unexpected {{else}}"
          end
      | TWord "else" :: _ => inl (unsupported "else followed by a condition")
      | [TWord "end"] =>
          match open st with
          | [] => inl "unexpected {{end}}"
          | FDefine name body :: outer =>
              match add_tree name (rev body) (defs st) with
              | inl e => inl e
              | inr ds => parse_items funcs r
                            {| root := root st; open := outer; defs := ds |}
              end
          | FIf p yes :: outer =>
              parse_items funcs r
                (emit (NIf p (rev yes) [])
                   {| root := root st; open := outer; defs := defs st |})
          | FElse p yes no :: outer =>
              parse_items funcs r
                (emit (NIf p (rev yes) (rev no))
                   {| root := root st; open := outer; defs := defs st |})
          end
      | TWord "end" :: _ => inl "unexpected tokens after end"
      | [TWord "define"; TString name] =>
          match open st with
          | [] => parse_items funcs r
                    {| root := root st; open := [FDefine name []];
                       defs := defs st |}
          | _ :: _ => inl "unexpected <define> in command"
          end
      | TWord "define" :: _ => inl "unexpected tokens in define clause"
      | [TWord "template"; TString name] =>
          parse_items funcs r (emit (NTemplate name None) st)
      | TWord "template" :: TString name :: rest =>
          match parse_pipeline funcs rest with
          | inl e => inl e
          | inr p => parse_items funcs r (emit (NTemplate name (Some p)) st)
          end
      | TWord "template" :: _ => inl "unexpected tokens in template clause"
      | _ =>
          match toks with
          | TWord w :: _ =>
              if bool_decide (w ∈ ["range"; "with"; "block"; "break"; "continue"])
              then inl (unsupported ("action " +:+ w))
              else match parse_pipeline funcs toks with
                   | inl e => inl e
                   | inr p => parse_items funcs r (emit (NAction p) st)
                   end
          | _ =>
              match parse_pipeline funcs toks with
              | inl e => inl e
              | inr p => parse_items funcs r (emit (NAction p) st)
              end
          end
      end
  end.

(** The trees of a text parsed under the name [name]: the definitions in
    the order they end, then the top level. *)
Definition parse_text (funcs : list string) (name text : string)
  : error + (list node * list (string * list node)) :=
  match lex_text text with
  | inl e => inl e
  | inr items =>
      match parse_items funcs items {| root := []; open := []; defs := [] |} with
      | inl e => inl e
      | inr st =>
          match add_tree name (rev (root st)) (defs st) with
          | inl e => inl e
          | inr trees =>
              inr (default [] (snd <$> List.find (fun e => String.eqb (fst e) name) trees),
                   trees)
          end
      end
  end.

(** *** Execution *)

(** The result of an operand: [None] is Go's invalid [reflect.Value], what
    a map gives for a key it does not have. *)
Definition result : Type := option value.

Definition truth (v : result) : bool :=
  match v with
  | None | Some VNil => false
  | Some (VStr s) => negb (String.eqb s "")
  | Some (VInt z) => negb (z =? 0)%Z
  | Some (VBool b) => b
  | Some (VStrs l) => negb (bool_decide (l = []))
  | Some (VList l) => match l with [] => false | _ => true end
  | Some (VMap m) => negb (bool_decide (map_to_list m = []))
  end.

Definition print_value (v : result) : string :=
  match v with
  | None | Some VNil => "<no value>"
  | Some v => fmt_pkg.Sprint v
  end.

(** An argument as a function receives it in a parameter of type [any]. *)
Definition as_any (v : result) : value := default VNil v.

Definition eval_field (recv : result) (name : string) : error + result :=
  match recv with
  | None => inr None
  | Some (VMap m) => inr (m !! name)
  | Some VNil => inl ("nil pointer evaluating interface {}." +:+ name)
  | Some _ => inl ("can't evaluate field " +:+ name)
  end.

Fixpoint eval_chain (recv : result) (chain : list string) : error + result :=
  match chain with
  | [] => inr recv
  | name :: r =>
      match eval_field recv name with
      | inl e => inl e
      | inr v => eval_chain v r
      end
  end.

Definition is_basic (v : value) : bool :=
  match v with
  | VStr _ | VInt _ | VBool _ => true
  | _ => false
  end.

Definition builtin_eq (a b : value) : error + bool :=
  match a, b with
  | VStr x, VStr y => inr (String.eqb x y)
  | VInt x, VInt y => inr (x =? y)%Z
  | VBool x, VBool y => inr (Bool.eqb x y)
  | e1, e2 =>
      if is_basic e1 && is_basic e2
      then inl "incompatible types for comparison"
      else inl (unsupported "comparison of values that are not basic")
  end.

(** A call: the functions of the [FuncMap] come before the builtins. *)
Definition call_function (funcs : gmap string callable) (f : string)
  (args : list value) : error + result :=
  match funcs !! f with
  | Some fn =>
      match fn args with
      | inl e => inl ("error calling " +:+ f +:+ ": " +:+ e)
      | inr v => inr (Some v)
      end
  | None =>
      if String.eqb f "eq" || String.eqb f "ne" then
        match args with
        | [a; b] =>
            match builtin_eq a b with
            | inl e => inl ("error calling " +:+ f +:+ ": " +:+ e)
            | inr r => inr (Some (VBool (if String.eqb f "eq" then r else negb r)))
            end
        | [] | [_] => inl ("error calling " +:+ f +:+ ": missing argument for comparison")
        | _ => inl (unsupported "comparison with more than two operands")
        end
      else if String.eqb f "not" then
        match args with
        | [a] => inr (Some (VBool (negb (truth (Some a)))))
        | _ => inl "wrong number of args for not: want 1"
        end
      else inl (String dquote (f +:+ String dquote "") +:+ " is not a defined function")
  end.

(** An operand in argument position. *)
Definition eval_arg (funcs : gmap string callable) (dot : result) (o : operand)
  : error + result :=
  match o with
  | ODot => inr dot
  | OField chain => eval_chain dot chain
  | OString s => inr (Some (VStr s))
  | ONumber z => inr (Some (VInt z))
  | OBool b => inr (Some (VBool b))
  | ONil => inr (Some VNil)
  | OIdent f => call_function funcs f []
  end.

Fixpoint eval_args (funcs : gmap string callable) (dot : result)
  (os : list operand) : error + list value :=
  match os with
  | [] => inr []
  | o :: r =>
      match eval_arg funcs dot o with
      | inl e => inl e
      | inr v =>
          match eval_args funcs dot r with
          | inl e => inl e
          | inr vs => inr (as_any v :: vs)
          end
      end
  end.

(** One stage of a pipeline; [final] is the result of the stage before, if
    there is one, and becomes the last argument. *)
Definition eval_command (funcs : gmap string callable) (dot : result)
  (c : command) (final : option result) : error + result :=
  match c with
  | [] => inl "empty command"
  | OIdent f :: os =>
      match eval_args funcs dot os with
      | inl e => inl e
      | inr vs =>
          call_function funcs f
            (vs ++ match final with Some v => [as_any v] | None => [] end)
      end
  | OField chain :: os =>
      match os, final with
      | [], None => eval_chain dot chain
      | _, _ =>
          match eval_chain dot (removelast chain) with
          | inl e => inl e
          | inr None => inr None
          | inr (Some (VMap _)) =>
              inl (List.last chain "" +:+ " is not a method but has arguments")
          | inr (Some VNil) =>
              inl ("nil pointer evaluating interface {}." +:+ List.last chain "")
          | inr (Some _) => inl ("can't evaluate field " +:+ List.last chain "")
          end
      end
  | ONil :: _ => inl "nil is not a command"
  | o :: os =>
      match os, final with
      | [], None => eval_arg funcs dot o
      | _, _ => inl "can't give argument to non-function"
      end
  end.

Fixpoint eval_stages (funcs : gmap string callable) (dot : result)
  (p : pipeline) (final : option result) : error + result :=
  match p with
  | [] => inr (default None final)
  | c :: r =>
      match eval_command funcs dot c final with
      | inl e => inl e
      | inr v => eval_stages funcs dot r (Some v)
      end
  end.

Definition eval_pipeline (funcs : gmap string callable) (dot : result)
  (p : pipeline) : error + result :=
  eval_stages funcs dot p None.

(** What has been written and the error that stopped the writing. *)
Definition output : Type := string * option error.

Definition then_output (a : output) (b : unit -> output) : output :=
  match snd a with
  | Some _ => a
  | None => let r := b tt in (fst a +:+ fst r, snd r)
  end.

(** The walk over a tree; [call] executes a template by name. *)
Fixpoint walk (funcs : gmap string callable)
  (call : string -> result -> output) (dot : result) (n : node) : output :=
  let walk_list :=
    fix walk_list (l : list node) : output :=
      match l with
      | [] => ("", None)
      | n :: r =>
          then_output (walk funcs call dot n) (fun _ => walk_list r)
      end in
  match n with
  | NText s => (s, None)
  | NAction p =>
      match eval_pipeline funcs dot p with
      | inl e => ("", Some e)
      | inr v => (print_value v, None)
      end
  | NIf p yes no =>
      match eval_pipeline funcs dot p with
      | inl e => ("", Some e)
      | inr v => if truth v then walk_list yes else walk_list no
      end
  | NTemplate name arg =>
      match arg with
      | None => call name None
      | Some p =>
          match eval_pipeline funcs dot p with
          | inl e => ("", Some e)
          | inr v => call name v
          end
      end
  end.

Fixpoint walk_list (funcs : gmap string callable)
  (call : string -> result -> output) (dot : result) (l : list node) : output :=
  match l with
  | [] => ("", None)
  | n :: r =>
      then_output (walk funcs call dot n) (fun _ => walk_list funcs call dot r)
  end.

(** The family of associated templates. *)
Record family := {
  funcs : gmap string callable;
  trees : gmap string (list node)
}.

(** The engine's bound on nested template calls. *)
Definition maxExecDepth : nat := Z.to_nat 100000.

(** [call_template budget ns name dot]: execute the template [name] when
    [budget] more levels of nesting are allowed. *)
Fixpoint call_template (budget : nat) (ns : family) (name : string) (dot : result)
  : output :=
  match budget with
  | O => ("", Some "exceeded maximum template depth (100000)")
  | S budget =>
      match trees ns !! name with
      | None => ("", Some ("template " +:+ String dquote (name +:+ String dquote "")
                           +:+ " not defined"))
      | Some body => walk_list (funcs ns) (call_template budget ns) dot body
      end
  end.

Definition Execute (ns : family) (t : list node) (data : value) : output :=
  walk_list (funcs ns) (call_template maxExecDepth ns) (Some data) t.

(** A parsed tree joins the family unless it is empty and the name is
    taken. *)
Definition associate (ns : family) (e : string * list node) : family :=
  match trees ns !! fst e with
  | Some _ =>
      if is_empty_tree (snd e) then ns
      else {| funcs := funcs ns; trees := <[fst e := snd e]> (trees ns) |}
  | None => {| funcs := funcs ns; trees := <[fst e := snd e]> (trees ns) |}
  end.

Definition Parse (ns : family) (name text : string)
  : error + (list node * family) :=
  match parse_text (fst <$> map_to_list (funcs ns)) name text with
  | inl e => inl ("template: " +:+ name +:+ ": " +:+ e)
  | inr (own, parsed) => inr (own, fold_left associate parsed ns)
  end.

Definition New (fm : gmap string callable) : family :=
  {| funcs := fm; trees := ∅ |}.

End template_syntax.

#[global] Instance template_fragment : TextTemplate := {|
  namespace := template_syntax.family;
  tmpl := list template_syntax.node;
  tmpl_New := template_syntax.New;
  tmpl_Parse := template_syntax.Parse;
  tmpl_Execute := template_syntax.Execute
|}.

(** * Package schema *)
Module schema.

Record Meta := { Name : string; Description : string }.

Record ResponseDefinition := {
  Status : Z;
  Headers : option (gmap string string);
  Body : string
}.

Record Route := {
  Path : string;
  Method : string;
  Response : ResponseDefinition
}.

Record OnMessageRule := { If : string; Respond : string }.

Record OnMessage := {
  Match : string;
  Conditions : list OnMessageRule;
  Else : string
}.

Record FileEntry := { FilePath : string; Content : string }.

Record SFTPAuth := {
  Username : string;
  Password : string;
  PublicKeyPath : string
}.

Record Session := { Timeout : string }.

Record Context := { Variables : option (gmap string value) }.

Record MockDefinition := {
  Protocol : string;
  Port : Z;
  DefMeta : Meta;
  Routes : list Route;
  DefOnMessage : option OnMessage;
  Files : list FileEntry;
  DefSFTPAuth : option SFTPAuth;
  DefSession : option Session;
  DefContext : option Context;
  Functions : option (gmap string string);
  Import : list string
}.

(** [Validate]: a switch on the protocol string, one arm per protocol. *)
Definition Validate (def : MockDefinition) : option error :=
  if String.eqb (Protocol def) "http" then
    if (List.length (Routes def) =? 0)%nat
    then Some "⚠️ 'routes' must be defined for HTTP protocol"
    else None
  else if String.eqb (Protocol def) "tcp" || String.eqb (Protocol def) "ws" then
    match DefOnMessage def with
    | None => Some "⚠️ 'onMessage' must be defined for TCP/WS protocol"
    | Some _ => None
    end
  else if String.eqb (Protocol def) "sftp" then
    if (List.length (Files def) =? 0)%nat
    then Some "⚠️ 'files' must be defined for SFTP protocol"
    else match DefSFTPAuth def with
         | None => Some "⚠️ 'sftpAuth' must be defined for SFTP protocol"
         | Some auth =>
             if String.eqb (Username auth) "" || String.eqb (Password auth) ""
             then Some "⚠️ 'sftpAuth' must include username and password"
             else None
         end
  else Some ("❌ unsupported protocol: " +:+ Protocol def).

(** The definition [def] with its port replaced. *)
Definition with_port (def : MockDefinition) (p : Z) : MockDefinition :=
  {| Protocol := Protocol def; Port := p; DefMeta := DefMeta def;
     Routes := Routes def; DefOnMessage := DefOnMessage def;
     Files := Files def; DefSFTPAuth := DefSFTPAuth def;
     DefSession := DefSession def; DefContext := DefContext def;
     Functions := Functions def; Import := Import def |}.

(** A definition with nothing in it but a protocol and a port. *)
Definition bare (proto : string) (port : Z) : MockDefinition :=
  {| Protocol := proto; Port := port;
     DefMeta := {| Name := ""; Description := "" |};
     Routes := []; DefOnMessage := None; Files := []; DefSFTPAuth := None;
     DefSession := None; DefContext := None; Functions := None; Import := [] |}.

Definition with_routes (def : MockDefinition) (rs : list Route) : MockDefinition :=
  {| Protocol := Protocol def; Port := Port def; DefMeta := DefMeta def;
     Routes := rs; DefOnMessage := DefOnMessage def;
     Files := Files def; DefSFTPAuth := DefSFTPAuth def;
     DefSession := DefSession def; DefContext := DefContext def;
     Functions := Functions def; Import := Import def |}.

(** The route of the loader's test: [GET /ping] answering [pong]. *)
Definition ping_route : Route :=
  {| Path := "/ping"; Method := "GET";
     Response := {| Status := 200; Headers := None; Body := "pong" |} |}.

End schema.

(** * The process and its surroundings *)

(** ** What the runtime reads and changes outside its own memory *)

Inductive fnode : Type :=
| FFile (content : string)
| FDir.

Inductive level : Type := Debug | Info | Warn | Error | Fatal.

(** A log entry: level, message and the fields attached to it. *)
Record entry := { lvl : level; msg : string; fields : list (string * string) }.

(** An accepted TCP connection: its number and what the one [Read] of the
    handler returns, the bytes received or an error. *)
Record Conn := { conn_id : nat; conn_input : error + string }.

(** A goroutine, by the call that was started with [go]. *)
Inductive task : Type :=
| TcpAcceptLoop (def : schema.MockDefinition)
| TcpHandleConnection (conn : Conn) (def : schema.MockDefinition)
| WsListenAndServe (def : schema.MockDefinition)
| HttpListenAndServe (def : schema.MockDefinition)
| SftpAcceptConnections
| SftpHandleConn (conn : nat).

(** [w_fs]: the files and directories, by cleaned path, relative ones from
    the working directory.  [w_web]: the status and body an HTTP GET of a
    URL answers; no entry, no answer.  [w_ports]: the TCP ports that are
    being listened on.  [w_mux]: the patterns registered with
    [http.DefaultServeMux].  [w_log]: the calls made to the logger, oldest
    first, whatever the level that the logger prints.
    [w_wire]: what was written to each connection, in order.  [w_closed]:
    the calls of [Close] on connections.  [w_spawned]: the goroutines
    started, in order. *)
Record World := {
  w_fs : gmap string fnode;
  w_web : gmap string (Z * string);
  w_ports : gset Z;
  w_mux : gset string;
  w_log : list entry;
  w_wire : list (nat * string);
  w_closed : list nat;
  w_spawned : list task
}.

Definition empty_world : World :=
  {| w_fs := ∅; w_web := ∅; w_ports := ∅; w_mux := ∅; w_log := [];
     w_wire := []; w_closed := []; w_spawned := [] |}.

(** ** Code that runs in the process

    A call returns, panics, or ends the process ([os.Exit], which
    [logrus]'s [Fatal] calls with status 1). *)
Inductive outcome (A : Type) : Type :=
| Returned (a : A)
| Panicked (reason : string)
| Exited (status : Z).
Arguments Returned {A} a.
Arguments Panicked {A} reason.
Arguments Exited {A} status.

Definition M (A : Type) : Type := World -> outcome A * World.

Definition ret {A} (a : A) : M A := fun w => (Returned a, w).

Definition bind {A B} (c : M A) (k : A -> M B) : M B :=
  fun w =>
    match c w with
    | (Returned a, w') => k a w'
    | (Panicked r, w') => (Panicked r, w')
    | (Exited s, w') => (Exited s, w')
    end.

Declare Scope go_scope.
Delimit Scope go_scope with go.
Notation "'let!' x ':=' c 'in' k" := (bind c (fun x => k))
  (at level 10, x pattern, c at level 100, k at level 200) : go_scope.
Notation "c ;;; k" := (bind c (fun _ => k))
  (at level 100, right associativity) : go_scope.
Open Scope go_scope.

Definition panic {A} (reason : string) : M A := fun w => (Panicked reason, w).

Definition modify (f : World -> World) : M unit := fun w => (Returned tt, f w).

Definition gets {A} (f : World -> A) : M A := fun w => (Returned (f w), w).

(** [defer d] around [body]: [d] runs when [body] returns and when it
    panics, not when the process exits. *)
Definition deferring {A} (d : M unit) (body : M A) : M A :=
  fun w =>
    match body w with
    | (Returned a, w') =>
        match d w' with
        | (Returned _, w'') => (Returned a, w'')
        | (Panicked r, w'') => (Panicked r, w'')
        | (Exited s, w'') => (Exited s, w'')
        end
    | (Panicked r, w') =>
        match d w' with
        | (Exited s, w'') => (Exited s, w'')
        | (_, w'') => (Panicked r, w'')
        end
    | (Exited s, w') => (Exited s, w')
    end.

Definition log_with (l : level) (m : string) (fs : list (string * string)) : M unit :=
  modify (fun w =>
    {| w_fs := w_fs w; w_web := w_web w; w_ports := w_ports w;
       w_mux := w_mux w;
       w_log := w_log w ++ [{| lvl := l; msg := m; fields := fs |}];
       w_wire := w_wire w; w_closed := w_closed w; w_spawned := w_spawned w |}).

Definition log (l : level) (m : string) : M unit := log_with l m [].

(** [logger.Fatal]: the entry, then [os.Exit(1)]. *)
Definition fatal {A} (m : string) : M A :=
  fun w => match log Fatal m w with (_, w') => (Exited 1, w') end.

(** [go t]. *)
Definition spawn (t : task) : M unit :=
  modify (fun w =>
    {| w_fs := w_fs w; w_web := w_web w; w_ports := w_ports w;
       w_mux := w_mux w; w_log := w_log w;
       w_wire := w_wire w; w_closed := w_closed w;
       w_spawned := w_spawned w ++ [t] |}).

Definition set_fs (fs : gmap string fnode) : M unit :=
  modify (fun w =>
    {| w_fs := fs; w_web := w_web w; w_ports := w_ports w;
       w_mux := w_mux w; w_log := w_log w;
       w_wire := w_wire w; w_closed := w_closed w; w_spawned := w_spawned w |}).

(** ** Package os: files *)
Module os.

(** The working directory, the root and the directories above the working
    directory are there whatever [w_fs] says. *)
Definition is_ambient_dir (p : string) : bool :=
  String.eqb p "." || String.eqb p "/" ||
  forallb (String.eqb "..") (strings_pkg.Split p "/").

Definition stat (fs : gmap string fnode) (p : string) : option fnode :=
  if is_ambient_dir p then Some FDir else fs !! p.

Definition ReadFile (name : string) : M (string * option error) :=
  let! fs := gets w_fs in
  match stat fs (filepath.Clean name) with
  | Some (FFile c) => ret (c, None)
  | Some FDir => ret ("", Some ("read " +:+ name +:+ ": is a directory"))
  | None => ret ("", Some ("open " +:+ name +:+ ": no such file or directory"))
  end.

(** The path itself and the directories it goes through, outermost first. *)
Fixpoint prefixes_from (before : string) (comps : list string) : list string :=
  match comps with
  | [] => []
  | c :: r =>
      let here := if String.eqb before "" then c
                  else if String.eqb before "/" then "/" +:+ c
                  else before +:+ "/" +:+ c in
      here :: prefixes_from here r
  end.

Definition prefixes (p : string) : list string :=
  let q := filepath.Clean p in
  if String.prefix "/" q
  then prefixes_from "/" (filter (fun c => c <> "") (strings_pkg.Split q "/"))
  else prefixes_from "" (strings_pkg.Split q "/").

Fixpoint mkdir_each (fs : gmap string fnode) (ps : list string)
  : error + gmap string fnode :=
  match ps with
  | [] => inr fs
  | p :: r =>
      match stat fs p with
      | Some FDir => mkdir_each fs r
      | Some (FFile _) => inl ("mkdir " +:+ p +:+ ": not a directory")
      | None => mkdir_each (<[p := FDir]> fs) r
      end
  end.

(** [MkdirAll]: every missing directory on the way is created; a file on
    the way is an error and nothing after it is created. *)
Definition MkdirAll (path : string) : M (option error) :=
  let! fs := gets w_fs in
  match mkdir_each fs (prefixes path) with
  | inl e => ret (Some e)
  | inr fs' => set_fs fs' ;;; ret None
  end.

(** [WriteFile]: the directory must be there and the name must not be a
    directory; the content replaces what the file had. *)
Definition WriteFile (name data : string) : M (option error) :=
  let! fs := gets w_fs in
  let p := filepath.Clean name in
  match stat fs p with
  | Some FDir => ret (Some ("open " +:+ name +:+ ": is a directory"))
  | _ =>
      match stat fs (filepath.Dir p) with
      | Some FDir => set_fs (<[p := FFile data]> fs) ;;; ret None
      | Some (FFile _) => ret (Some ("open " +:+ name +:+ ": not a directory"))
      | None => ret (Some ("open " +:+ name +:+ ": no such file or directory"))
      end
  end.

End os.

(** ** Package net: listeners and connections *)
Module net.

(** The error that [Accept] returns once the listener is closed is a
    [*net.OpError] around an error with this text. *)
Definition closed_text : string := "use of closed network connection".

(** An error of [Accept]: a [*net.OpError] around an inner error, or
    anything else. *)
Inductive accept_error : Type :=
| OpError (inner : string)
| OtherError (text : string).

Definition accept_error_text (e : accept_error) : string :=
  match e with
  | OpError inner => "accept tcp: " +:+ inner
  | OtherError t => t
  end.

Definition set_ports (ps : gset Z) : M unit :=
  modify (fun w =>
    {| w_fs := w_fs w; w_web := w_web w; w_ports := ps;
       w_mux := w_mux w; w_log := w_log w;
       w_wire := w_wire w; w_closed := w_closed w; w_spawned := w_spawned w |}).

(** [net.Listen("tcp", ":port")]: the listener, named by its port, or the
    error.  Port 0 asks the system for a free port. *)
Definition Listen (port : Z) : M (option Z * option error) :=
  let! ps := gets w_ports in
  if (port <? 0) || (65535 <? port)
  then ret (None, Some ("listen tcp: address " +:+ fmt_pkg.itoa port +:+ ": invalid port"))
  else if bool_decide (port ∈ ps)
  then ret (None, Some ("listen tcp :" +:+ fmt_pkg.itoa port +:+
                        ": bind: address already in use"))
  else if port =? 0 then ret (Some 0, None)
  else set_ports ({[port]} ∪ ps) ;;; ret (Some port, None).

(** [Close] of a listener. *)
Definition CloseListener (ln : Z) : M (option error) :=
  let! ps := gets w_ports in
  set_ports (ps ∖ {[ln]}) ;;; ret None.

Definition Write (conn : nat) (data : string) : M unit :=
  modify (fun w =>
    {| w_fs := w_fs w; w_web := w_web w; w_ports := w_ports w;
       w_mux := w_mux w; w_log := w_log w;
       w_wire := w_wire w ++ [(conn, data)]; w_closed := w_closed w;
       w_spawned := w_spawned w |}).

Definition Close (conn : nat) : M unit :=
  modify (fun w =>
    {| w_fs := w_fs w; w_web := w_web w; w_ports := w_ports w;
       w_mux := w_mux w; w_log := w_log w;
       w_wire := w_wire w; w_closed := w_closed w ++ [conn];
       w_spawned := w_spawned w |}).

End net.

(** ** What the template functions take from outside: the clock, the
    source of UUIDs and [json.Marshal]

    One reading of the clock and one UUID stand for all the calls of [now]
    and [uuid] in a run. *)
Class Ambient := {
  time_Now_RFC3339 : string;
  uuid_NewString : string;
  json_Marshal : value -> error + string
}.

(** * Package extensions *)
Module extensions.

Record Extension := {
  Name : string;
  Source : string;
  Content : string
}.

Record Registry := { Extensions : gmap string Extension }.

Definition NewRegistry : Registry := {| Extensions := ∅ |}.

Definition Register (r : Registry) (name content source : string) : Registry :=
  {| Extensions :=
       <[name := {| Name := name; Source := source; Content := content |}]>
         (Extensions r) |}.

Definition Get (r : Registry) (name : string) : option Extension :=
  Extensions r !! name.

(** [LoadKurof]: a source that starts with [http://] or [https://] is
    fetched, any other is read as a local file. *)
Definition LoadKurof (source : string) : M (string * option error) :=
  if strings_pkg.HasPrefix source "http://" ||
     strings_pkg.HasPrefix source "https://"
  then
    let! web := gets w_web in
    match web !! source with
    | None => ret ("", Some ("Get " +:+ source +:+ ": no answer"))
    | Some (status, body) =>
        if negb (status =? 200)%Z
        then ret ("", Some "failed to fetch remote kurof")
        else ret (body, None)
    end
  else os.ReadFile source.

End extensions.

(** * Package template *)
Module template.
Section template.
Context `{Regexp} `{TextTemplate} `{Ambient}.

(** ** functions.go *)

Definition safeContains (s substr : value) : bool :=
  match s, substr with
  | VStr str, VStr sub => strings_pkg.Contains str sub
  | _, _ => false
  end.

Definition safeRegexMatch (pat val : value) : bool :=
  match pat, val with
  | VStr p, VStr v => fst (regexp_MatchString p v)
  | _, _ => false
  end.

Definition safeUpper (val : value) : string :=
  strings_pkg.ToUpper (fmt_pkg.Sprint val).

Definition safeLower (val : value) : string :=
  match val with
  | VStr s => strings_pkg.ToLower s
  | _ => "error: not a string"
  end.

Definition safeTitle (val : value) : string :=
  match val with
  | VStr s => strings_pkg.Title s
  | _ => "error: not a string"
  end.

Definition safeTrim (val : value) : string :=
  match val with
  | VStr s => strings_pkg.TrimSpace s
  | _ => "error: not a string"
  end.

Definition safeSplit (str sep : value) : list string :=
  match str, sep with
  | VStr s, VStr sepStr => strings_pkg.Split s sepStr
  | _, _ => []
  end.

(** The separator of [safeJoin] is declared a [string]. *)
Definition safeJoin (arr : value) (sep : string) : string :=
  match arr with
  | VStrs l => strings_pkg.Join l sep
  | _ => "error: expected []string"
  end.

Definition safeReplace (s old new : value) : string :=
  match s, old, new with
  | VStr str, VStr oldStr, VStr newStr => strings_pkg.ReplaceAll str oldStr newStr
  | _, _, _ => "error: invalid args"
  end.

(** [safeLen]: the length of a string in bytes, of a slice, of a map; 0 for
    nil and for every other kind. *)
Definition safeLen (v : value) : Z :=
  match v with
  | VStr s => Z.of_nat (String.length s)
  | VStrs l => Z.of_nat (List.length l)
  | VList l => Z.of_nat (List.length l)
  | VMap m => Z.of_nat (size m)
  | VNil | VInt _ | VBool _ => 0
  end.

(** [reflect.Value.IsZero] on the values modelled: slices and maps here are
    not nil. *)
Definition IsZero (v : value) : bool :=
  match v with
  | VStr s => String.eqb s ""
  | VInt z => (z =? 0)%Z
  | VBool b => negb b
  | VNil => true
  | VStrs _ | VList _ | VMap _ => false
  end.

Definition safeDefault (val defaultValue : value) : value :=
  match val with
  | VNil => defaultValue
  | _ =>
      if match val with VStr str => String.eqb str "" | _ => false end
      then defaultValue
      else if IsZero val then defaultValue
      else val
  end.

Definition toJSON (v : value) : string :=
  match json_Marshal v with
  | inl err => String template_syntax.dquote
                 ("error: " +:+ err +:+ String template_syntax.dquote "")
  | inr b => b
  end.

(** *** The functions as the engine calls them

    The engine checks the number of arguments and, for a parameter that is
    not [any], that the argument is assignable to it; only then does it
    call the function. *)
Definition wrong_number (name : string) : error :=
  "wrong number of args for " +:+ name.
Definition wrong_type (expected : string) : error :=
  "wrong type for value; expected " +:+ expected.

Definition fn0 (name : string) (f : value) : callable :=
  fun args => match args with [] => inr f | _ => inl (wrong_number name) end.
Definition fn1 (name : string) (f : value -> value) : callable :=
  fun args => match args with [a] => inr (f a) | _ => inl (wrong_number name) end.
Definition fn2 (name : string) (f : value -> value -> value) : callable :=
  fun args => match args with [a; b] => inr (f a b) | _ => inl (wrong_number name) end.
Definition fn3 (name : string) (f : value -> value -> value -> value) : callable :=
  fun args =>
    match args with [a; b; c] => inr (f a b c) | _ => inl (wrong_number name) end.

Definition fn_join : callable :=
  fun args =>
    match args with
    | [arr; VStr sep] => inr (VStr (safeJoin arr sep))
    | [_; _] => inl (wrong_type "string")
    | _ => inl (wrong_number "join")
    end.

Definition FuncMap : gmap string callable :=
  list_to_map
    [("now", fn0 "now" (VStr time_Now_RFC3339));
     ("uuid", fn0 "uuid" (VStr uuid_NewString));
     ("toJSON", fn1 "toJSON" (fun v => VStr (toJSON v)));
     ("contains", fn2 "contains" (fun s sub => VBool (safeContains s sub)));
     ("regexMatch", fn2 "regexMatch" (fun p v => VBool (safeRegexMatch p v)));
     ("upper", fn1 "upper" (fun v => VStr (safeUpper v)));
     ("lower", fn1 "lower" (fun v => VStr (safeLower v)));
     ("title", fn1 "title" (fun v => VStr (safeTitle v)));
     ("trim", fn1 "trim" (fun v => VStr (safeTrim v)));
     ("split", fn2 "split" (fun s sep => VStrs (safeSplit s sep)));
     ("join", fn_join);
     ("replace", fn3 "replace" (fun s o n => VStr (safeReplace s o n)));
     ("len", fn1 "len" (fun v => VInt (safeLen v)));
     ("default", fn2 "default" safeDefault)].

(** ** context.go *)

Definition MergeContext (input session global : option (gmap string value))
  : gmap string value :=
  let session := match session with None => ∅ | Some m => m end in
  let global := match global with None => ∅ | Some m => m end in
  let input := match input with None => ∅ | Some m => m end in
  <["input" := VMap input]>
    (<["session" := VMap session]>
       (<["context" := VMap global]> ∅)).

(** ** engine.go *)

Record Runtime := {
  templates : namespace;
  context : gmap string value
}.

(** The extensions are parsed one after the other into the family of
    [base]; Go ranges over the registry in no fixed order, here it is the
    order of [map_to_list]. *)
Fixpoint parse_extensions (t : namespace) (exts : list extensions.Extension)
  : error + namespace :=
  match exts with
  | [] => inr t
  | ext :: r =>
      match tmpl_Parse t (extensions.Name ext) (extensions.Content ext) with
      | inl err => inl err
      | inr (_, t') => parse_extensions t' r
      end
  end.

Definition NewRuntime (ctx : gmap string value) (registry : extensions.Registry)
  : error + Runtime :=
  let t := tmpl_New FuncMap in
  match parse_extensions t (snd <$> map_to_list (extensions.Extensions registry)) with
  | inl err => inl err
  | inr t' => inr {| templates := t'; context := ctx |}
  end.

(** [Render]: the text written, the error, and the runtime, whose family
    now has the template [name] and the definitions of [raw]. *)
Definition Render (r : Runtime) (name raw : string)
  : string * option error * Runtime :=
  match tmpl_Parse (templates r) name raw with
  | inl err => ("", Some err, r)
  | inr (t, ns) =>
      let '(out, err) := tmpl_Execute ns t (VMap (context r)) in
      (out, err, {| templates := ns; context := context r |})
  end.

End template.
End template.

(** * Package runtime *)
Module runtime.
Section runtime.
Context `{Regexp} `{TextTemplate} `{Ambient}.

Import schema.

(** The panic of a nil pointer dereference. *)
Definition nil_dereference : string :=
  "runtime error: invalid memory address or nil pointer dereference".

(** [x.f] for a pointer [x]. *)
Definition deref {A} (p : option A) : M A :=
  match p with
  | Some a => ret a
  | None => panic nil_dereference
  end.

(** ** handler.go *)

Fixpoint loadExtensions_from (registry : extensions.Registry)
  (imports : list string) : M extensions.Registry :=
  match imports with
  | [] => ret registry
  | src :: rest =>
      let! (code, err) := extensions.LoadKurof src in
      match err with
      | Some e =>
          log_with Warn "failed to load .kurof file" [("file", src); ("err", e)] ;;;
          loadExtensions_from registry rest
      | None =>
          log_with Info "loaded .kurof file" [("file", src)] ;;;
          loadExtensions_from (extensions.Register registry src code src) rest
      end
  end.

Definition loadExtensions (imports : list string) : M extensions.Registry :=
  loadExtensions_from extensions.NewRegistry imports.

(** [regexp.MustCompile]: the expression, or a panic. *)
Definition MustCompile (pattern : string) : M regex :=
  match regexp_Compile pattern with
  | inr re => ret re
  | inl err => panic ("regexp: Compile(`" +:+ pattern +:+ "`): " +:+ err)
  end.

(** The loop of [extractVars] over the group names, [i] being the index of
    the first of [names]. *)
Fixpoint bind_groups (i : nat) (names : list string) (found : list string)
  (result : gmap string value) : gmap string value :=
  match names with
  | [] => result
  | name :: rest =>
      bind_groups (S i) rest found
        (if negb (i =? 0)%nat && negb (String.eqb name "") &&
            (i <? List.length found)%nat
         then <[name := VStr (nth i found "")]> result
         else result)
  end.

Definition extractVars (input pattern : string) : M (gmap string value) :=
  if String.eqb pattern "" then ret {["msg" := VStr input]}
  else
    let! re := MustCompile pattern in
    let found := default [] (re_FindStringSubmatch re input) in
    let names := re_SubexpNames re in
    ret (bind_groups 0 names found ∅).

(** The context of one message, as [handleConnection] and the WebSocket
    loop build it: the captures as [input], no session, the variables of
    the definition. *)
Definition message_context (matches : gmap string value) (context : Context)
  : gmap string value :=
  template.MergeContext (Some matches) None (Variables context).

(** ** tcp.go *)

Record TCPHandler := { tcp_ln : option Z }.

Definition NewTCPHandler : TCPHandler := {| tcp_ln := None |}.

Definition tcp_Start (h : TCPHandler) (def : MockDefinition)
  : M (TCPHandler * option error) :=
  let! (ln, err) := net.Listen (Port def) in
  match err with
  | Some e =>
      log_with Error "failed to start TCP listener" [("error", e)] ;;;
      ret ({| tcp_ln := ln |}, Some e)
  | None =>
      log Info ("TCP mock listening on port " +:+ fmt_pkg.itoa (Port def)) ;;;
      spawn (TcpAcceptLoop def) ;;;
      ret ({| tcp_ln := ln |}, None)
  end.

Definition tcp_Stop (h : TCPHandler) : M (option error) :=
  match tcp_ln h with
  | Some ln => log Info "stopping TCP mock" ;;; net.CloseListener ln
  | None => ret None
  end.

(** What [Accept] returns, call after call. *)
Inductive accepted : Type :=
| Connection (conn : Conn)
| AcceptError (err : net.accept_error).

(** How an accept loop stands once the calls of [Accept] listed have
    returned: it has returned, or it is in [Accept] again. *)
Inductive loop_state : Type := LoopReturned | LoopAccepting.

(** The goroutine that [Start] launches. *)
Fixpoint tcp_accept_loop (def : MockDefinition) (events : list accepted)
  : M loop_state :=
  match events with
  | [] => ret LoopAccepting
  | Connection conn :: rest =>
      spawn (TcpHandleConnection conn def) ;;;
      tcp_accept_loop def rest
  | AcceptError err :: rest =>
      match err with
      | net.OpError inner =>
          if String.eqb inner net.closed_text then
            log_with Info "TCP listener cerrado"
              [("error", net.accept_error_text err)] ;;;
            ret LoopReturned
          else
            log_with Error "failed to accept TCP connection"
              [("error", net.accept_error_text err)] ;;;
            tcp_accept_loop def rest
      | net.OtherError _ =>
          log_with Error "failed to accept TCP connection"
            [("error", net.accept_error_text err)] ;;;
          tcp_accept_loop def rest
      end
  end.

Definition newline : string := String (ascii_of_nat 10) "".

(** [if len(resp) > 0 && resp[len(resp)-1] != '\n' { resp += "\n" }] *)
Definition end_line (resp : string) : string :=
  if (0 <? String.length resp)%nat &&
     negb (String.eqb (String.substring (String.length resp - 1) 1 resp) newline)
  then resp +:+ newline
  else resp.

(** The loop over the conditions: [true] when it returned from inside. *)
Fixpoint tcp_conditions (conn : nat) (tpl : template.Runtime) (i : nat)
  (conds : list OnMessageRule) : M (bool * template.Runtime) :=
  match conds with
  | [] => ret (false, tpl)
  | cond :: rest =>
      let '(result, _, tpl) :=
        template.Render tpl ("cond_" +:+ fmt_pkg.itoa (Z.of_nat i)) (If cond) in
      log_with Debug "evaluated condition"
        [("condition", fmt_pkg.itoa (Z.of_nat i)); ("if", If cond);
         ("result", result)] ;;;
      if String.eqb result "true" then
        let '(resp, _, tpl) :=
          template.Render tpl ("resp_" +:+ fmt_pkg.itoa (Z.of_nat i)) (Respond cond) in
        log_with Info "sending matched response" [("response", resp)] ;;;
        net.Write conn (end_line (end_line resp)) ;;;
        ret (true, tpl)
      else tcp_conditions conn tpl (S i) rest
  end.

(** Lines 102 to 134: the conditions, then the fallback. *)
Definition tcp_respond (conn : nat) (tpl : template.Runtime) (om : OnMessage)
  : M unit :=
  let! (sent, tpl) := tcp_conditions conn tpl 0 (Conditions om) in
  if sent then ret tt
  else if negb (String.eqb (Else om) "") then
    let '(resp, _, _) := template.Render tpl "else" (Else om) in
    log_with Info "sending fallback response" [("response", resp)] ;;;
    net.Write conn (end_line (end_line resp))
  else ret tt.

Definition handleConnection (conn : Conn) (def : option MockDefinition) : M unit :=
  deferring (net.Close (conn_id conn))
    match def with
    | None =>
        log Warn "No TCP definition found for message" ;;;
        net.Write (conn_id conn) ("error: def is nil" +:+ newline)
    | Some def =>
        match DefOnMessage def with
        | None =>
            log Error "OnMessage is nil in TCP mock definition" ;;;
            net.Write (conn_id conn) ("error: OnMessage is nil" +:+ newline)
        | Some om =>
            deferring (net.Close (conn_id conn))
              match conn_input conn with
              | inl err =>
                  log_with Warn "failed to read from TCP client" [("error", err)]
              | inr data =>
                  let rawInput := String.substring 0 2048 data in
                  log_with Info "received message" [("input", rawInput)] ;;;
                  let! matches := extractVars rawInput (Match om) in
                  let! registry := loadExtensions (Import def) in
                  let! context := deref (DefContext def) in
                  let ctx := message_context matches context in
                  match template.NewRuntime ctx registry with
                  | inl err =>
                      log_with Error "template runtime creation failed"
                        [("error", err)] ;;;
                      net.Write (conn_id conn) "error de template"
                  | inr tpl => tcp_respond (conn_id conn) tpl om
                  end
              end
        end
    end.

(** ** ws.go *)

(** The upgrader and the logger of the handler hold no state. *)
Inductive WSHandler : Type := ws_handler_value.

Definition NewWSHandler : WSHandler := ws_handler_value.

(** A WebSocket client: its connection, whether the upgrade succeeds, and
    the text messages it sends before [ReadMessage] fails. *)
Record WSClient := {
  ws_conn : nat;
  ws_upgrade : option error;
  ws_messages : list string
}.

Fixpoint ws_conditions (conn : nat) (tpl : template.Runtime) (i : nat)
  (conds : list OnMessageRule) : M (bool * template.Runtime) :=
  match conds with
  | [] => ret (false, tpl)
  | cond :: rest =>
      let '(result, _, tpl) :=
        template.Render tpl ("cond_" +:+ fmt_pkg.itoa (Z.of_nat i)) (If cond) in
      log_with Debug "evaluated condition"
        [("condition", fmt_pkg.itoa (Z.of_nat i)); ("if", If cond);
         ("result", result)] ;;;
      if String.eqb result "true" then
        let '(resp, _, tpl) :=
          template.Render tpl ("resp_" +:+ fmt_pkg.itoa (Z.of_nat i)) (Respond cond) in
        log_with Info "sending matched response" [("response", resp)] ;;;
        net.Write conn resp ;;;
        ret (true, tpl)
      else ws_conditions conn tpl (S i) rest
  end.

(** Lines 62 to 84: the conditions, then the fallback. *)
Definition ws_respond (conn : nat) (tpl : template.Runtime) (om : OnMessage)
  : M unit :=
  let! (sent, tpl) := ws_conditions conn tpl 0 (Conditions om) in
  if negb sent && negb (String.eqb (Else om) "") then
    let '(resp, _, _) := template.Render tpl "else" (Else om) in
    log_with Info "sending fallback response" [("response", resp)] ;;;
    net.Write conn resp
  else ret tt.

(** The message loop of one client. *)
Fixpoint ws_loop (def : MockDefinition) (registry : extensions.Registry)
  (conn : nat) (messages : list string) : M unit :=
  match messages with
  | [] => log Info "client disconnected"
  | raw :: rest =>
      log_with Info "received message" [("input", raw)] ;;;
      let! om := deref (DefOnMessage def) in
      let! matches := extractVars raw (Match om) in
      let! context := deref (DefContext def) in
      let ctx := message_context matches context in
      match template.NewRuntime ctx registry with
      | inl err =>
          log_with Error "template runtime error" [("error", err)] ;;;
          net.Write conn "template error" ;;;
          ws_loop def registry conn rest
      | inr tpl =>
          ws_respond conn tpl om ;;;
          ws_loop def registry conn rest
      end
  end.

(** The function registered for [/]. *)
Definition ws_handler (def : MockDefinition) (registry : extensions.Registry)
  (client : WSClient) : M unit :=
  match ws_upgrade client with
  | Some err =>
      log_with Error "failed to upgrade WebSocket connection" [("error", err)]
  | None =>
      deferring (net.Close (ws_conn client))
        (log Info "client connected" ;;;
         ws_loop def registry (ws_conn client) (ws_messages client))
  end.

(** [http.HandleFunc] on the default mux panics when the pattern is taken. *)
Definition http_HandleFunc (pattern : string) : M unit :=
  let! mux := gets w_mux in
  if bool_decide (pattern ∈ mux)
  then panic ("http: multiple registrations for " +:+ pattern)
  else modify (fun w =>
    {| w_fs := w_fs w; w_web := w_web w; w_ports := w_ports w;
       w_mux := {[pattern]} ∪ mux; w_log := w_log w;
       w_wire := w_wire w; w_closed := w_closed w; w_spawned := w_spawned w |}).

(** [Start] returns the registry that the registered function keeps.
    [SetLevel] changes what the logger prints, not the calls made to it. *)
Definition ws_Start (h : WSHandler) (def : MockDefinition)
  : M (extensions.Registry * option error) :=
  log Info ("starting WebSocket mock on port " +:+ fmt_pkg.itoa (Port def)) ;;;
  let! registry := loadExtensions (Import def) in
  http_HandleFunc "/" ;;;
  spawn (WsListenAndServe def) ;;;
  ret (registry, None).

(** The goroutine of [Start]: [ListenAndServe] returns only with an error;
    once the port is bound it serves and the goroutine stays in it. *)
Definition ws_listen_and_serve (def : MockDefinition) : M unit :=
  let! (_, err) := net.Listen (Port def) in
  match err with
  | Some e => fatal "failed to start WebSocket server"
  | None => ret tt
  end.

Definition ws_Stop (h : WSHandler) : M (option error) := ret None.

(** ** http.go *)

Record HTTPHandler := { http_server : option Z }.

Definition NewHTTPHandler : HTTPHandler := {| http_server := None |}.

(** The loop of [Start] over the imports. *)
Fixpoint http_imports (registry : extensions.Registry) (imports : list string)
  : M extensions.Registry :=
  match imports with
  | [] => ret registry
  | src :: rest =>
      let! (code, err) := extensions.LoadKurof src in
      match err with
      | Some e =>
          log_with Warn "failed to load .kurof file" [("file", src); ("error", e)] ;;;
          http_imports registry rest
      | None =>
          let registry := extensions.Register registry src code src in
          log_with Info "loaded .kurof file" [("file", src)] ;;;
          http_imports registry rest
      end
  end.

Definition hasCustomHealth (routes : list Route) : bool :=
  existsb (fun route => String.eqb (Path route) "/health" ||
                        String.eqb (Path route) "/healthz") routes.

(** Lines 92 to 106: every variable at the top level, and all of them
    again under [context]. *)
Definition fullContext (contextVars : gmap string value) : gmap string value :=
  <["context" := VMap contextVars]> contextVars.

(** Lines 114 to 130: the routes by path, a path with template syntax
    being rendered first. *)
Fixpoint group_routes (initialTpl : template.Runtime) (routes : list Route)
  (routeHandlers : gmap string (list Route)) : M (gmap string (list Route)) :=
  match routes with
  | [] => ret routeHandlers
  | route :: rest =>
      let add (routePath : string) (tpl : template.Runtime) :=
        group_routes tpl rest
          (<[routePath := default [] (routeHandlers !! routePath) ++ [route]]>
             routeHandlers) in
      if strings_pkg.Contains (Path route) "{{" then
        match template.Render initialTpl "route-path" (Path route) with
        | (_, Some err, tpl) =>
            log_with Warn ("failed to process template in path " +:+ Path route
                           +:+ ", using original") [("error", err)] ;;;
            add (Path route) tpl
        | (processedPath, None, tpl) => add processedPath tpl
        end
      else add (Path route) initialTpl
  end.

(** [mux.HandleFunc] panics on the empty pattern and on a pattern that is
    registered already. *)
Definition mux_HandleFunc (mux : gset string) (pattern : string)
  : M (gset string) :=
  if String.eqb pattern "" then panic "http: invalid pattern"
  else if bool_decide (pattern ∈ mux)
  then panic ("http: multiple registrations for " +:+ pattern)
  else ret ({[pattern]} ∪ mux).

Fixpoint register_paths (mux : gset string) (paths : list string)
  : M (gset string) :=
  match paths with
  | [] => ret mux
  | path :: rest =>
      log_with Info "registering route" [("path", path)] ;;;
      let! mux := mux_HandleFunc mux path in
      register_paths mux rest
  end.

(** A request as the function of a path sees it: the method, the
    [Content-Type] header, and what [Decode] of the body leaves in
    [inputVars] with the error it returns. *)
Record Request := {
  req_method : string;
  req_content_type : string;
  req_json : option (gmap string value) * option error
}.

(** What is written to the [ResponseWriter]: the calls of [Header().Set],
    the status, the body. *)
Record Reply := {
  resp_headers : list (string * string);
  resp_status : Z;
  resp_body : string
}.

(** [http.Error]. *)
Definition http_Error (text : string) (code : Z) : Reply :=
  {| resp_headers := [("Content-Type", "text/plain; charset=utf-8");
                      ("X-Content-Type-Options", "nosniff")];
     resp_status := code;
     resp_body := text +:+ String (ascii_of_nat 10) "" |}.

Definition find_route (routesCopy : list Route) (method : string) : option Route :=
  List.find (fun rt => strings_pkg.EqualFold (Method rt) method ||
                       String.eqb (Method rt) "") routesCopy.

Definition is_body_method (m : string) : bool :=
  String.eqb m "POST" || String.eqb m "PUT" || String.eqb m "PATCH".

(** The context of one request, lines 176 to 183. *)
Definition request_context (def : MockDefinition)
  (inputVars : option (gmap string value)) : gmap string value :=
  let contextVars := match DefContext def with
                     | Some c => Variables c
                     | None => None
                     end in
  template.MergeContext inputVars None contextVars.

(** The loop over the headers; Go ranges over the map in no fixed order,
    here it is the order of the list. *)
Fixpoint render_headers (tpl : template.Runtime) (headers : list (string * string))
  : M (list (string * string) * template.Runtime) :=
  match headers with
  | [] => ret ([], tpl)
  | (k, v) :: rest =>
      let '(hdr, err, tpl) := template.Render tpl "hdr" v in
      let! hdr :=
        match err with
        | Some e =>
            log_with Warn ("failed to render header " +:+ k +:+ ", using raw value")
              [("error", e)] ;;;
            ret v
        | None => ret hdr
        end in
      log_with Debug "rendered header" [("header", k); ("value", hdr)] ;;;
      let! (sets, tpl) := render_headers tpl rest in
      ret ((k, hdr) :: sets, tpl)
  end.

Definition rendering_failed : string :=
  "{" +:+ String template_syntax.dquote "error" +:+
  String template_syntax.dquote ": " +:+
  String template_syntax.dquote "template rendering failed" +:+
  String template_syntax.dquote "}".

(** The function registered for one path. *)
Definition route_handler (def : MockDefinition) (registry : extensions.Registry)
  (routesCopy : list Route) (r : Request) : M Reply :=
  match find_route routesCopy (req_method r) with
  | None => ret (http_Error "Method not allowed" 405)
  | Some routeCopy =>
      let! inputVars :=
        if is_body_method (req_method r) &&
           negb (String.eqb (req_content_type r) "") &&
           strings_pkg.HasPrefix (strings_pkg.ToLower (req_content_type r))
             "application/json"
        then match req_json r with
             | (vars, Some err) =>
                 log_with Warn "failed to parse JSON body" [("error", err)] ;;;
                 ret vars
             | (vars, None) => ret vars
             end
        else ret None in
      let ctx := request_context def inputVars in
      match template.NewRuntime ctx registry with
      | inl err =>
          log_with Error "template runtime error" [("error", err)] ;;;
          ret (http_Error "Internal server error" 500)
      | inr tpl =>
          let! (sets, tpl) :=
            render_headers tpl
              (map_to_list (default ∅ (Headers (Response routeCopy)))) in
          let '(body, err, _) := template.Render tpl "body" (Body (Response routeCopy)) in
          let! (body, sets) :=
            match err with
            | Some e =>
                log_with Error "failed to render response body" [("error", e)] ;;;
                ret (rendering_failed, sets ++ [("Content-Type", "application/json")])
            | None => ret (body, sets)
            end in
          log_with Info "sending HTTP response"
            [("method", req_method r);
             ("status", fmt_pkg.itoa (Status (Response routeCopy)))] ;;;
          if (Status (Response routeCopy) <? 100) || (999 <? Status (Response routeCopy))
          then panic ("invalid WriteHeader code " +:+
                      fmt_pkg.itoa (Status (Response routeCopy)))
          else ret {| resp_headers := sets;
                      resp_status := Status (Response routeCopy);
                      resp_body := body |}
      end
  end.

(** The goroutine of [Start]: the error that [ListenAndServe] returns when
    the port cannot be bound. *)
Definition http_listen_and_serve (def : MockDefinition) : M (option error) :=
  let! (_, err) := net.Listen (Port def) in
  match err with
  | Some e =>
      log_with Error "HTTP server failed - attempting to continue" [("error", e)] ;;;
      ret (Some e)
  | None => ret None
  end.

(** [Start].  [prompt] tells whether the goroutine has tried to bind the
    port before the 100 milliseconds of the [select] are over; when it has
    not, [Start] returns without knowing.  The result comes with the
    runtime used for the paths and the routes by path. *)
Definition http_Start (prompt : bool) (h : HTTPHandler) (def : MockDefinition)
  : M (HTTPHandler * option error) :=
  log Info ("starting HTTP mock on port " +:+ fmt_pkg.itoa (Port def)) ;;;
  let! registry := http_imports extensions.NewRegistry (Import def) in
  let mux : gset string :=
    if hasCustomHealth (Routes def) then ∅ else {["/health"; "/healthz"]} in
  let! context := deref (DefContext def) in
  let contextVars := default ∅ (Variables context) in
  match template.NewRuntime (fullContext contextVars) registry with
  | inl err => ret (h, Some ("failed to create template runtime: " +:+ err))
  | inr initialTpl =>
      let! routeHandlers := group_routes initialTpl (Routes def) ∅ in
      let! mux := register_paths mux (fst <$> map_to_list routeHandlers) in
      let h := {| http_server := Some (Port def) |} in
      if prompt then
        let! err := http_listen_and_serve def in
        match err with
        | Some e => ret (h, Some ("failed to start HTTP server: " +:+ e))
        | None => log Info "HTTP server started successfully" ;;; ret (h, None)
        end
      else
        spawn (HttpListenAndServe def) ;;;
        log Info "HTTP server started successfully" ;;;
        ret (h, None)
  end.

(** ** sftp.go *)

Record SFTPHandler := {
  sftp_port : Z;
  sftp_listener : option Z;
  sftp_root : string
}.

Definition NewSFTPHandler : SFTPHandler :=
  {| sftp_port := 0; sftp_listener := None; sftp_root := "" |}.

Section sftp.
(** The directory of [sftp.go] when the program was built, and whether
    [ssh.ParsePrivateKey] accepts the bytes of a key file. *)
Variable source_dir : string.
Variable ssh_ParsePrivateKey : string -> option error.

Definition getSettingsSftp (filename : string) : string :=
  let baseDir := filepath.Join [source_dir; ".."; ".."; "settings"] in
  filepath.Join [baseDir; filename].

(** The loop of [Start] over the files. *)
Fixpoint write_files (root : string) (files : list FileEntry) : M unit :=
  match files with
  | [] => ret tt
  | f :: rest =>
      let fullPath := filepath.Join [root; FilePath f] in
      let! err := os.MkdirAll (filepath.Dir fullPath) in
      match err with
      | Some e => log_with Warn "⚠️ Could not create intermediate dirs" [("error", e)]
      | None => ret tt
      end ;;;
      let! err := os.WriteFile fullPath (Content f) in
      match err with
      | Some e => log_with Warn ("⚠️ Could not write file " +:+ fullPath) [("error", e)]
      | None => ret tt
      end ;;;
      write_files root rest
  end.

Definition sftp_Start (h : SFTPHandler) (def : MockDefinition)
  : M (SFTPHandler * option error) :=
  let h := {| sftp_port := Port def; sftp_listener := sftp_listener h;
              sftp_root := "sftp_root" |} in
  let hostKeyPath := getSettingsSftp "host_key" in
  let! (privateBytes, err) := os.ReadFile hostKeyPath in
  match err with
  | Some e =>
      ret (h, Some ("❌ failed to load host key at " +:+ hostKeyPath +:+ ": " +:+ e))
  | None =>
      match ssh_ParsePrivateKey privateBytes with
      | Some e => ret (h, Some ("❌ failed to parse host key: " +:+ e))
      | None =>
          let! err := os.MkdirAll (sftp_root h) in
          match err with
          | Some e => ret (h, Some ("❌ failed to create root dir: " +:+ e))
          | None =>
              write_files (sftp_root h) (Files def) ;;;
              let! (listener, err) := net.Listen (sftp_port h) in
              match err with
              | Some e =>
                  ret (h, Some ("❌ failed to listen on port " +:+
                                fmt_pkg.itoa (sftp_port h) +:+ ": " +:+ e))
              | None =>
                  let h := {| sftp_port := sftp_port h; sftp_listener := listener;
                              sftp_root := sftp_root h |} in
                  log Info ("🚀 SFTP server listening on port " +:+
                            fmt_pkg.itoa (sftp_port h)) ;;;
                  spawn SftpAcceptConnections ;;;
                  ret (h, None)
              end
          end
      end
  end.

End sftp.

Fixpoint acceptConnections (events : list accepted) : M loop_state :=
  match events with
  | [] => ret LoopAccepting
  | AcceptError err :: _ =>
      log_with Error "❌ Failed to accept connection"
        [("error", net.accept_error_text err)] ;;;
      ret LoopReturned
  | Connection conn :: rest =>
      log Info "📥 Incoming TCP connection" ;;;
      spawn (SftpHandleConn (conn_id conn)) ;;;
      acceptConnections rest
  end.

Definition sftp_Stop (h : SFTPHandler) : M (option error) :=
  match sftp_listener h with
  | Some ln => log Info "🛑 Stopping SFTP server" ;;; net.CloseListener ln
  | None => ret None
  end.

(** ** The process around a goroutine

    A panic that no deferred call recovers ends the program with status 2. *)
Inductive process : Type := Alive | Dead (status : Z).

Definition goroutine {A} (body : M A) (w : World) : process * World :=
  match body w with
  | (Returned _, w') => (Alive, w')
  | (Panicked _, w') => (Dead 2, w')
  | (Exited s, w') => (Dead s, w')
  end.

End runtime.
End runtime.

(** * The models put together *)

(** ** Package encoding/json, on plain text

    [Marshal] of a value whose strings and keys are all made of printable
    ASCII bytes other than the double quote, the backslash and the three
    bytes that Go escapes for HTML; other values are answered with an error
    that says so. *)
Module json_pkg.

Definition plain_byte (c : ascii) : bool :=
  let n := nat_of_ascii c in
  (32 <=? n)%nat && (n <=? 126)%nat &&
  negb (bool_decide (n ∈ [34; 92; 60; 62; 38]%nat)).

Definition plain (s : string) : bool :=
  forallb plain_byte (list_ascii_of_string s).

Definition quote (s : string) : string :=
  String template_syntax.dquote (s +:+ String template_syntax.dquote "").

Fixpoint encodable (v : value) : bool :=
  match v with
  | VNil | VInt _ | VBool _ => true
  | VStr s => plain s
  | VStrs l => forallb plain l
  | VList l => forallb encodable l
  | VMap m =>
      forallb plain (fst <$> map_to_list m) &&
      map_fold (fun _ b acc => b && acc) true (encodable <$> m)
  end.

Fixpoint encode (v : value) : string :=
  match v with
  | VNil => "null"
  | VStr s => quote s
  | VInt z => fmt_pkg.itoa z
  | VBool b => if b then "true" else "false"
  | VStrs l => "[" +:+ strings_pkg.Join (map quote l) "," +:+ "]"
  | VList l => "[" +:+ strings_pkg.Join (map encode l) "," +:+ "]"
  | VMap m =>
      "{" +:+
      strings_pkg.Join
        (map (fun kv => quote (fst kv) +:+ ":" +:+ snd kv)
             (fmt_pkg.sort_keys (map_to_list (encode <$> m)))) ","
      +:+ "}"
  end.

Definition Marshal (v : value) : error + string :=
  if encodable v then inr (encode v)
  else inl (template_syntax.unsupported "json: text that needs escaping").

End json_pkg.

(** One reading of the clock and one UUID. *)
#[global] Instance sample_ambient : Ambient := {|
  time_Now_RFC3339 := "2006-01-02T15:04:05Z";
  uuid_NewString := "123e4567-e89b-42d3-a456-426614174000";
  json_Marshal := json_pkg.Marshal
|}.

(** ** The mock of [TestTCPWithExternalFunction] *)
Module scenario.
Import schema.

Definition quoted (s : string) : string := json_pkg.quote s.

Definition kurofPath : string := "samples/toUpper_test.kurof".

(** Modelled from the spec: the sample fragment [toUpper_test.kurof] is not
    among the sources; the scenarios say that it defines [toUpper] as
    upper-casing its argument. *)
Definition toUpper_kurof : string :=
  "{{ define " +:+ quoted "toUpper" +:+ " }}{{ upper . }}{{ end }}".

Definition ping_rule : OnMessageRule :=
  {| If := "{{ if contains .input.cmd " +:+ quoted "ping" +:+
           " }}true{{ else }}false{{ end }}";
     Respond := "{{ template " +:+ quoted "toUpper" +:+ " .input.cmd }}" |}.

Definition tcp_mock (pattern : string) (conds : list OnMessageRule)
  (els : string) : MockDefinition :=
  {| Protocol := "tcp"; Port := 9101;
     DefMeta := {| Name := ""; Description := "" |};
     Routes := [];
     DefOnMessage := Some {| Match := pattern; Conditions := conds; Else := els |};
     Files := []; DefSFTPAuth := None; DefSession := None;
     DefContext := Some {| Variables := Some ∅ |};
     Functions := None;
     Import := [kurofPath] |}.

Definition ping_mock (els : string) : MockDefinition :=
  tcp_mock "(?P<cmd>.+)" [ping_rule] els.

(** A process that has the fragment on disk and nothing else. *)
Definition world : World :=
  {| w_fs := {[kurofPath := FFile toUpper_kurof]}; w_web := ∅; w_ports := ∅;
     w_mux := ∅; w_log := []; w_wire := []; w_closed := []; w_spawned := [] |}.

Definition client (text : string) : Conn :=
  {| conn_id := 1; conn_input := inr text |}.

(** The mock of [TestHTTPWithExternalFunction]. *)
Definition http_mock : MockDefinition :=
  {| Protocol := "http"; Port := 8088;
     DefMeta := {| Name := ""; Description := "" |};
     Routes := [{| Path := "/hola"; Method := "GET";
                   Response := {| Status := 200; Headers := None;
                                  Body := "{{ template " +:+ quoted "toUpper" +:+
                                          " .context.nombre }}" |} |}];
     DefOnMessage := None; Files := []; DefSFTPAuth := None; DefSession := None;
     DefContext := Some {| Variables := Some {["nombre" := VStr "gatito"]} |};
     Functions := None;
     Import := [kurofPath] |}.

(** The mock of [TestWSWithExternalFunction]. *)
Definition ws_mock : MockDefinition :=
  {| Protocol := "ws"; Port := 9201;
     DefMeta := {| Name := ""; Description := "" |};
     Routes := [];
     DefOnMessage :=
       Some {| Match := "(?P<cmd>\w+)";
               Conditions :=
                 [{| If := "{{ if eq .input.cmd " +:+ quoted "ping" +:+
                           " }}true{{ else }}false{{ end }}";
                     Respond := "pong" |}];
               Else := "unknown command" |};
     Files := []; DefSFTPAuth := None; DefSession := None;
     DefContext := Some {| Variables := Some ∅ |};
     Functions := None; Import := [kurofPath] |}.

End scenario.

(** * The vocabulary of the statements *)

(** ** Rendering in a fresh runtime *)
Module library_props.

(** What a template gives in a fresh runtime. *)
Definition rendered (input global : option (gmap string value))
  (fragments : list (string * string)) (raw : string) : string * option error :=
  let registry :=
    fold_left (fun r e => extensions.Register r (fst e) (snd e) (fst e))
      fragments extensions.NewRegistry in
  match template.NewRuntime (template.MergeContext input None global) registry with
  | inl err => ("", Some err)
  | inr r => fst (template.Render r "test" raw)
  end.

End library_props.

(** ** What validation is asked to do *)
Module schema_props.
Import schema.

(** What the protocol requires and [def] lacks, in the words of the contract. *)
Definition missing_required (def : MockDefinition) : Prop :=
  (Protocol def = "http" /\ List.length (Routes def) = 0%nat)
  \/ ((Protocol def = "tcp" \/ Protocol def = "ws") /\ DefOnMessage def = None)
  \/ (Protocol def = "sftp" /\
      (Files def = []
       \/ DefSFTPAuth def = None
       \/ exists auth, DefSFTPAuth def = Some auth /\
                       (Username auth = "" \/ Password auth = "")))
  \/ (Protocol def <> "http" /\ Protocol def <> "tcp" /\
      Protocol def <> "ws" /\ Protocol def <> "sftp").

End schema_props.

(** ** The kinds of arguments of the helpers *)
Module template_props.
Import template.

Definition is_string (v : value) : bool :=
  match v with VStr _ => true | _ => false end.

Definition is_strings (v : value) : bool :=
  match v with VStrs _ => true | _ => false end.

(** The kinds that have a length for [safeLen]. *)
Definition has_length (v : value) : bool :=
  match v with
  | VStr _ | VStrs _ | VList _ | VMap _ => true
  | _ => false
  end.

(** Every function of the map but [join] takes parameters of type [any]:
    called with the number of arguments it declares, it is called, whatever
    the arguments are. *)
Definition arity (name : string) : option nat :=
  if String.eqb name "now" || String.eqb name "uuid" then Some 0%nat
  else if bool_decide (name ∈ ["toJSON"; "upper"; "lower"; "title"; "trim"; "len"])
  then Some 1%nat
  else if bool_decide (name ∈ ["contains"; "regexMatch"; "split"; "default"])
  then Some 2%nat
  else if String.eqb name "replace" then Some 3%nat
  else None.

End template_props.

(** ** Worlds, mocks and the reading of a rule set *)
Module runtime_props.
Import schema runtime.

Definition add_log (w : World) (es : list entry) : World :=
  {| w_fs := w_fs w; w_web := w_web w; w_ports := w_ports w;
     w_mux := w_mux w; w_log := w_log w ++ es;
     w_wire := w_wire w; w_closed := w_closed w; w_spawned := w_spawned w |}.

Definition too_many_files : net.accept_error :=
  net.OtherError "accept tcp [::]:2222: accept4: too many open files".

(** A process in which another listener holds the port [p]. *)
Definition port_held (p : Z) : World :=
  {| w_fs := ∅; w_web := ∅; w_ports := {[p]}; w_mux := ∅; w_log := [];
     w_wire := []; w_closed := []; w_spawned := [] |}.

Section rules.
Context `{TextTemplate}.

Definition cond_name (i : nat) : string := "cond_" +:+ fmt_pkg.itoa (Z.of_nat i).
Definition resp_name (i : nat) : string := "resp_" +:+ fmt_pkg.itoa (Z.of_nat i).

(** The guards rendered one after the other in the order of the list, the
    first under the number [i]: what each gave, and the runtime it left. *)
Fixpoint render_guards (tpl : template.Runtime) (i : nat)
  (conds : list OnMessageRule) : list (string * template.Runtime) :=
  match conds with
  | [] => []
  | cond :: rest =>
      let '(result, _, tpl) := template.Render tpl (cond_name i) (If cond) in
      (result, tpl) :: render_guards tpl (S i) rest
  end.

(** The position of the first result that is exactly [true]. *)
Fixpoint first_true (results : list string) : option nat :=
  match results with
  | [] => None
  | r :: rest => if String.eqb r "true" then Some 0%nat else S <$> first_true rest
  end.

(** The runtime once all the guards are rendered. *)
Definition after_guards (tpl : template.Runtime) (i : nat)
  (conds : list OnMessageRule) : template.Runtime :=
  default tpl (snd <$> last (render_guards tpl i conds)).

(** The respond template of the first condition whose guard gave [true],
    rendered in the runtime that guard left. *)
Definition pick (tpl : template.Runtime) (i : nat) (conds : list OnMessageRule)
  : option (string * template.Runtime) :=
  let guards := render_guards tpl i conds in
  k ← first_true (fst <$> guards);
  cond ← conds !! k;
  g ← guards !! k;
  let '(resp, _, tpl) := template.Render (snd g) (resp_name (i + k)) (Respond cond) in
  Some (resp, tpl).

(** The response to a message, in the words of the specification: the
    respond template of the first condition whose guard renders to [true];
    otherwise the else template when it is not empty; otherwise none. *)
Definition response (tpl : template.Runtime) (om : OnMessage) : option string :=
  match pick tpl 0 (Conditions om) with
  | Some (resp, _) => Some resp
  | None =>
      if String.eqb (Else om) "" then None
      else Some (fst (fst (template.Render (after_guards tpl 0 (Conditions om))
                             "else" (Else om))))
  end.

(** How many guards are rendered: up to the first that gives [true]. *)
Definition evaluated_count (tpl : template.Runtime) (i : nat)
  (conds : list OnMessageRule) : nat :=
  match first_true (fst <$> render_guards tpl i conds) with
  | Some k => S k
  | None => List.length conds
  end.

(** The numbers of the conditions that the log reports as evaluated. *)
Definition evaluated (es : list entry) : list string :=
  omap (fun e =>
          if String.eqb (msg e) "evaluated condition"
          then snd <$> List.find (fun f => String.eqb (fst f) "condition") (fields e)
          else None) es.

Definition numbers (i n : nat) : list string :=
  (fun j => fmt_pkg.itoa (Z.of_nat j)) <$> seq i n.

(** The world with entries added to the log and writes to the wire. *)
Definition record (w : World) (es : list entry) (writes : list (nat * string))
  : World :=
  {| w_fs := w_fs w; w_web := w_web w; w_ports := w_ports w;
     w_mux := w_mux w; w_log := w_log w ++ es;
     w_wire := w_wire w ++ writes; w_closed := w_closed w;
     w_spawned := w_spawned w |}.

(** What the loop of the conditions does, for either protocol: [frame] is
    what the protocol makes of the rendered text before writing it. *)
Definition conditions_run (frame : string -> string)
  (loop : nat -> template.Runtime -> nat -> list OnMessageRule ->
          M (bool * template.Runtime))
  : Prop :=
  forall conn conds tpl i w,
    exists es,
      evaluated es = numbers i (evaluated_count tpl i conds)
      /\ loop conn tpl i conds w
         = match pick tpl i conds with
           | Some (resp, tpl') =>
               (Returned (true, tpl'), record w es [(conn, frame resp)])
           | None =>
               (Returned (false, after_guards tpl i conds), record w es [])
           end.

(** The writes of one message: none, or one. *)
Definition one_write (conn : nat) (payload : option string) : list (nat * string) :=
  match payload with
  | Some p => [(conn, p)]
  | None => []
  end.

End rules.

End runtime_props.

(** ** The files of the SFTP handler *)
Module sftp_props.
Import schema runtime.

(** The paths that [Start] may create or overwrite: the root directory and,
    for every entry, the directories on the way to it and the file. *)
Definition touched (files : list FileEntry) : list string :=
  os.prefixes "sftp_root" ++
  flat_map (fun f =>
              let fullPath := filepath.Join ["sftp_root"; FilePath f] in
              os.prefixes (filepath.Dir fullPath) ++ [filepath.Clean fullPath])
           files.

(** A path inside the root directory. *)
Definition under_root (p : string) : Prop :=
  p = "sftp_root" \/ String.prefix "sftp_root/" p = true.

(** [w'] has the files of [w] except perhaps at the paths [ps]. *)
Definition same_files_but (ps : list string) (w w' : World) : Prop :=
  forall p, p ∉ ps -> w_fs w' !! p = w_fs w !! p.

(** What a call leaves alone: it returns, and only the files at [ps] and
    the log may have changed. *)
Definition touches_only {A} (ps : list string) (c : M A) : Prop :=
  forall w, exists a w',
    c w = (Returned a, w')
    /\ same_files_but ps w w'
    /\ w_ports w' = w_ports w /\ w_wire w' = w_wire w
    /\ w_spawned w' = w_spawned w.

(** Where the program was built, and a key parser that accepts the key. *)
Definition source_dir : string := "/app/internal/runtime".
Definition accept_key (bytes : string) : option error := None.

Definition sftp_mock (port : Z) (files : list FileEntry) : MockDefinition :=
  {| Protocol := "sftp"; Port := port;
     DefMeta := {| Name := ""; Description := "" |};
     Routes := []; DefOnMessage := None;
     Files := files;
     DefSFTPAuth := Some {| Username := "u"; Password := "p"; PublicKeyPath := "" |};
     DefSession := None; DefContext := None; Functions := None; Import := [] |}.

(** A process with the host key on disk and a file left in the root
    directory by an earlier run. *)
Definition host : World :=
  {| w_fs := {["/app/settings/host_key" := FFile "key";
               "sftp_root" := FDir;
               "sftp_root/old.txt" := FFile "left over"]};
     w_web := ∅; w_ports := ∅; w_mux := ∅; w_log := []; w_wire := [];
     w_closed := []; w_spawned := [] |}.

Definition start (def : MockDefinition) (w : World)
  : outcome (SFTPHandler * option error) * World :=
  sftp_Start source_dir accept_key NewSFTPHandler def w.

(** A component: no slash in it. *)
Definition slash_free (s : string) : Prop :=
  forall c, c ∈ list_ascii_of_string s -> c <> "/"%char.

(** One step of [Clean] on a component that is a name. *)
Definition is_name (c : string) : Prop :=
  c <> "" /\ c <> "." /\ c <> ".." /\ slash_free c.

(** The place of an entry on disk. *)
Definition target (f : FileEntry) : string :=
  filepath.Clean (filepath.Join ["sftp_root"; FilePath f]).

(** The log says that the entry could not be written. *)
Definition refused (f : FileEntry) (es : list entry) : Prop :=
  exists e,
    {| lvl := Warn;
       msg := "⚠️ Could not write file " +:+ filepath.Join ["sftp_root"; FilePath f];
       fields := [("error", e)] |} ∈ es.

(** The path holds the content of one of the entries that go there. *)
Definition holds_entry (files : list FileEntry) (fs : gmap string fnode)
  (p : string) : Prop :=
  exists f, f ∈ files /\ target f = p /\ fs !! p = Some (FFile (Content f)).

End sftp_props.

(** ** A received message, from the read to the write *)
Module message_props.
Import schema runtime runtime_props.

(** What TCP makes of a response before writing it, in words: a text that
    is not empty and whose last byte is not a line feed gets a line feed
    at its end. *)
Definition line_terminated (resp : string) : string :=
  match last (list_ascii_of_string resp) with
  | Some c => if Ascii.eqb c (ascii_of_nat 10) then resp else resp +:+ newline
  | None => resp
  end.

Section messages.
Context `{Regexp} `{TextTemplate} `{Ambient}.

(** What [extractVars] binds for a message under a pattern. *)
Definition captures (raw pattern : string) : gmap string value :=
  match fst (extractVars raw pattern empty_world) with
  | Returned matches => matches
  | _ => ∅
  end.

(** The registry that [loadExtensions] makes of the imports of a
    definition, with the files of the world [w]. *)
Definition imports_of (def : MockDefinition) (w : World) : extensions.Registry :=
  match fst (loadExtensions (Import def) w) with
  | Returned registry => registry
  | _ => extensions.NewRegistry
  end.

(** The runtime made for one message. *)
Definition message_runtime (registry : extensions.Registry) (om : OnMessage)
  (context : Context) (raw : string) : error + template.Runtime :=
  template.NewRuntime (message_context (captures raw (Match om)) context) registry.

(** What is written for one message: the response of the rule set, as the
    protocol frames it, or the diagnostic text of the protocol when no
    runtime can be made. *)
Definition answer (frame : string -> string) (diagnostic : string) (conn : nat)
  (registry : extensions.Registry) (om : OnMessage) (context : Context)
  (raw : string) : list (nat * string) :=
  match message_runtime registry om context raw with
  | inr tpl => one_write conn (frame <$> response tpl om)
  | inl _ => [(conn, diagnostic)]
  end.

(** The numbers of the conditions that are evaluated for one message. *)
Definition guards_evaluated (registry : extensions.Registry) (om : OnMessage)
  (context : Context) (raw : string) : list string :=
  match message_runtime registry om context raw with
  | inr tpl => numbers 0 (evaluated_count tpl 0 (Conditions om))
  | inl _ => []
  end.

End messages.

(** The definition of [TestTCPBasicCommunication]: it has no context. *)
Definition basic_tcp_mock : MockDefinition :=
  {| Protocol := "tcp"; Port := 9001;
     DefMeta := {| Name := "TCP Echo Server";
                   Description := "Simple TCP echo server with commands" |};
     Routes := [];
     DefOnMessage :=
       Some {| Match := "(?P<cmd>\w+)";
               Conditions :=
                 [{| If := "{{ eq .cmd " +:+ scenario.quoted "PING" +:+ " }}";
                     Respond := "PONG" |};
                  {| If := "{{ eq .cmd " +:+ scenario.quoted "ECHO" +:+ " }}";
                     Respond := "{{ .input }}" |};
                  {| If := "{{ eq .cmd " +:+ scenario.quoted "TIME" +:+ " }}";
                     Respond := "Current time: {{ now }}" |}];
               Else := "Unknown command: {{ .cmd }}" |};
     Files := []; DefSFTPAuth := None; DefSession := None;
     DefContext := None; Functions := None; Import := [] |}.

End message_props.

(** * Theorems *)

(** ** The models against the documentation of the packages and the tests
    of the repository *)
Module library_facts.
Import library_props.

Example strings_examples :
  strings_pkg.Title "her royal highness" = "Her Royal Highness"
  /\ strings_pkg.Split "a,b,c" "," = ["a"; "b"; "c"]
  /\ strings_pkg.Split " xyz " "" = [" "; "x"; "y"; "z"; " "]
  /\ strings_pkg.Split "" "Bernardo O'Higgins" = [""]
  /\ strings_pkg.ReplaceAll "oink oink oink" "k" "ky" = "oinky oinky oinky"
  /\ strings_pkg.ReplaceAll "oink oink oink" "oink" "moo" = "moo moo moo"
  /\ strings_pkg.Contains "seafood" "foo" = true
  /\ strings_pkg.Contains "seafood" "bar" = false
  /\ strings_pkg.Contains "seafood" "" = true
  /\ strings_pkg.Contains "" "" = true.
Proof. vm_compute. repeat split. Qed.

Example filepath_examples :
  filepath.Join ["a"; "b"; "c"] = "a/b/c"
  /\ filepath.Join ["a/b"; "/c"] = "a/b/c"
  /\ filepath.Join ["a/b"; "../../../xyz"] = "../xyz"
  /\ map filepath.Dir ["/foo/bar/baz.js"; "/foo/bar/baz/"; "/dirty//path///";
                       "dev.txt"; "../todo.txt"; ".."; "."; "/"; ""]
     = ["/foo/bar"; "/foo/bar/baz"; "/dirty/path"; "."; ".."; "."; "."; "/"; "."].
Proof. vm_compute. repeat split. Qed.

Example regexp_examples :
  (exists re, regexp_Compile "a(x*)b(y|z)c" = inr re
              /\ re_FindStringSubmatch re "-axxxbyc-" = Some ["axxxbyc"; "xxx"; "y"]
              /\ re_FindStringSubmatch re "-abzc-" = Some ["abzc"; ""; "z"])
  /\ (exists re, regexp_Compile "(?P<first>[a-zA-Z]+) (?P<last>[a-zA-Z]+)" = inr re
                 /\ re_SubexpNames re = [""; "first"; "last"]).
Proof.
  split; eexists; (split; [vm_compute; reflexivity|]); vm_compute; repeat split.
Qed.

(** [TestTCPConditional], [TestContextTemplate] and
    [TestExtensionTemplateExecution]. *)
Example template_tests :
  rendered (Some {["cmd" := VStr "PING"]}) None []
    ("{{ if eq .input.cmd " +:+ scenario.quoted "PING" +:+
     " }}PONG{{ else }}UNKNOWN{{ end }}")
  = ("PONG", None)
  /\ rendered None (Some {["version" := VStr "1.0.0"]}) []
       "API v{{ .context.version }}"
     = ("API v1.0.0", None)
  /\ rendered (Some {["message" := VStr "hola mundo"]}) None
       [("shout", "{{ define " +:+ scenario.quoted "shout" +:+
                  " }}{{ .message | upper }}{{ end }}")]
       ("{{ template " +:+ scenario.quoted "shout" +:+ " .input }}")
     = ("HOLA MUNDO", None).
Proof. vm_compute. repeat split. Qed.

(** [TestDuplicateFunctionConflict]: the second registration wins. *)
Example registry_overwrites :
  extensions.Content <$>
    extensions.Get
      (extensions.Register
         (extensions.Register extensions.NewRegistry "same" "a" "a.kurof")
         "same" "b" "b.kurof") "same"
  = Some "b".
Proof. reflexivity. Qed.

End library_facts.

(** ** Validation *)
Module schema_facts.
Import schema.
Import schema_props.

Lemma eqb_true_iff (a b : string) : String.eqb a b = true <-> a = b.
Proof. apply String.eqb_eq. Qed.

Lemma eqb_false_iff (a b : string) : String.eqb a b = false <-> a <> b.
Proof. apply String.eqb_neq. Qed.

Lemma length_zero_nil {A} (l : list A) : (List.length l =? 0)%nat = true <-> l = [].
Proof.
  destruct l; simpl; split; intros H; try reflexivity; discriminate.
Qed.

(** C1. [Validate def] returns an error exactly when the fields its protocol
    requires are missing: no route for http; a nil onMessage for tcp and ws;
    no file, a nil sftpAuth, or an empty username or password for sftp; and
    always for a protocol outside http, tcp, ws, sftp. *)
Theorem Validate_error_iff (def : MockDefinition) :
  is_Some (Validate def) <-> missing_required def.
Proof.
  unfold Validate, missing_required.
  destruct (String.eqb (Protocol def) "http") eqn:Hh.
  { apply eqb_true_iff in Hh.
    destruct (List.length (Routes def) =? 0)%nat eqn:Hr.
    - split; [intros _|eauto].
      left. split; [done|]. by apply Nat.eqb_eq.
    - apply Nat.eqb_neq in Hr. split.
      + intros [? ?]; discriminate.
      + rewrite Hh. intros [[_ ?]|[[[?|?] _]|[[? _]|[? _]]]];
          try discriminate; try done. }
  apply eqb_false_iff in Hh.
  destruct (String.eqb (Protocol def) "tcp" || String.eqb (Protocol def) "ws")
    eqn:Ht.
  { apply orb_true_iff in Ht. rewrite !eqb_true_iff in Ht.
    destruct (DefOnMessage def) as [om|] eqn:Hom.
    - split.
      + intros [? ?]; discriminate.
      + intros [[? _]|[[_ ?]|[[Hp _]|[_ [H1 [H2 _]]]]]];
          try done; destruct Ht as [Ht|Ht]; rewrite Ht in *; done.
    - split; [intros _|eauto]. right; left. done. }
  apply orb_false_iff in Ht. rewrite !eqb_false_iff in Ht.
  destruct Ht as [Ht Hw].
  destruct (String.eqb (Protocol def) "sftp") eqn:Hs.
  { apply eqb_true_iff in Hs.
    destruct (List.length (Files def) =? 0)%nat eqn:Hf.
    { apply length_zero_nil in Hf. split; [intros _|eauto].
      right; right; left. eauto. }
    assert (Files def <> []) as Hf'.
    { intros E. rewrite E in Hf. discriminate. }
    destruct (DefSFTPAuth def) as [auth|] eqn:Ha.
    - destruct (String.eqb (Username auth) "" || String.eqb (Password auth) "")
        eqn:Hu.
      + apply orb_true_iff in Hu. rewrite !eqb_true_iff in Hu.
        split; [intros _|eauto]. right; right; left. split; [done|].
        right; right. eauto.
      + apply orb_false_iff in Hu. rewrite !eqb_false_iff in Hu.
        destruct Hu as [Hu Hp]. split.
        * intros [? ?]; discriminate.
        * intros [[? _]|[[[?|?] _]|[[_ [?|[?|[a [Ea [?|?]]]]]]|[_ [_ [_ ?]]]]]];
            try done; injection Ea as <-; done.
    - split; [intros _|eauto]. right; right; left. eauto. }
  apply eqb_false_iff in Hs.
  split; [intros _|eauto]. right; right; right. done.
Qed.

(** [Validate] reads five fields and the port is not one of them. *)
Lemma Validate_reads (d1 d2 : MockDefinition) :
  Protocol d1 = Protocol d2 -> Routes d1 = Routes d2 ->
  DefOnMessage d1 = DefOnMessage d2 -> Files d1 = Files d2 ->
  DefSFTPAuth d1 = DefSFTPAuth d2 ->
  Validate d1 = Validate d2.
Proof.
  unfold Validate. intros -> -> -> -> ->. reflexivity.
Qed.

(** C6, as amended. [Validate] does not look at the port: replacing the port
    of a definition by any integer leaves the verdict unchanged, so an
    accepted definition stays accepted with a port outside 1..65535. *)
Theorem Validate_ignores_port (def : MockDefinition) (p : Z) :
  Validate (with_port def p) = Validate def.
Proof. apply Validate_reads; reflexivity. Qed.

(** C6, as stated, fails: an http definition with one route and port 0 is
    accepted. *)
Lemma Validate_accepts_port_zero :
  Validate (with_routes (bare "http" 0) [ping_route]) = None
  /\ ~ (1 <= Port (with_routes (bare "http" 0) [ping_route]) <= 65535).
Proof. split; [reflexivity | simpl; lia]. Qed.

End schema_facts.

(** ** The template helpers *)
Module template_facts.
Import template.
Import template_props.

Lemma safeContains_not_strings (s substr : value) :
  is_string s && is_string substr = false -> safeContains s substr = false.
Proof. destruct s, substr; simpl; intros E; try reflexivity; discriminate. Qed.

Lemma safeRegexMatch_not_strings `{Regexp} (pat val : value) :
  is_string pat && is_string val = false -> safeRegexMatch pat val = false.
Proof. destruct pat, val; simpl; intros E; try reflexivity; discriminate. Qed.

Lemma safeSplit_not_strings (str sep : value) :
  is_string str && is_string sep = false -> safeSplit str sep = [].
Proof. destruct str, sep; simpl; intros E; try reflexivity; discriminate. Qed.

Lemma safeReplace_not_strings (s old new : value) :
  is_string s && is_string old && is_string new = false ->
  safeReplace s old new = "error: invalid args".
Proof.
  destruct s, old, new; simpl; intros E; try reflexivity; discriminate.
Qed.

Lemma untyped_helpers_accept `{Regexp} `{Ambient} (name : string) (n : nat)
  (args : list value) :
  arity name = Some n -> List.length args = n ->
  exists fn v, FuncMap !! name = Some fn /\ fn args = inr v.
Proof.
  unfold arity. intros Hn Hlen.
  destruct (String.eqb name "now" || String.eqb name "uuid") eqn:E0.
  { injection Hn as <-. apply orb_true_iff in E0.
    destruct args; try discriminate.
    destruct E0 as [E|E]; apply String.eqb_eq in E; subst name;
      eexists _, _; split; reflexivity. }
  destruct (bool_decide (name ∈ ["toJSON"; "upper"; "lower"; "title"; "trim"; "len"]))
    eqn:E1.
  { injection Hn as <-. apply bool_decide_eq_true in E1.
    destruct args as [|a [|b args]]; try discriminate.
    set_unfold in E1.
    destruct E1 as [->|[->|[->|[->|[->|[->|[]]]]]]];
      eexists _, _; (split; reflexivity). }
  destruct (bool_decide (name ∈ ["contains"; "regexMatch"; "split"; "default"]))
    eqn:E2.
  { injection Hn as <-. apply bool_decide_eq_true in E2.
    destruct args as [|a [|b [|c args]]]; try discriminate.
    set_unfold in E2.
    destruct E2 as [->|[->|[->|[->|[]]]]];
      eexists _, _; (split; reflexivity). }
  destruct (String.eqb name "replace") eqn:E3; [|discriminate].
  injection Hn as <-. apply String.eqb_eq in E3. subst name.
  destruct args as [|a [|b [|c [|d args]]]]; try discriminate.
  eexists _, _; split; reflexivity.
Qed.




End template_facts.

(** ** The template context *)
Module context_facts.
Import schema template.

Lemma MergeContext_lookup (input session global : option (gmap string value)) :
  MergeContext input session global !! "input" = Some (VMap (default ∅ input))
  /\ MergeContext input session global !! "session" = Some (VMap (default ∅ session))
  /\ MergeContext input session global !! "context" = Some (VMap (default ∅ global)).
Proof.
  unfold MergeContext.
  destruct input, session, global; simpl; repeat split;
    by simplify_map_eq.
Qed.

Lemma fullContext_lookup (contextVars : gmap string value) :
  runtime.fullContext contextVars !! "context" = Some (VMap contextVars)
  /\ forall k, k <> "context" ->
               runtime.fullContext contextVars !! k = contextVars !! k.
Proof.
  unfold runtime.fullContext. split.
  - apply lookup_insert_eq.
  - intros k Hk. by apply lookup_insert_ne.
Qed.

(** A runtime keeps the context it was made with, and [Render] hands it
    to the engine and leaves it in place. *)
Lemma NewRuntime_context `{Regexp} `{TextTemplate} `{Ambient}
  (ctx : gmap string value) (registry : extensions.Registry) (r : Runtime) :
  NewRuntime ctx registry = inr r -> context r = ctx.
Proof.
  unfold NewRuntime.
  destruct (parse_extensions _ _); [discriminate|].
  intros [= <-]. reflexivity.
Qed.

Lemma Render_context `{TextTemplate} (r : Runtime) (name raw : string) :
  context (snd (Render r name raw)) = context r.
Proof.
  unfold Render. destruct (tmpl_Parse _ _ _) as [e|[t ns]]; [reflexivity|].
  destruct (tmpl_Execute _ _ _). reflexivity.
Qed.




End context_facts.

(** ** The handlers *)
Module runtime_facts.
Import schema runtime.
Import runtime_props.

(** ** The log is the only thing that logging changes *)

Lemma add_log_nil (w : World) : add_log w [] = w.
Proof. destruct w. unfold add_log. simpl. by rewrite app_nil_r. Qed.

Lemma add_log_app (w : World) (a b : list entry) :
  add_log (add_log w a) b = add_log w (a ++ b).
Proof. unfold add_log. simpl. by rewrite app_assoc. Qed.

Lemma log_with_run (l : level) (m : string) (fs : list (string * string))
  (w : World) :
  log_with l m fs w = (Returned tt, add_log w [{| lvl := l; msg := m; fields := fs |}]).
Proof. reflexivity. Qed.

Lemma LoadKurof_run (source : string) (w : World) :
  exists r, extensions.LoadKurof source w = (Returned r, w).
Proof.
  unfold extensions.LoadKurof, os.ReadFile, bind, gets, ret.
  destruct (_ || _).
  - destruct (w_web w !! source) as [[status body]|]; [|eauto].
    destruct (negb _); eauto.
  - destruct (os.stat _ _) as [[c|]|]; eauto.
Qed.

Lemma loadExtensions_from_run (registry : extensions.Registry)
  (imports : list string) (w : World) :
  exists r es, loadExtensions_from registry imports w = (Returned r, add_log w es).
Proof.
  revert registry w. induction imports as [|src rest IH]; intros registry w.
  - exists registry, []. by rewrite add_log_nil.
  - simpl. unfold bind at 1.
    destruct (LoadKurof_run src w) as [[code err] ->].
    destruct err as [e|]; unfold bind; rewrite log_with_run;
      match goal with
      | |- context [loadExtensions_from ?r rest ?w'] =>
          destruct (IH r w') as (r' & es & ->)
      end; rewrite add_log_app; eauto.
Qed.

Lemma loadExtensions_run (imports : list string) (w : World) :
  exists r es, loadExtensions imports w = (Returned r, add_log w es).
Proof. apply loadExtensions_from_run. Qed.

(** ** Accept loops *)

(** The TCP loop goes on after an error that is not the one of a closed
    listener. *)
Lemma tcp_accept_loop_goes_on (def : MockDefinition) (err : net.accept_error)
  (rest : list accepted) (w : World) :
  err <> net.OpError net.closed_text ->
  tcp_accept_loop def (AcceptError err :: rest) w
  = tcp_accept_loop def rest
      (add_log w [{| lvl := Error; msg := "failed to accept TCP connection";
                     fields := [("error", net.accept_error_text err)] |}]).
Proof.
  intros Hne. simpl. destruct err as [inner|text].
  - destruct (String.eqb inner net.closed_text) eqn:E.
    + apply String.eqb_eq in E. congruence.
    + reflexivity.
  - reflexivity.
Qed.

(** The TCP loop returns on the error of a closed listener. *)
Lemma tcp_accept_loop_closed (def : MockDefinition) (rest : list accepted)
  (w : World) :
  fst (tcp_accept_loop def (AcceptError (net.OpError net.closed_text) :: rest) w)
  = Returned LoopReturned.
Proof. reflexivity. Qed.

(** The SFTP loop returns on every error. *)
Lemma acceptConnections_any_error (err : net.accept_error)
  (rest : list accepted) (w : World) :
  acceptConnections (AcceptError err :: rest) w
  = (Returned LoopReturned,
     add_log w [{| lvl := Error; msg := "❌ Failed to accept connection";
                   fields := [("error", net.accept_error_text err)] |}]).
Proof. reflexivity. Qed.

(** C5, on the code: after an [Accept] error that is not the listener being
    closed, the TCP loop accepts the next connection and the SFTP loop has
    returned without it. *)
Theorem sftp_accept_loop_ends_on_transient_error (def : MockDefinition)
  (conn : Conn) (w : World) :
  let events := [AcceptError too_many_files; Connection conn] in
  (fst (tcp_accept_loop def events w) = Returned LoopAccepting
   /\ w_spawned (snd (tcp_accept_loop def events w))
      = w_spawned w ++ [TcpHandleConnection conn def])
  /\ (fst (acceptConnections events w) = Returned LoopReturned
      /\ w_spawned (snd (acceptConnections events w)) = w_spawned w).
Proof. repeat split. Qed.

(** ** Binding the port *)

Lemma Listen_in_use (port : Z) (w : World) :
  port ∈ w_ports w ->
  exists e, net.Listen port w = (Returned (None, Some e), w).
Proof.
  intros Hin. unfold net.Listen, bind, gets, ret.
  destruct (_ || _); [eauto|].
  rewrite bool_decide_eq_true_2 by done. eauto.
Qed.

(** The TCP handler returns the error of a port in use. *)
Lemma tcp_Start_port_in_use (h : TCPHandler) (def : MockDefinition) (w : World) :
  Port def ∈ w_ports w ->
  exists h' e w', tcp_Start h def w = (Returned (h', Some e), w')
                  /\ w_spawned w' = w_spawned w.
Proof.
  intros Hin. unfold tcp_Start, bind.
  destruct (Listen_in_use _ _ Hin) as [e ->].
  eexists _, _, _. split; reflexivity.
Qed.

(** C4, on the code: with the port in use, the WebSocket [Start] returns
    nil, and the goroutine it leaves behind ends the process with status 1
    when it fails to bind. *)
Theorem ws_Start_hides_bind_failure (h : WSHandler) (def : MockDefinition)
  (w : World) :
  Port def ∈ w_ports w -> "/" ∉ w_mux w ->
  exists registry w',
    ws_Start h def w = (Returned (registry, None), w')
    /\ w_spawned w' = w_spawned w ++ [WsListenAndServe def]
    /\ fst (goroutine (ws_listen_and_serve def) w') = Dead 1.
Proof.
  intros Hin Hmux. unfold ws_Start, log. unfold bind at 1.
  rewrite log_with_run. unfold bind at 1.
  match goal with
  | |- context [loadExtensions ?i ?w0] =>
      destruct (loadExtensions_run i w0) as (r & es & ->)
  end.
  rewrite add_log_app.
  unfold http_HandleFunc, bind, gets, modify, spawn, ret. simpl.
  rewrite bool_decide_eq_false_2 by done. simpl.
  eexists _, _. split; [reflexivity|]. split; [reflexivity|].
  unfold goroutine, ws_listen_and_serve, bind.
  match goal with
  | |- context [net.Listen ?p ?w'] =>
      destruct (Listen_in_use p w') as [e ->]; [exact Hin|]
  end.
  reflexivity.
Qed.

Lemma ws_Start_hides_bind_failure_witness :
  exists registry w',
    ws_Start NewWSHandler scenario.ws_mock (port_held 9201) = (Returned (registry, None), w')
    /\ w_spawned w' = w_spawned (port_held 9201) ++ [WsListenAndServe scenario.ws_mock]
    /\ fst (goroutine (ws_listen_and_serve scenario.ws_mock) w') = Dead 1.
Proof.
  apply (ws_Start_hides_bind_failure NewWSHandler scenario.ws_mock (port_held 9201)).
  - apply (bool_decide_unpack _). vm_compute. exact I.
  - apply (bool_decide_unpack _). vm_compute. exact I.
Defined.

(** ** A pattern that does not compile *)

Lemma extractVars_panics `{Regexp} (input pattern : string) (e : error) (w : World) :
  pattern <> "" -> regexp_Compile pattern = inl e ->
  extractVars input pattern w
  = (Panicked ("regexp: Compile(`" +:+ pattern +:+ "`): " +:+ e), w).
Proof.
  intros Hne Herr. unfold extractVars, MustCompile, bind.
  apply String.eqb_neq in Hne. rewrite Hne, Herr. reflexivity.
Qed.

(** C2, on the code: when the pattern of a mock does not compile, handling
    a TCP message panics, nothing is written and the panic ends the process
    with status 2; the WebSocket function panics at the first message of a
    client, writes nothing and never reads the messages that follow. *)
Theorem invalid_pattern_panics `{Regexp} `{TextTemplate} `{Ambient}
  (def : MockDefinition) (om : OnMessage) (e : error) (w : World) :
  DefOnMessage def = Some om ->
  Match om <> "" ->
  regexp_Compile (Match om) = inl e ->
  (forall conn data, conn_input conn = inr data ->
     exists reason w',
       handleConnection conn (Some def) w = (Panicked reason, w')
       /\ w_wire w' = w_wire w
       /\ fst (goroutine (handleConnection conn (Some def)) w) = Dead 2)
  /\ (forall registry client raw rest,
        ws_upgrade client = None -> ws_messages client = raw :: rest ->
        exists reason w',
          ws_handler def registry client w = (Panicked reason, w')
          /\ w_wire w' = w_wire w).
Proof.
  intros Hom Hne Herr. split.
  - intros conn data Hin.
    assert (exists reason w',
               handleConnection conn (Some def) w = (Panicked reason, w')
               /\ w_wire w' = w_wire w) as (reason & w' & Hrun & Hwire).
    { unfold handleConnection. rewrite Hom, Hin.
      unfold deferring, bind. rewrite log_with_run.
      rewrite (extractVars_panics _ _ e) by assumption.
      simpl. eexists _, _. split; reflexivity. }
    exists reason, w'. split; [exact Hrun|]. split; [exact Hwire|].
    unfold goroutine. rewrite Hrun. reflexivity.
  - intros registry client raw rest Hup Hmsgs.
    unfold ws_handler. rewrite Hup, Hmsgs. simpl.
    unfold deferring, bind, log. rewrite !log_with_run. unfold deref.
    rewrite Hom. unfold ret.
    rewrite (extractVars_panics _ _ e) by assumption.
    simpl. eexists _, _. split; reflexivity.
Qed.

Lemma invalid_pattern_panics_witness :
  exists reason w',
    handleConnection (scenario.client "x")
      (Some (scenario.tcp_mock "(" [scenario.ping_rule] "")) scenario.world
    = (Panicked reason, w')
    /\ w_wire w' = w_wire scenario.world
    /\ fst (goroutine (handleConnection (scenario.client "x")
                         (Some (scenario.tcp_mock "(" [scenario.ping_rule] "")))
              scenario.world) = Dead 2.
Proof.
  refine (proj1 (invalid_pattern_panics
                   (scenario.tcp_mock "(" [scenario.ping_rule] "")
                   {| Match := "("; Conditions := [scenario.ping_rule]; Else := "" |}
                   "error parsing regexp: missing closing )"
                   scenario.world _ _ _) (scenario.client "x") "x" _).
  - reflexivity.
  - discriminate.
  - vm_compute. reflexivity.
  - reflexivity.
Defined.

(** ** The mock of the TCP test *)

(** C9, as amended: the message [ping test] is answered with [PING TEST]
    and a line feed, whatever the fallback is. *)
Theorem ping_test_answer (els : string) :
  let '(result, w) :=
    handleConnection (scenario.client "ping test")
      (Some (scenario.ping_mock els)) scenario.world in
  result = Returned tt
  /\ w_wire w = [(1%nat, "PING TEST" +:+ newline)].
Proof. vm_compute. split; reflexivity. Qed.

(** C9, as stated, fails: what is written is not the bare [PING TEST]. *)
Lemma ping_test_answer_not_bare :
  w_wire (snd (handleConnection (scenario.client "ping test")
                 (Some (scenario.ping_mock "NO MATCH")) scenario.world))
  <> [(1%nat, "PING TEST")].
Proof. vm_compute. discriminate. Qed.

(** The HTTP handler on a port in use: it returns the error when the
    goroutine has failed within the wait, and nil when it has not yet. *)
Example http_Start_port_in_use :
  (exists h e w', http_Start true NewHTTPHandler scenario.http_mock
                    (port_held 8088) = (Returned (h, Some e), w'))
  /\ (exists h w', http_Start false NewHTTPHandler scenario.http_mock
                     (port_held 8088) = (Returned (h, None), w')
                   /\ w_spawned w' = [HttpListenAndServe scenario.http_mock]).
Proof.
  split.
  - eexists _, _, _. vm_compute. reflexivity.
  - eexists _, _. split; vm_compute; reflexivity.
Qed.

(** ** The mock of the WebSocket test *)

(** One client sends [ping], then [hello]: it is answered [pong], then the
    fallback, one message each. *)
Example ws_ping_then_fallback :
  let client := {| ws_conn := 7; ws_upgrade := None;
                   ws_messages := ["ping"; "hello"] |} in
  exists registry w1 w2,
    ws_Start NewWSHandler scenario.ws_mock scenario.world
    = (Returned (registry, None), w1)
    /\ ws_handler scenario.ws_mock registry client w1 = (Returned tt, w2)
    /\ w_wire w2 = [(7%nat, "pong"); (7%nat, "unknown command")]
    /\ w_closed w2 = [7%nat].
Proof.
  eexists _, _, _. split; [vm_compute; reflexivity|].
  split; vm_compute; [reflexivity|]. split; reflexivity.
Qed.

(** The route of the HTTP test answers [GATITO]. *)
Example http_hola :
  let request := {| req_method := "GET"; req_content_type := "";
                    req_json := (None, None) |} in
  exists registry w1 w2,
    loadExtensions (Import scenario.http_mock) scenario.world
    = (Returned registry, w1)
    /\ route_handler scenario.http_mock registry (Routes scenario.http_mock)
         request w1
       = (Returned {| resp_headers := []; resp_status := 200;
                      resp_body := "GATITO" |}, w2).
Proof.
  eexists _, _, _. split; [vm_compute; reflexivity|].
  vm_compute. reflexivity.
Qed.

(** ** The conditions of a rule set *)
Section rules.
Context `{TextTemplate}.

Lemma record_record (w : World) (a b : list entry) (x y : list (nat * string)) :
  record (record w a x) b y = record w (a ++ b) (x ++ y).
Proof. unfold record. simpl. by rewrite !app_assoc. Qed.

Lemma evaluated_app (a b : list entry) :
  evaluated (a ++ b) = evaluated a ++ evaluated b.
Proof. apply omap_app. Qed.

Lemma end_line_idempotent (resp : string) : end_line (end_line resp) = end_line resp.
Proof.
  unfold end_line at 2.
  destruct ((0 <? String.length resp)%nat && _) eqn:E; [|unfold end_line; by rewrite E].
  unfold end_line.
  assert (String.substring (String.length (resp +:+ newline) - 1) 1 (resp +:+ newline)
          = newline) as ->.
  { clear E. induction resp as [|c r IH]; [reflexivity|].
    simpl String.length. simpl String.append.
    replace (S (String.length (r +:+ newline)) - 1)%nat
      with (S (String.length (r +:+ newline) - 1))%nat.
    - simpl. apply IH.
    - assert (0 < String.length (r +:+ newline))%nat; [|lia].
      clear. induction r; simpl; lia. }
  rewrite String.eqb_refl, E. simpl. by rewrite andb_false_r.
Qed.

Lemma render_guards_cons (tpl tpl1 : template.Runtime) (i : nat)
  (cond : OnMessageRule) (rest : list OnMessageRule) (result : string)
  (err : option error) :
  template.Render tpl (cond_name i) (If cond) = (result, err, tpl1) ->
  render_guards tpl i (cond :: rest) = (result, tpl1) :: render_guards tpl1 (S i) rest.
Proof. intros E. simpl. by rewrite E. Qed.

Lemma pick_cons_true (tpl tpl1 : template.Runtime) (i : nat) (cond : OnMessageRule)
  (rest : list OnMessageRule) (err : option error) :
  template.Render tpl (cond_name i) (If cond) = ("true", err, tpl1) ->
  pick tpl i (cond :: rest)
  = (let '(resp, _, tpl') := template.Render tpl1 (resp_name i) (Respond cond) in
     Some (resp, tpl'))
  /\ evaluated_count tpl i (cond :: rest) = 1%nat.
Proof.
  intros E. unfold pick, evaluated_count.
  rewrite (render_guards_cons _ _ _ _ _ _ _ E). simpl.
  rewrite Nat.add_0_r. split; reflexivity.
Qed.

Lemma pick_cons_false (tpl tpl1 : template.Runtime) (i : nat) (cond : OnMessageRule)
  (rest : list OnMessageRule) (result : string) (err : option error) :
  template.Render tpl (cond_name i) (If cond) = (result, err, tpl1) ->
  String.eqb result "true" = false ->
  pick tpl i (cond :: rest) = pick tpl1 (S i) rest
  /\ evaluated_count tpl i (cond :: rest) = S (evaluated_count tpl1 (S i) rest)
  /\ after_guards tpl i (cond :: rest) = after_guards tpl1 (S i) rest.
Proof.
  intros E Hf. unfold pick, evaluated_count, after_guards.
  rewrite (render_guards_cons _ _ _ _ _ _ _ E).
  rewrite fmap_cons. cbn [first_true fst]. rewrite Hf.
  destruct (first_true (fst <$> render_guards tpl1 (S i) rest)) as [k|] eqn:Ek;
    cbn [fmap option_fmap option_map mbind option_bind lookup list_lookup].
  - split; [|split; [reflexivity|]].
    + replace (i + S k)%nat with (S i + k)%nat by lia. reflexivity.
    + destruct (render_guards tpl1 (S i) rest) as [|g gs] eqn:Eg; [discriminate|].
      rewrite last_cons. by destruct (last (g :: gs)) eqn:El.
  - split; [reflexivity|]. split; [reflexivity|].
    destruct (render_guards tpl1 (S i) rest) as [|g gs] eqn:Eg; [reflexivity|].
    rewrite last_cons. by destruct (last (g :: gs)) eqn:El.
Qed.

Lemma tcp_conditions_run : conditions_run end_line tcp_conditions.
Proof.
  intros conn conds. induction conds as [|cond rest IH]; intros tpl i w.
  - exists []. split; [reflexivity|].
    unfold pick, after_guards. simpl. unfold ret, record. simpl.
    rewrite !app_nil_r. by destruct w.
  - simpl tcp_conditions.
    destruct (template.Render tpl ("cond_" +:+ fmt_pkg.itoa (Z.of_nat i)) (If cond))
      as [[result err] tpl1] eqn:E.
    unfold bind at 1. rewrite log_with_run.
    destruct (String.eqb result "true") eqn:Ht.
    + apply String.eqb_eq in Ht. subst result.
      destruct (pick_cons_true _ _ _ _ rest _ E) as [-> ->].
      unfold resp_name.
      destruct (template.Render tpl1 _ (Respond cond)) as [[resp err'] tpl2] eqn:E2.
      exists [{| lvl := Debug; msg := "evaluated condition";
                 fields := [("condition", fmt_pkg.itoa (Z.of_nat i));
                            ("if", If cond); ("result", "true")] |};
              {| lvl := Info; msg := "sending matched response";
                 fields := [("response", resp)] |}].
      split; [reflexivity|].
      unfold bind, log_with, modify, net.Write, ret, record, add_log. simpl.
      rewrite end_line_idempotent. rewrite <- !app_assoc. reflexivity.
    + destruct (pick_cons_false _ _ _ _ rest _ _ E Ht) as (-> & -> & ->).
      destruct (IH tpl1 (S i) (add_log w [{| lvl := Debug; msg := "evaluated condition";
          fields := [("condition", fmt_pkg.itoa (Z.of_nat i)); ("if", If cond);
                     ("result", result)] |}])) as (es & Hev & ->).
      exists ({| lvl := Debug; msg := "evaluated condition";
                 fields := [("condition", fmt_pkg.itoa (Z.of_nat i));
                            ("if", If cond); ("result", result)] |} :: es).
      split.
      * change (?e :: es) with ([e] ++ es). rewrite evaluated_app, Hev.
        reflexivity.
      * destruct (pick tpl1 (S i) rest) as [[resp tpl']|];
          unfold record, add_log; simpl; rewrite <- !app_assoc; reflexivity.
Qed.

Lemma ws_conditions_run : conditions_run (fun resp => resp) ws_conditions.
Proof.
  intros conn conds. induction conds as [|cond rest IH]; intros tpl i w.
  - exists []. split; [reflexivity|].
    unfold pick, after_guards. simpl. unfold ret, record. simpl.
    rewrite !app_nil_r. by destruct w.
  - simpl ws_conditions.
    destruct (template.Render tpl ("cond_" +:+ fmt_pkg.itoa (Z.of_nat i)) (If cond))
      as [[result err] tpl1] eqn:E.
    unfold bind at 1. rewrite log_with_run.
    destruct (String.eqb result "true") eqn:Ht.
    + apply String.eqb_eq in Ht. subst result.
      destruct (pick_cons_true _ _ _ _ rest _ E) as [-> ->].
      unfold resp_name.
      destruct (template.Render tpl1 _ (Respond cond)) as [[resp err'] tpl2] eqn:E2.
      exists [{| lvl := Debug; msg := "evaluated condition";
                 fields := [("condition", fmt_pkg.itoa (Z.of_nat i));
                            ("if", If cond); ("result", "true")] |};
              {| lvl := Info; msg := "sending matched response";
                 fields := [("response", resp)] |}].
      split; [reflexivity|].
      unfold bind, log_with, modify, net.Write, ret, record, add_log. simpl.
      rewrite <- !app_assoc. reflexivity.
    + destruct (pick_cons_false _ _ _ _ rest _ _ E Ht) as (-> & -> & ->).
      destruct (IH tpl1 (S i) (add_log w [{| lvl := Debug; msg := "evaluated condition";
          fields := [("condition", fmt_pkg.itoa (Z.of_nat i)); ("if", If cond);
                     ("result", result)] |}])) as (es & Hev & ->).
      exists ({| lvl := Debug; msg := "evaluated condition";
                 fields := [("condition", fmt_pkg.itoa (Z.of_nat i));
                            ("if", If cond); ("result", result)] |} :: es).
      split.
      * change (?e :: es) with ([e] ++ es). rewrite evaluated_app, Hev.
        reflexivity.
      * destruct (pick tpl1 (S i) rest) as [[resp tpl']|];
          unfold record, add_log; simpl; rewrite <- !app_assoc; reflexivity.
Qed.

Lemma tcp_respond_run (conn : nat) (tpl : template.Runtime) (om : OnMessage)
  (w : World) :
  exists es,
    tcp_respond conn tpl om w
    = (Returned tt, record w es (one_write conn (end_line <$> response tpl om)))
    /\ evaluated es = numbers 0 (evaluated_count tpl 0 (Conditions om)).
Proof.
  unfold tcp_respond, response, bind.
  destruct (tcp_conditions_run conn (Conditions om) tpl 0%nat w) as (es & Hev & ->).
  destruct (pick tpl 0 (Conditions om)) as [[resp tpl']|].
  - exists es. split; [reflexivity | exact Hev].
  - destruct (String.eqb (Else om) "") eqn:Ee; simpl.
    + exists es. split; [reflexivity | exact Hev].
    + destruct (template.Render _ "else" (Else om)) as [[resp err] tpl'].
      exists (es ++ [{| lvl := Info; msg := "sending fallback response";
                        fields := [("response", resp)] |}]).
      split.
      * unfold log_with, net.Write, modify, record. simpl.
        rewrite end_line_idempotent, app_nil_r, <- app_assoc. reflexivity.
      * rewrite evaluated_app, Hev. simpl. by rewrite app_nil_r.
Qed.

Lemma ws_respond_run (conn : nat) (tpl : template.Runtime) (om : OnMessage)
  (w : World) :
  exists es,
    ws_respond conn tpl om w
    = (Returned tt, record w es (one_write conn (response tpl om)))
    /\ evaluated es = numbers 0 (evaluated_count tpl 0 (Conditions om)).
Proof.
  unfold ws_respond, response, bind.
  destruct (ws_conditions_run conn (Conditions om) tpl 0%nat w) as (es & Hev & ->).
  destruct (pick tpl 0 (Conditions om)) as [[resp tpl']|].
  - exists es. split; [reflexivity | exact Hev].
  - destruct (String.eqb (Else om) "") eqn:Ee; simpl.
    + exists es. split; [reflexivity | exact Hev].
    + destruct (template.Render _ "else" (Else om)) as [[resp err] tpl'].
      exists (es ++ [{| lvl := Info; msg := "sending fallback response";
                        fields := [("response", resp)] |}]).
      split.
      * unfold log_with, net.Write, modify, record. simpl.
        rewrite app_nil_r, <- app_assoc. reflexivity.
      * rewrite evaluated_app, Hev. simpl. by rewrite app_nil_r.
Qed.

End rules.

(** ** From the connection to the rule set *)
Section pipeline.
Context `{Regexp} `{TextTemplate} `{Ambient}.

(** With an empty pattern, or one that compiles, [extractVars] returns and
    leaves the world as it is. *)
Lemma extractVars_run (input pattern : string) :
  pattern = "" \/ (exists re, regexp_Compile pattern = inr re) ->
  exists matches, forall w, extractVars input pattern w = (Returned matches, w).
Proof.
  intros [->|[re Hre]].
  - eexists. intros w. reflexivity.
  - unfold extractVars, MustCompile, bind. rewrite Hre.
    destruct (String.eqb pattern ""); eexists; intros w; reflexivity.
Qed.

End pipeline.

(** The second of three conditions is the first whose guard gives [true]:
    its respond template is the one written, and the third is not
    evaluated. *)
Example second_condition_answers :
  let rules :=
    [{| If := "{{ contains .input.cmd " +:+ scenario.quoted "zzz" +:+ " }}";
        Respond := "first" |};
     {| If := "{{ contains .input.cmd " +:+ scenario.quoted "ping" +:+ " }}";
        Respond := "second {{ .input.cmd }}" |};
     {| If := "true"; Respond := "third" |}] in
  let '(result, w) :=
    handleConnection (scenario.client "ping 1")
      (Some (scenario.tcp_mock "(?P<cmd>.+)" rules "fallback")) scenario.world in
  result = Returned tt
  /\ w_wire w = [(1%nat, "second ping 1" +:+ newline)]
  /\ evaluated (w_log w) = ["0"; "1"].
Proof. vm_compute. repeat split. Qed.

End runtime_facts.

(** ** A received message, from the read to the write *)
Module message_facts.
Import schema runtime runtime_props runtime_facts message_props.

(** *** The line feed of TCP *)

Lemma last_byte (resp : string) (c : ascii) :
  last (list_ascii_of_string resp) = Some c ->
  String.substring (String.length resp - 1) 1 resp = String c "".
Proof.
  revert c. induction resp as [|a r IH]; intros c; [discriminate|].
  destruct r as [|b r'].
  - simpl. by intros [= ->].
  - change (list_ascii_of_string (String a (String b r')))
      with (a :: list_ascii_of_string (String b r')).
    change (list_ascii_of_string (String b r'))
      with (b :: list_ascii_of_string r') at 1.
    rewrite last_cons_cons.
    change (b :: list_ascii_of_string r') with (list_ascii_of_string (String b r')).
    intros Hlast.
    replace (String.length (String a (String b r')) - 1)%nat
      with (S (String.length (String b r') - 1)) by (simpl; lia).
    change (String.substring (S ?n) 1 (String a ?s))
      with (String.substring n 1 s).
    by apply IH.
Qed.

Lemma end_line_line_terminated (resp : string) :
  end_line resp = line_terminated resp.
Proof.
  unfold end_line, line_terminated.
  destruct (last (list_ascii_of_string resp)) as [c|] eqn:Hlast.
  - assert ((0 <? String.length resp)%nat = true) as ->.
    { apply Nat.ltb_lt. destruct resp; [discriminate|simpl; lia]. }
    rewrite (last_byte _ _ Hlast). unfold newline. simpl.
    destruct (Ascii.eqb_spec c (ascii_of_nat 10)) as [->|Hne].
    + reflexivity.
    + destruct (Ascii.eqb c (ascii_of_nat 10)) eqn:E; [|reflexivity].
      apply Ascii.eqb_eq in E. done.
  - destruct resp; [reflexivity|]. simpl in Hlast.
    apply last_None in Hlast. discriminate.
Qed.

(** *** The imports and the captures of a message *)

Lemma LoadKurof_reads (src : string) (w1 w2 : World) :
  w_fs w1 = w_fs w2 -> w_web w1 = w_web w2 ->
  fst (extensions.LoadKurof src w1) = fst (extensions.LoadKurof src w2).
Proof.
  intros Hfs Hweb. unfold extensions.LoadKurof, os.ReadFile, bind, gets, ret.
  destruct (_ || _); cbn beta iota; rewrite ?Hfs, ?Hweb.
  - destruct (w_web w2 !! src) as [[status body]|]; [|reflexivity].
    by destruct (negb _).
  - by destruct (os.stat _ _) as [[c|]|].
Qed.

Lemma loadExtensions_from_at (imports : list string)
  (registry : extensions.Registry) (w w0 : World) :
  w_fs w = w_fs w0 -> w_web w = w_web w0 ->
  exists r es es0,
    loadExtensions_from registry imports w = (Returned r, add_log w es)
    /\ loadExtensions_from registry imports w0 = (Returned r, add_log w0 es0)
    /\ evaluated es = [].
Proof.
  revert registry w w0.
  induction imports as [|src rest IH]; intros registry w w0 Hfs Hweb.
  - exists registry, [], []. rewrite !add_log_nil. by repeat split.
  - simpl. unfold bind.
    pose proof (LoadKurof_reads src w w0 Hfs Hweb) as E.
    destruct (LoadKurof_run src w) as [[code err] E1].
    destruct (LoadKurof_run src w0) as [[code0 err0] E0].
    rewrite E1, E0 in *. simpl in E. injection E as -> ->.
    destruct err0 as [e|]; rewrite !log_with_run; cbn beta iota;
      match goal with
      | |- context [loadExtensions_from ?r rest (add_log w ?l)] =>
          destruct (IH r (add_log w l) (add_log w0 l) Hfs Hweb)
            as (r' & es & es0 & -> & -> & Hev)
      end; rewrite !add_log_app; eexists _, _, _;
      (split; [reflexivity|]); (split; [reflexivity|]);
      rewrite evaluated_app, Hev; reflexivity.
Qed.

Section pipeline.
Context `{Regexp} `{TextTemplate} `{Ambient}.

Lemma loadExtensions_at (def : MockDefinition) (w w0 : World) :
  w_fs w = w_fs w0 -> w_web w = w_web w0 ->
  exists es,
    loadExtensions (Import def) w = (Returned (imports_of def w0), add_log w es)
    /\ evaluated es = [].
Proof.
  intros Hfs Hweb. unfold imports_of, loadExtensions.
  destruct (loadExtensions_from_at (Import def) extensions.NewRegistry w w0
              Hfs Hweb) as (r & es & es0 & -> & -> & Hev).
  by exists es.
Qed.

Lemma extractVars_captures (raw pattern : string) (w : World) :
  pattern = "" \/ (exists re, regexp_Compile pattern = inr re) ->
  extractVars raw pattern w = (Returned (captures raw pattern), w).
Proof.
  intros Hpat. destruct (extractVars_run raw pattern Hpat) as [matches Hrun].
  unfold captures. by rewrite (Hrun empty_world), (Hrun w).
Qed.

(** *** One TCP connection *)

Lemma handleConnection_answer (conn : Conn) (def : MockDefinition)
  (om : OnMessage) (context : Context) (data : string) (w : World) :
  DefOnMessage def = Some om ->
  DefContext def = Some context ->
  Match om = "" \/ (exists re, regexp_Compile (Match om) = inr re) ->
  conn_input conn = inr data ->
  exists es w',
    handleConnection conn (Some def) w = (Returned tt, w')
    /\ w_log w' = w_log w ++ es
    /\ w_wire w'
       = w_wire w ++ answer line_terminated "error de template" (conn_id conn)
                      (imports_of def w) om context (String.substring 0 2048 data)
    /\ evaluated es
       = guards_evaluated (imports_of def w) om context
           (String.substring 0 2048 data).
Proof.
  intros Hom Hctx Hpat Hin.
  unfold handleConnection. rewrite Hom, Hin, Hctx.
  generalize (String.substring 0 2048 data). intros rawInput.
  unfold answer, guards_evaluated, message_runtime.
  unfold deferring at 1 2. unfold bind at 1. rewrite log_with_run.
  unfold bind at 1. rewrite (extractVars_captures _ _ _ Hpat). unfold bind at 1.
  match goal with
  | |- context [loadExtensions _ ?w0] =>
      destruct (loadExtensions_at def w0 w eq_refl eq_refl) as (es & -> & Hev)
  end.
  rewrite add_log_app. unfold bind at 1. unfold deref, ret.
  destruct (template.NewRuntime
              (message_context (captures rawInput (Match om)) context)
              (imports_of def w)) as [err|tpl].
  - eexists _, _. split; [reflexivity|]. simpl.
    split; [by rewrite <- app_assoc|]. split; [reflexivity|].
    change (?e :: es) with ([e] ++ es).
    rewrite !evaluated_app, Hev. reflexivity.
  - match goal with
    | |- context [tcp_respond ?c tpl om ?w0] =>
        destruct (tcp_respond_run c tpl om w0) as (es' & -> & Hev')
    end.
    eexists _, _. split; [reflexivity|]. simpl.
    split; [by rewrite <- app_assoc|]. split.
    + f_equal. destruct (response tpl om) as [resp|]; [|reflexivity].
      simpl. by rewrite end_line_line_terminated.
    + change (?e :: es) with ([e] ++ es).
      rewrite !evaluated_app, Hev, Hev'. reflexivity.
Qed.

(** *** The messages of one WebSocket client *)

Lemma ws_loop_answers (def : MockDefinition) (om : OnMessage)
  (context : Context) (registry : extensions.Registry) (conn : nat)
  (messages : list string) (w : World) :
  DefOnMessage def = Some om ->
  DefContext def = Some context ->
  Match om = "" \/ (exists re, regexp_Compile (Match om) = inr re) ->
  exists es w',
    ws_loop def registry conn messages w = (Returned tt, w')
    /\ w_log w' = w_log w ++ es
    /\ w_closed w' = w_closed w
    /\ w_wire w'
       = w_wire w ++ flat_map (answer (fun resp => resp) "template error" conn
                                 registry om context) messages
    /\ evaluated es
       = flat_map (guards_evaluated registry om context) messages.
Proof.
  intros Hom Hctx Hpat. revert w.
  induction messages as [|raw rest IH]; intros w.
  - eexists _, _. split; [reflexivity|]. simpl.
    split; [reflexivity|]. split; [reflexivity|].
    split; [by rewrite app_nil_r|reflexivity].
  - simpl ws_loop. unfold bind at 1. rewrite log_with_run.
    rewrite Hom. unfold deref at 1. unfold bind at 1, ret at 1.
    unfold bind at 1. rewrite (extractVars_captures _ _ _ Hpat).
    rewrite Hctx. unfold deref at 1. unfold bind at 1, ret at 1.
    simpl flat_map. unfold answer at 1, guards_evaluated at 1, message_runtime.
    destruct (template.NewRuntime
                (message_context (captures raw (Match om)) context) registry)
      as [err|tpl].
    + unfold bind at 1. rewrite log_with_run.
      unfold bind at 1, net.Write at 1, modify at 1.
      match goal with
      | |- context [ws_loop def registry conn rest ?w0] =>
          destruct (IH w0) as (es & w' & -> & Hlog & Hclosed & Hwire & Hev)
      end.
      eexists _, w'. split; [reflexivity|].
      rewrite Hlog, Hclosed, Hwire. simpl. rewrite <- !app_assoc.
      split; [reflexivity|]. split; [reflexivity|]. split; [reflexivity|].
      rewrite !evaluated_app, Hev. reflexivity.
    + unfold bind at 1.
      match goal with
      | |- context [ws_respond ?c tpl om ?w0] =>
          destruct (ws_respond_run c tpl om w0) as (es' & -> & Hev')
      end.
      match goal with
      | |- context [ws_loop def registry conn rest ?w0] =>
          destruct (IH w0) as (es & w' & -> & Hlog & Hclosed & Hwire & Hev)
      end.
      eexists _, w'. split; [reflexivity|].
      rewrite Hlog, Hclosed, Hwire. simpl. rewrite <- !app_assoc.
      split; [reflexivity|]. split; [reflexivity|]. split.
      * do 2 f_equal. by destruct (response tpl om).
      * rewrite !evaluated_app, Hev, Hev'. reflexivity.
Qed.

Lemma ws_handler_answers (def : MockDefinition) (om : OnMessage)
  (context : Context) (registry : extensions.Registry) (client : WSClient)
  (w : World) :
  DefOnMessage def = Some om ->
  DefContext def = Some context ->
  Match om = "" \/ (exists re, regexp_Compile (Match om) = inr re) ->
  ws_upgrade client = None ->
  exists es w',
    ws_handler def registry client w = (Returned tt, w')
    /\ w_log w' = w_log w ++ es
    /\ w_wire w'
       = w_wire w ++ flat_map (answer (fun resp => resp) "template error"
                                 (ws_conn client) registry om context)
                      (ws_messages client)
    /\ evaluated es
       = flat_map (guards_evaluated registry om context) (ws_messages client).
Proof.
  intros Hom Hctx Hpat Hup. unfold ws_handler. rewrite Hup.
  unfold deferring, log. unfold bind at 1. rewrite log_with_run.
  match goal with
  | |- context [ws_loop def registry ?c ?ms ?w0] =>
      destruct (ws_loop_answers def om context registry c ms w0 Hom Hctx Hpat)
        as (es & w' & -> & Hlog & _ & Hwire & Hev)
  end.
  eexists _, _. split; [reflexivity|]. simpl. rewrite Hlog, Hwire. simpl.
  split; [by rewrite <- app_assoc|]. split; [reflexivity|].
  change (?e :: es) with ([e] ++ es). rewrite evaluated_app, Hev. reflexivity.
Qed.

(** *** A definition without a context *)

Lemma handleConnection_nil_context (def : MockDefinition) (om : OnMessage)
  (conn : Conn) (data : string) (w : World) :
  DefOnMessage def = Some om ->
  DefContext def = None ->
  Match om = "" \/ (exists re, regexp_Compile (Match om) = inr re) ->
  conn_input conn = inr data ->
  exists w',
    handleConnection conn (Some def) w = (Panicked nil_dereference, w')
    /\ w_wire w' = w_wire w
    /\ fst (goroutine (handleConnection conn (Some def)) w) = Dead 2.
Proof.
  intros Hom Hctx Hpat Hin.
  assert (exists w',
             handleConnection conn (Some def) w = (Panicked nil_dereference, w')
             /\ w_wire w' = w_wire w) as (w' & Hrun & Hwire).
  { unfold handleConnection. rewrite Hom, Hin, Hctx.
    generalize (String.substring 0 2048 data). intros rawInput.
    unfold deferring at 1 2. unfold bind at 1. rewrite log_with_run.
    unfold bind at 1. rewrite (extractVars_captures _ _ _ Hpat).
    unfold bind at 1.
    match goal with
    | |- context [loadExtensions ?i ?w0] =>
        destruct (loadExtensions_run i w0) as (registry & es & ->)
    end.
    eexists. split; reflexivity. }
  exists w'. split; [exact Hrun|]. split; [exact Hwire|].
  unfold goroutine. by rewrite Hrun.
Qed.

Lemma ws_handler_nil_context (def : MockDefinition) (om : OnMessage)
  (registry : extensions.Registry) (client : WSClient) (raw : string)
  (rest : list string) (w : World) :
  DefOnMessage def = Some om ->
  DefContext def = None ->
  Match om = "" \/ (exists re, regexp_Compile (Match om) = inr re) ->
  ws_upgrade client = None -> ws_messages client = raw :: rest ->
  exists w',
    ws_handler def registry client w = (Panicked nil_dereference, w')
    /\ w_wire w' = w_wire w.
Proof.
  intros Hom Hctx Hpat Hup Hmsgs.
  unfold ws_handler. rewrite Hup, Hmsgs. simpl.
  unfold deferring, bind, log. rewrite !log_with_run. unfold deref.
  rewrite Hom, Hctx. unfold ret. rewrite (extractVars_captures _ _ _ Hpat).
  eexists. split; reflexivity.
Qed.

(** C3, on the code.  Under a definition whose pattern is empty or
    compiles, for every message that is received, on TCP and on WebSocket.

    With a context in the definition, the handler returns and what it
    writes for the message is [answer]: when the runtime of the message is
    made, the respond template of the first condition whose guard renders
    to exactly [true], otherwise the else template when it is not empty,
    otherwise nothing, the guards being rendered in the order of
    declaration up to that condition and no further (read off the logger
    calls); when the runtime cannot be made, the diagnostic text of the
    protocol and no guard.  TCP handles the one message of the connection
    and ends what it writes with a line feed; WebSocket answers every
    message of the client in turn.

    Without a context, which validation accepts and the tests of the
    repository rely on, the handler panics on the nil pointer before any
    guard is rendered and writes nothing, whatever the rule set: on TCP the
    process ends with status 2, on WebSocket the first message ends the
    loop of the client. *)
Theorem received_message_answer (def : MockDefinition) (om : OnMessage) :
  DefOnMessage def = Some om ->
  Match om = "" \/ (exists re, regexp_Compile (Match om) = inr re) ->
  (forall context,
     DefContext def = Some context ->
     (forall conn data w,
        conn_input conn = inr data ->
        exists es w',
          handleConnection conn (Some def) w = (Returned tt, w')
          /\ w_log w' = w_log w ++ es
          /\ w_wire w'
             = w_wire w ++ answer line_terminated "error de template"
                            (conn_id conn) (imports_of def w) om context
                            (String.substring 0 2048 data)
          /\ evaluated es
             = guards_evaluated (imports_of def w) om context
                 (String.substring 0 2048 data))
     /\ (forall registry client w,
           ws_upgrade client = None ->
           exists es w',
             ws_handler def registry client w = (Returned tt, w')
             /\ w_log w' = w_log w ++ es
             /\ w_wire w'
                = w_wire w ++ flat_map (answer (fun resp => resp) "template error"
                                          (ws_conn client) registry om context)
                               (ws_messages client)
             /\ evaluated es
                = flat_map (guards_evaluated registry om context)
                    (ws_messages client)))
  /\ (DefContext def = None ->
      (Protocol def = "tcp" \/ Protocol def = "ws" -> Validate def = None)
      /\ (forall conn data w,
            conn_input conn = inr data ->
            exists w',
              handleConnection conn (Some def) w = (Panicked nil_dereference, w')
              /\ w_wire w' = w_wire w
              /\ fst (goroutine (handleConnection conn (Some def)) w) = Dead 2)
      /\ (forall registry client raw rest w,
            ws_upgrade client = None -> ws_messages client = raw :: rest ->
            exists w',
              ws_handler def registry client w = (Panicked nil_dereference, w')
              /\ w_wire w' = w_wire w)).
Proof.
  intros Hom Hpat. split.
  - intros context Hctx. split.
    + intros conn data w Hin. by apply handleConnection_answer.
    + intros registry client w Hup. by apply ws_handler_answers.
  - intros Hctx. split; [|split].
    + intros [Hp|Hp]; unfold Validate; rewrite Hp, Hom; reflexivity.
    + intros conn data w Hin. by eapply handleConnection_nil_context.
    + intros registry client raw rest w Hup Hmsgs.
      by eapply ws_handler_nil_context.
Qed.

End pipeline.

Lemma received_message_answer_witness :
  (exists es w',
      handleConnection (scenario.client "ping test")
        (Some (scenario.ping_mock "NO MATCH")) scenario.world = (Returned tt, w')
      /\ w_log w' = w_log scenario.world ++ es
      /\ w_wire w'
         = w_wire scenario.world ++
           answer line_terminated "error de template" 1
             (imports_of (scenario.ping_mock "NO MATCH") scenario.world)
             {| Match := "(?P<cmd>.+)"; Conditions := [scenario.ping_rule];
                Else := "NO MATCH" |}
             {| Variables := Some ∅ |} (String.substring 0 2048 "ping test")
      /\ evaluated es
         = guards_evaluated
             (imports_of (scenario.ping_mock "NO MATCH") scenario.world)
             {| Match := "(?P<cmd>.+)"; Conditions := [scenario.ping_rule];
                Else := "NO MATCH" |}
             {| Variables := Some ∅ |} (String.substring 0 2048 "ping test"))
  /\ (exists w',
        handleConnection (scenario.client ("PING" +:+ newline))
          (Some basic_tcp_mock) empty_world
        = (Panicked nil_dereference, w')
        /\ w_wire w' = w_wire empty_world
        /\ fst (goroutine (handleConnection (scenario.client ("PING" +:+ newline))
                             (Some basic_tcp_mock)) empty_world) = Dead 2).
Proof.
  split.
  - refine (proj1 (proj1 (received_message_answer
                            (scenario.ping_mock "NO MATCH")
                            {| Match := "(?P<cmd>.+)";
                               Conditions := [scenario.ping_rule];
                               Else := "NO MATCH" |} _ _)
                     {| Variables := Some ∅ |} _)
              (scenario.client "ping test") "ping test" scenario.world _).
    + reflexivity.
    + right. eexists. vm_compute. reflexivity.
    + reflexivity.
    + reflexivity.
  - refine (proj1 (proj2 (proj2 (received_message_answer basic_tcp_mock
                                   {| Match := "(?P<cmd>\w+)";
                                      Conditions := _;
                                      Else := "Unknown command: {{ .cmd }}" |}
                                   _ _) _))
              (scenario.client ("PING" +:+ newline)) ("PING" +:+ newline)
              empty_world _).
    + reflexivity.
    + right. eexists. vm_compute. reflexivity.
    + reflexivity.
    + reflexivity.
Defined.

(** The test [TestTCPBasicCommunication] on the code: the client that sends
    [PING] gets nothing, where the test expects [PONG] and a line feed. *)
Example basic_tcp_mock_panics :
  Validate basic_tcp_mock = None
  /\ handleConnection (scenario.client ("PING" +:+ newline)) (Some basic_tcp_mock)
       empty_world
     = (Panicked nil_dereference,
        {| w_fs := ∅; w_web := ∅; w_ports := ∅; w_mux := ∅;
           w_log := [{| lvl := Info; msg := "received message";
                        fields := [("input", "PING" +:+ newline)] |}];
           w_wire := []; w_closed := [1%nat; 1%nat]; w_spawned := [] |}).
Proof. split; [reflexivity|]. vm_compute. reflexivity. Qed.

(** The same definition with an empty context: the rule set is reached and
    the else template is what the message gets. *)
Example rule_set_with_context :
  exists w',
    handleConnection (scenario.client "ping 1")
      (Some (scenario.tcp_mock "(?P<cmd>.+)"
               [{| If := "{{ contains .input.cmd " +:+ scenario.quoted "zzz"
                         +:+ " }}";
                   Respond := "first" |}] "fallback {{ .input.cmd }}"))
      scenario.world = (Returned tt, w')
    /\ w_wire w' = [(1%nat, "fallback ping 1" +:+ newline)]
    /\ evaluated (w_log w') = ["0"].
Proof. eexists. split; [vm_compute; reflexivity|]. split; reflexivity. Qed.

End message_facts.

(** ** The SFTP backing tree *)
Module sftp_facts.
Import schema runtime.
Import sftp_props.

Lemma same_files_refl (ps : list string) (w : World) : same_files_but ps w w.
Proof. intros p _. reflexivity. Qed.

Lemma same_files_trans (ps qs : list string) (w1 w2 w3 : World) :
  same_files_but ps w1 w2 -> same_files_but qs w2 w3 ->
  same_files_but (ps ++ qs) w1 w3.
Proof.
  intros H12 H23 p Hp. rewrite not_elem_of_app in Hp. destruct Hp as [Hp Hq].
  rewrite H23 by done. by apply H12.
Qed.

Lemma same_files_weaken (ps qs : list string) (w w' : World) :
  ps ⊆ qs -> same_files_but ps w w' -> same_files_but qs w w'.
Proof. intros Hsub H p Hp. apply H. intros Hin. apply Hp, Hsub, Hin. Qed.

Lemma mkdir_each_frame (ps : list string) (fs fs' : gmap string fnode) :
  os.mkdir_each fs ps = inr fs' -> forall p, p ∉ ps -> fs' !! p = fs !! p.
Proof.
  revert fs. induction ps as [|q ps IH]; intros fs Hrun p Hp.
  - by injection Hrun as <-.
  - rewrite not_elem_of_cons in Hp. destruct Hp as [Hne Hp].
    simpl in Hrun. destruct (os.stat fs q) as [[c|]|].
    + discriminate.
    + by apply IH.
    + rewrite (IH _ Hrun p Hp). by apply lookup_insert_ne.
Qed.

Lemma touches_only_ret {A} (a : A) : touches_only [] (ret a).
Proof. intros w. exists a, w. repeat split. Qed.

Lemma touches_only_log (l : level) (m : string) (fs : list (string * string)) :
  touches_only [] (log_with l m fs).
Proof. intros w. eexists _, _. repeat split. Qed.

Lemma touches_only_bind {A B} (ps qs : list string) (c : M A) (k : A -> M B) :
  touches_only ps c -> (forall a, touches_only qs (k a)) ->
  touches_only (ps ++ qs) (bind c k).
Proof.
  intros Hc Hk w. destruct (Hc w) as (a & w1 & E1 & F1 & P1 & W1 & S1).
  destruct (Hk a w1) as (b & w2 & E2 & F2 & P2 & W2 & S2).
  exists b, w2. unfold bind. rewrite E1, E2.
  split; [reflexivity|]. split; [by eapply same_files_trans|].
  repeat split; congruence.
Qed.

Lemma touches_only_weaken {A} (ps qs : list string) (c : M A) :
  ps ⊆ qs -> touches_only ps c -> touches_only qs c.
Proof.
  intros Hsub Hc w. destruct (Hc w) as (a & w' & E & F & R).
  exists a, w'. split; [exact E|]. split; [|exact R].
  by eapply same_files_weaken.
Qed.

Lemma MkdirAll_touches (path : string) :
  touches_only (os.prefixes path) (os.MkdirAll path).
Proof.
  intros w. unfold os.MkdirAll, bind, gets, set_fs, modify, ret.
  destruct (os.mkdir_each (w_fs w) (os.prefixes path)) as [e|fs'] eqn:E.
  - eexists _, _. repeat split.
  - eexists _, _. split; [reflexivity|]. split; [|repeat split].
    intros p Hp. simpl. by eapply mkdir_each_frame.
Qed.

Lemma WriteFile_touches (name data : string) :
  touches_only [filepath.Clean name] (os.WriteFile name data).
Proof.
  intros w. unfold os.WriteFile, bind, gets, set_fs, modify, ret.
  destruct (os.stat (w_fs w) (filepath.Clean name)) as [[c|]|];
    try (destruct (os.stat (w_fs w) (filepath.Dir (filepath.Clean name)))
           as [[c'|]|]);
    eexists _, _; (split; [reflexivity|]); (split; [|repeat split]);
    try apply same_files_refl;
    intros p Hp; simpl; apply lookup_insert_ne; set_solver.
Qed.

Lemma write_files_touches (files : list FileEntry) :
  touches_only
    (flat_map (fun f =>
                 let fullPath := filepath.Join ["sftp_root"; FilePath f] in
                 os.prefixes (filepath.Dir fullPath) ++ [filepath.Clean fullPath])
              files)
    (write_files "sftp_root" files).
Proof.
  induction files as [|f rest IH]; [apply touches_only_ret|].
  simpl write_files. simpl flat_map.
  set (fullPath := filepath.Join ["sftp_root"; FilePath f]).
  match goal with
  | |- touches_only (_ ++ ?T) _ =>
      apply (touches_only_weaken
               (os.prefixes (filepath.Dir fullPath) ++
                ([] ++ ([filepath.Clean fullPath] ++ ([] ++ T)))))
  end.
  { simpl. by rewrite <- app_assoc. }
  apply touches_only_bind; [apply MkdirAll_touches|].
  intros err. apply touches_only_bind.
  { destruct err; [apply touches_only_log | apply touches_only_ret]. }
  intros _. apply touches_only_bind; [apply WriteFile_touches|].
  intros err'. apply touches_only_bind.
  { destruct err'; [apply touches_only_log | apply touches_only_ret]. }
  intros _. exact IH.
Qed.

Lemma ReadFile_run (name : string) (w : World) :
  exists r, os.ReadFile name w = (Returned r, w).
Proof.
  unfold os.ReadFile, bind, gets, ret.
  destruct (os.stat _ _) as [[c|]|]; eauto.
Qed.

Lemma Listen_run (port : Z) (w : World) :
  exists r w', net.Listen port w = (Returned r, w') /\ w_fs w' = w_fs w.
Proof.
  unfold net.Listen, bind, gets, ret, net.set_ports, modify.
  destruct (_ || _); [eauto|].
  destruct (bool_decide _); [eauto|].
  destruct (port =? 0); eauto.
Qed.

(** [Start] returns, with the root set to [sftp_root], and has changed no
    file outside [touched]. *)
Lemma sftp_Start_run (source_dir : string)
  (ssh_ParsePrivateKey : string -> option error)
  (h : SFTPHandler) (def : MockDefinition) (w : World) :
  exists h' err w',
    sftp_Start source_dir ssh_ParsePrivateKey h def w = (Returned (h', err), w')
    /\ sftp_root h' = "sftp_root"
    /\ same_files_but (touched (Files def)) w w'.
Proof.
  unfold sftp_Start. unfold bind at 1.
  destruct (ReadFile_run (getSettingsSftp source_dir "host_key") w)
    as [[privateBytes err] ->].
  destruct err as [e|].
  { eexists _, _, _. split; [reflexivity|]. split; [reflexivity|].
    apply same_files_refl. }
  destruct (ssh_ParsePrivateKey privateBytes) as [e|].
  { eexists _, _, _. split; [reflexivity|]. split; [reflexivity|].
    apply same_files_refl. }
  unfold bind at 1. cbn [sftp_root].
  destruct (MkdirAll_touches "sftp_root" w) as (err & w1 & -> & F1 & _).
  destruct err as [e|].
  { eexists _, _, _. split; [reflexivity|]. split; [reflexivity|].
    eapply same_files_weaken; [|exact F1].
    intros p Hp. unfold touched. apply elem_of_app. by left. }
  unfold bind at 1.
  destruct (write_files_touches (Files def) w1) as ([] & w2 & -> & F2 & _).
  unfold bind at 1. cbn [sftp_port].
  destruct (Listen_run (Port def) w2) as ([listener err] & w3 & -> & F3).
  assert (same_files_but (touched (Files def)) w w3) as F.
  { intros p Hp. rewrite F3.
    apply (same_files_trans _ _ _ _ _ F1 F2 p Hp). }
  destruct err as [e|].
  { eexists _, _, _. split; [reflexivity|]. split; [reflexivity|]. exact F. }
  eexists _, _, _. split; [reflexivity|]. split; [reflexivity|]. exact F.
Qed.

(** [Stop] changes no file: it writes one log entry and closes the
    listener, when there is one. *)
Lemma sftp_Stop_run (h : SFTPHandler) (w : World) :
  exists err w',
    sftp_Stop h w = (Returned err, w')
    /\ w_fs w' = w_fs w
    /\ w_ports w' = match sftp_listener h with
                    | Some ln => w_ports w ∖ {[ln]}
                    | None => w_ports w
                    end.
Proof.
  unfold sftp_Stop. destruct (sftp_listener h) as [ln|].
  - eexists _, _. repeat split.
  - eexists _, _. repeat split.
Qed.

(** *** Where an entry goes *)

Lemma fold_clean_keeps_root (comps : list string) (stack : list string) :
  ".." ∉ comps ->
  exists stack',
    fold_left (filepath.clean_step false) comps (stack ++ ["sftp_root"])
    = stack' ++ ["sftp_root"].
Proof.
  revert stack. induction comps as [|c comps IH]; intros stack Hno.
  - by exists stack.
  - rewrite not_elem_of_cons in Hno. destruct Hno as [Hc Hno].
    simpl. unfold filepath.clean_step at 2.
    destruct (String.eqb c "" || String.eqb c "."); [by apply IH|].
    destruct (String.eqb c "..") eqn:E.
    + apply String.eqb_eq in E. congruence.
    + apply (IH (c :: stack) Hno).
Qed.

Lemma prefix_empty (s : string) : String.prefix "" s = true.
Proof. by destruct s. Qed.

Lemma Join_from_root (rest : list string) :
  under_root (strings_pkg.Join ("sftp_root" :: rest) "/").
Proof.
  destruct rest as [|c rest]; [by left|]. right.
  change (strings_pkg.Join ("sftp_root" :: c :: rest) "/")
    with ("sftp_root/" +:+ strings_pkg.Join (c :: rest) "/").
  simpl. apply prefix_empty.
Qed.

Lemma Split_from_root (path : string) :
  strings_pkg.Split ("sftp_root/" +:+ path) "/"
  = "sftp_root" :: strings_pkg.split_scan "/" 0 [] path.
Proof.
  unfold strings_pkg.Split. simpl. rewrite prefix_empty. reflexivity.
Qed.

Lemma Join_under_root (path : string) :
  ".." ∉ strings_pkg.Split path "/" ->
  under_root (filepath.Join ["sftp_root"; path]).
Proof.
  intros Hno. unfold filepath.Join.
  rewrite filter_cons_True by discriminate.
  destruct (decide (path <> "")) as [Hne|He].
  - rewrite filter_cons_True by done. rewrite filter_nil.
    change (strings_pkg.Join ["sftp_root"; path] "/")
      with ("sftp_root/" +:+ path).
    unfold filepath.Clean.
    change (String.prefix "/" ("sftp_root/" +:+ path)) with false.
    rewrite Split_from_root.
    assert (strings_pkg.Split path "/" = strings_pkg.split_scan "/" 0 [] path)
      as Hs by reflexivity.
    rewrite Hs in Hno.
    unfold filepath.clean_components. simpl fold_left.
    change (filepath.clean_step false [] "sftp_root") with ([] ++ ["sftp_root"]).
    destruct (fold_clean_keeps_root _ [] Hno) as [stack' ->].
    rewrite rev_app_distr. simpl rev. simpl app.
    pose proof (Join_from_root (rev stack')) as Hu.
    destruct (String.eqb (strings_pkg.Join ("sftp_root" :: rev stack') "/") "")
      eqn:E; [|exact Hu].
    apply String.eqb_eq in E. destruct (rev stack'); discriminate.
  - rewrite filter_cons_False by done. rewrite filter_nil. by left.
Qed.

Lemma prefix_slash (c : ascii) (r : string) :
  String.prefix "/" (String c r) = bool_decide (c = "/"%char).
Proof.
  change (String.prefix "/" (String c r))
    with (if ascii_dec "/" c then String.prefix "" r else false).
  destruct (ascii_dec "/" c) as [<-|Hne].
  - rewrite prefix_empty. by rewrite bool_decide_eq_true_2.
  - rewrite bool_decide_eq_false_2; [reflexivity | congruence].
Qed.

Lemma split_scan_word (x rest : string) (cur : list ascii) :
  slash_free x ->
  strings_pkg.split_scan "/" 0 cur (x +:+ rest)
  = strings_pkg.split_scan "/" 0 (rev (list_ascii_of_string x) ++ cur) rest.
Proof.
  revert cur. induction x as [|c x IH]; intros cur Hfree; [reflexivity|].
  change (String c x +:+ rest) with (String c (x +:+ rest)).
  cbn [strings_pkg.split_scan]. rewrite prefix_slash.
  rewrite bool_decide_eq_false_2.
  2:{ apply Hfree. simpl. apply list_elem_of_here. }
  rewrite IH.
  2:{ intros d Hd. apply Hfree. simpl. by apply list_elem_of_further. }
  simpl. by rewrite <- app_assoc.
Qed.

Lemma split_scan_slash (rest : string) (cur : list ascii) :
  strings_pkg.split_scan "/" 0 cur (String "/" rest)
  = string_of_list_ascii (rev cur) :: strings_pkg.split_scan "/" 0 [] rest.
Proof. cbn [strings_pkg.split_scan]. rewrite prefix_slash. reflexivity. Qed.

Lemma split_scan_end (cur : list ascii) :
  strings_pkg.split_scan "/" 0 cur "" = [string_of_list_ascii (rev cur)].
Proof. reflexivity. Qed.

Lemma word_back (x : string) :
  string_of_list_ascii (rev (rev (list_ascii_of_string x) ++ [])) = x.
Proof.
  rewrite app_nil_r, rev_involutive. apply string_of_list_ascii_of_string.
Qed.

Lemma append_empty (x : string) : x +:+ "" = x.
Proof.
  induction x as [|c x IH]; [reflexivity|].
  change (String c x +:+ "") with (String c (x +:+ "")). by rewrite IH.
Qed.

Lemma split_Join (comps : list string) :
  comps <> [] -> Forall slash_free comps ->
  strings_pkg.split_scan "/" 0 [] (strings_pkg.Join comps "/") = comps.
Proof.
  induction comps as [|e [|e' r] IH]; intros Hne Hfree; [done| |].
  - simpl. rewrite <- (append_empty e) at 1.
    rewrite split_scan_word by (by inversion Hfree).
    rewrite split_scan_end, word_back. reflexivity.
  - change (strings_pkg.Join (e :: e' :: r) "/")
      with (e +:+ String "/" (strings_pkg.Join (e' :: r) "/")).
    rewrite split_scan_word by (by inversion Hfree).
    rewrite split_scan_slash, word_back.
    rewrite IH; [reflexivity | done | by inversion Hfree].
Qed.

Lemma clean_step_name (rooted : bool) (stack : list string) (c : string) :
  is_name c -> filepath.clean_step rooted stack c = c :: stack.
Proof.
  intros (H1 & H2 & H3 & _). unfold filepath.clean_step.
  apply String.eqb_neq in H1, H2, H3. by rewrite H1, H2, H3.
Qed.

Lemma fold_clean_names (rooted : bool) (comps stack : list string) :
  Forall is_name comps ->
  fold_left (filepath.clean_step rooted) comps stack = rev comps ++ stack.
Proof.
  revert stack. induction comps as [|c comps IH]; intros stack Hn; [reflexivity|].
  inversion Hn as [|? ? Hc Hrest]; subst. simpl.
  rewrite clean_step_name by done. rewrite IH by done.
  by rewrite <- app_assoc.
Qed.

(** The pieces between slashes have no slash in them. *)
Lemma split_scan_slash_free (s : string) (cur : list ascii) :
  (forall c, c ∈ cur -> c <> "/"%char) ->
  Forall slash_free (strings_pkg.split_scan "/" 0 cur s).
Proof.
  revert cur. induction s as [|c s IH]; intros cur Hcur.
  - constructor; [|constructor]. intros d Hd.
    rewrite list_ascii_of_string_of_list_ascii in Hd.
    apply Hcur. apply list_elem_of_In, in_rev. by apply list_elem_of_In.
  - cbn [strings_pkg.split_scan]. rewrite prefix_slash.
    destruct (bool_decide (c = "/"%char)) eqn:E.
    + constructor.
      * intros d Hd. rewrite list_ascii_of_string_of_list_ascii in Hd.
        apply Hcur. apply list_elem_of_In, in_rev. by apply list_elem_of_In.
      * apply IH. intros d Hd. by apply elem_of_nil in Hd.
    + apply IH. intros d Hd. apply elem_of_cons in Hd as [->|Hd].
      * by apply bool_decide_eq_false in E.
      * by apply Hcur.
Qed.

(** Without [..] among the components, the stack of [Clean] only grows,
    with names, above what it had. *)
Lemma fold_clean_grows (comps stack : list string) :
  Forall slash_free comps -> ".." ∉ comps ->
  exists names,
    Forall is_name names
    /\ fold_left (filepath.clean_step false) comps stack = names ++ stack.
Proof.
  revert stack. induction comps as [|c comps IH]; intros stack Hfree Hno.
  - exists []. split; [constructor | reflexivity].
  - inversion Hfree as [|? ? Hc Hrest]; subst.
    rewrite not_elem_of_cons in Hno. destruct Hno as [Hne Hno].
    simpl. unfold filepath.clean_step at 2.
    destruct (String.eqb c "" || String.eqb c ".") eqn:E1.
    { by apply IH. }
    destruct (String.eqb c "..") eqn:E2.
    { apply String.eqb_eq in E2. congruence. }
    destruct (IH (c :: stack) Hrest Hno) as (names & Hnames & ->).
    exists (names ++ [c]). split.
    + apply Forall_app. split; [done|]. constructor; [|constructor].
      apply orb_false_iff in E1 as [E1 E1'].
      apply String.eqb_neq in E1, E1', E2. done.
    + by rewrite <- app_assoc.
Qed.

Lemma slash_free_root : is_name "sftp_root".
Proof.
  repeat split; try discriminate.
  intros c Hc. vm_compute in Hc. set_unfold in Hc.
  intuition (subst; discriminate).
Qed.

(** Where an entry whose path has no [..] goes: a clean path that starts
    with the root. *)
Lemma Join_shape (path : string) :
  ".." ∉ strings_pkg.Split path "/" ->
  exists names,
    Forall is_name names
    /\ filepath.Join ["sftp_root"; path]
       = strings_pkg.Join ("sftp_root" :: names) "/".
Proof.
  intros Hno. unfold filepath.Join.
  rewrite filter_cons_True by discriminate.
  destruct (decide (path <> "")) as [Hne|He].
  - rewrite filter_cons_True by done. rewrite filter_nil.
    change (strings_pkg.Join ["sftp_root"; path] "/")
      with ("sftp_root/" +:+ path).
    unfold filepath.Clean.
    change (String.prefix "/" ("sftp_root/" +:+ path)) with false.
    rewrite Split_from_root.
    assert (strings_pkg.Split path "/" = strings_pkg.split_scan "/" 0 [] path)
      as Hs by reflexivity.
    rewrite Hs in Hno.
    unfold filepath.clean_components. simpl fold_left.
    change (filepath.clean_step false [] "sftp_root") with ["sftp_root"].
    destruct (fold_clean_grows (strings_pkg.split_scan "/" 0 [] path)
                ["sftp_root"]) as (names & Hnames & ->); [|done|].
    { apply split_scan_slash_free. intros c Hc. by apply elem_of_nil in Hc. }
    rewrite rev_app_distr. simpl rev. simpl app.
    exists (rev names). split; [by apply Forall_rev|].
    destruct (String.eqb (strings_pkg.Join ("sftp_root" :: rev names) "/") "")
      eqn:E; [|reflexivity].
    apply String.eqb_eq in E. destruct (rev names); discriminate.
  - rewrite filter_cons_False by done. rewrite filter_nil.
    exists []. split; [constructor | reflexivity].
Qed.

Lemma Clean_names (names : list string) :
  Forall is_name names ->
  filepath.Clean (strings_pkg.Join ("sftp_root" :: names) "/")
  = strings_pkg.Join ("sftp_root" :: names) "/".
Proof.
  intros Hnames.
  assert (Forall is_name ("sftp_root" :: names)) as Hall.
  { constructor; [apply slash_free_root | done]. }
  unfold filepath.Clean.
  assert (String.prefix "/" (strings_pkg.Join ("sftp_root" :: names) "/") = false)
    as ->.
  { destruct names; reflexivity. }
  assert (strings_pkg.Split (strings_pkg.Join ("sftp_root" :: names) "/") "/"
          = "sftp_root" :: names) as ->.
  { change (strings_pkg.Split ?s "/") with (strings_pkg.split_scan "/" 0 [] s).
    apply split_Join; [done|].
    eapply Forall_impl; [exact Hall|]. by intros c (_ & _ & _ & Hc). }
  unfold filepath.clean_components.
  rewrite fold_clean_names by done.
  rewrite app_nil_r, rev_involutive.
  destruct (String.eqb (strings_pkg.Join ("sftp_root" :: names) "/") "")
    eqn:E; [|reflexivity].
  apply String.eqb_eq in E. destruct names; discriminate.
Qed.

(** *** What is on disk after [Start] *)

Lemma mkdir_each_keeps (ps : list string) (fs fs' : gmap string fnode)
  (p : string) (c : string) :
  os.mkdir_each fs ps = inr fs' -> fs !! p = Some (FFile c) ->
  fs' !! p = Some (FFile c).
Proof.
  revert fs. induction ps as [|q ps IH]; intros fs Hrun Hp.
  - by injection Hrun as <-.
  - simpl in Hrun. destruct (os.stat fs q) as [[d|]|] eqn:Es.
    + discriminate.
    + by apply (IH fs).
    + apply (IH _ Hrun). rewrite lookup_insert_ne; [done|].
      intros ->. unfold os.stat in Es.
      destruct (os.is_ambient_dir p); [discriminate | congruence].
Qed.

Lemma MkdirAll_keeps (path : string) (w : World) :
  exists err w',
    os.MkdirAll path w = (Returned err, w')
    /\ w_log w' = w_log w
    /\ forall p c, w_fs w !! p = Some (FFile c) -> w_fs w' !! p = Some (FFile c).
Proof.
  unfold os.MkdirAll, bind, gets, set_fs, modify, ret.
  destruct (os.mkdir_each (w_fs w) (os.prefixes path)) as [e|fs'] eqn:E.
  - eexists _, _. split; [reflexivity|]. split; [reflexivity|]. done.
  - eexists _, _. split; [reflexivity|]. split; [reflexivity|].
    intros p c Hp. simpl. by eapply mkdir_each_keeps.
Qed.

Lemma WriteFile_run (name data : string) (w : World) :
  exists err w',
    os.WriteFile name data w = (Returned err, w')
    /\ w_log w' = w_log w
    /\ ((err = None /\ w_fs w' = <[filepath.Clean name := FFile data]> (w_fs w))
        \/ (is_Some err /\ w_fs w' = w_fs w)).
Proof.
  unfold os.WriteFile, bind, gets, set_fs, modify, ret.
  destruct (os.stat (w_fs w) (filepath.Clean name)) as [[c|]|];
    try (destruct (os.stat (w_fs w) (filepath.Dir (filepath.Clean name)))
           as [[c'|]|]);
    eexists _, _; (split; [reflexivity|]); (split; [reflexivity|]);
    first [ by left | by right ].
Qed.

(** One turn of the loop of [Start] over the files. *)
Lemma write_files_step (f : FileEntry) (rest : list FileEntry) (w : World) :
  exists w1 es1,
    write_files "sftp_root" (f :: rest) w = write_files "sftp_root" rest w1
    /\ w_log w1 = w_log w ++ es1
    /\ (forall p c, p <> target f -> w_fs w !! p = Some (FFile c) ->
                    w_fs w1 !! p = Some (FFile c))
    /\ (w_fs w1 !! target f = Some (FFile (Content f))
        \/ (refused f es1
            /\ forall c, w_fs w !! target f = Some (FFile c) ->
                         w_fs w1 !! target f = Some (FFile c))).
Proof.
  cbn [write_files].
  set (fullPath := filepath.Join ["sftp_root"; FilePath f]).
  unfold bind at 1.
  destruct (MkdirAll_keeps (filepath.Dir fullPath) w) as (err & wa & -> & La & Ka).
  assert (exists wb esb,
            (match err with
             | Some e => log_with Warn "⚠️ Could not create intermediate dirs"
                           [("error", e)]
             | None => ret tt
             end) wa = (Returned tt, wb)
            /\ w_log wb = w_log w ++ esb /\ w_fs wb = w_fs wa)
    as (wb & esb & Eb & Lb & Fb).
  { destruct err as [e|].
    - eexists _, [_]. split; [reflexivity|]. simpl. by rewrite La.
    - exists wa, []. split; [reflexivity|]. by rewrite app_nil_r. }
  unfold bind at 1. rewrite Eb. unfold bind at 1.
  destruct (WriteFile_run fullPath (Content f) wb) as (err' & wc & -> & Lc & Hc).
  destruct Hc as [[-> Fc]|[[e ->] Fc]].
  - unfold bind at 1. cbn [ret]. exists wc, esb.
    split; [reflexivity|]. split; [congruence|]. split.
    + intros p c Hne Hp. rewrite Fc, lookup_insert_ne by done.
      rewrite Fb. by apply Ka.
    + left. rewrite Fc. apply lookup_insert_eq.
  - unfold bind at 1. rewrite runtime_facts.log_with_run.
    eexists _, (esb ++ [_]). split; [reflexivity|]. split.
    { simpl. rewrite Lc, Lb. by rewrite <- app_assoc. }
    split.
    + intros p c Hne Hp. simpl. rewrite Fc, Fb. by apply Ka.
    + right. split.
      * exists e. apply elem_of_app. right. apply list_elem_of_here.
      * intros c Hp. simpl. rewrite Fc, Fb. by apply Ka.
Qed.

Lemma holds_entry_cons (f : FileEntry) (rest : list FileEntry)
  (fs : gmap string fnode) (p : string) :
  holds_entry rest fs p -> holds_entry (f :: rest) fs p.
Proof.
  intros (g & Hg & Ht & Hl). exists g. split; [by apply list_elem_of_further|done].
Qed.

(** A file stays, or gives way to the content of a later entry. *)
Lemma write_files_keeps (rest : list FileEntry) (w w' : World) (p c : string) :
  write_files "sftp_root" rest w = (Returned tt, w') ->
  w_fs w !! p = Some (FFile c) ->
  w_fs w' !! p = Some (FFile c) \/ holds_entry rest (w_fs w') p.
Proof.
  revert w c. induction rest as [|g rest IH]; intros w c Hrun Hp.
  - injection Hrun as <-. by left.
  - destruct (write_files_step g rest w) as (w1 & es1 & E & _ & Hother & Hthis).
    rewrite E in Hrun.
    destruct (decide (p = target g)) as [->|Hne].
    + destruct Hthis as [Hw|[_ Hkeep]].
      * destruct (IH w1 _ Hrun Hw) as [Hs|Hh].
        -- right. exists g. split; [apply list_elem_of_here | done].
        -- right. by apply holds_entry_cons.
      * destruct (IH w1 _ Hrun (Hkeep _ Hp)) as [Hs|Hh]; [by left|].
        right. by apply holds_entry_cons.
    + destruct (IH w1 _ Hrun (Hother _ _ Hne Hp)) as [Hs|Hh]; [by left|].
      right. by apply holds_entry_cons.
Qed.

(** After the loop, every entry is on disk at its place, with its content
    or that of another entry for the same place, unless the log says that
    it could not be written. *)
Lemma write_files_materializes (files : list FileEntry) (w : World) :
  exists w' es,
    write_files "sftp_root" files w = (Returned tt, w')
    /\ w_log w' = w_log w ++ es
    /\ forall f, f ∈ files ->
                 refused f es \/ holds_entry files (w_fs w') (target f).
Proof.
  revert w. induction files as [|f rest IH]; intros w.
  - exists w, []. split; [reflexivity|]. split; [by rewrite app_nil_r|].
    intros f Hf. by apply elem_of_nil in Hf.
  - destruct (write_files_step f rest w) as (w1 & es1 & E & L1 & _ & Hthis).
    destruct (IH w1) as (w' & es2 & Hrun & L2 & Hrest).
    exists w', (es1 ++ es2). rewrite E. split; [exact Hrun|]. split.
    { rewrite L2, L1. by rewrite <- app_assoc. }
    intros g Hg. apply elem_of_cons in Hg as [->|Hg].
    + destruct Hthis as [Hw|[[e He] _]].
      * right. destruct (write_files_keeps rest w1 w' _ _ Hrun Hw) as [Hs|Hh].
        -- exists f. split; [apply list_elem_of_here | done].
        -- by apply holds_entry_cons.
      * left. exists e. apply elem_of_app. by left.
    + destruct (Hrest g Hg) as [[e He]|Hh].
      * left. exists e. apply elem_of_app. by right.
      * right. by apply holds_entry_cons.
Qed.

Lemma Listen_keeps (port : Z) (w : World) :
  exists r w', net.Listen port w = (Returned r, w')
               /\ w_fs w' = w_fs w /\ w_log w' = w_log w.
Proof.
  unfold net.Listen, bind, gets, ret, net.set_ports, modify.
  destruct (_ || _); [eauto|].
  destruct (bool_decide _); [eauto|].
  destruct (port =? 0); eauto.
Qed.

(** When [Start] returns nil, every entry is on disk at its place, with
    its content or that of another entry for the same place, unless the
    log says that it could not be written. *)
Lemma sftp_Start_materializes (source_dir : string)
  (ssh_ParsePrivateKey : string -> option error)
  (h : SFTPHandler) (def : MockDefinition) (w : World)
  (h' : SFTPHandler) (w' : World) :
  sftp_Start source_dir ssh_ParsePrivateKey h def w = (Returned (h', None), w') ->
  exists es,
    w_log w' = w_log w ++ es
    /\ forall f, f ∈ Files def ->
                 refused f es \/ holds_entry (Files def) (w_fs w') (target f).
Proof.
  unfold sftp_Start. unfold bind at 1.
  destruct (ReadFile_run (getSettingsSftp source_dir "host_key") w)
    as [[privateBytes err] ->].
  destruct err as [e|]; [discriminate|].
  destruct (ssh_ParsePrivateKey privateBytes) as [e|]; [discriminate|].
  unfold bind at 1. cbn [sftp_root].
  destruct (MkdirAll_keeps "sftp_root" w) as (err & w1 & -> & L1 & _).
  destruct err as [e|]; [discriminate|].
  unfold bind at 1.
  destruct (write_files_materializes (Files def) w1) as (w2 & es & -> & L2 & Hall).
  unfold bind at 1. cbn [sftp_port].
  destruct (Listen_keeps (Port def) w2) as ([listener err] & w3 & -> & F3 & L3).
  destruct err as [e|]; [discriminate|].
  intros [= _ <-]. eexists (es ++ [_]). split.
  - simpl. rewrite L3, L2, L1. by rewrite <- app_assoc.
  - intros f Hf. destruct (Hall f Hf) as [[e He]|(g & Hg & Ht & Hl)].
    + left. exists e. apply elem_of_app. by left.
    + right. exists g. split; [done|]. split; [done|]. simpl. by rewrite F3.
Qed.

(** An entry whose path has no [..] goes to a clean path inside the root
    directory. *)
Lemma target_under_root (path : string) :
  ".." ∉ strings_pkg.Split path "/" ->
  filepath.Clean (filepath.Join ["sftp_root"; path])
  = filepath.Join ["sftp_root"; path]
  /\ under_root (filepath.Join ["sftp_root"; path]).
Proof.
  intros Hno. split; [|by apply Join_under_root].
  destruct (Join_shape path Hno) as (names & Hnames & ->).
  by apply Clean_names.
Qed.


(** The SFTP handler returns an error when the port is in use. *)
Lemma sftp_Start_port_in_use (source_dir : string)
  (ssh_ParsePrivateKey : string -> option error)
  (h : SFTPHandler) (def : MockDefinition) (w : World) :
  Port def ∈ w_ports w ->
  exists h' e w',
    sftp_Start source_dir ssh_ParsePrivateKey h def w = (Returned (h', Some e), w').
Proof.
  intros Hin. unfold sftp_Start. unfold bind at 1.
  destruct (ReadFile_run (getSettingsSftp source_dir "host_key") w)
    as [[privateBytes err] ->].
  destruct err as [e|]; [eauto|].
  destruct (ssh_ParsePrivateKey privateBytes) as [e|]; [eauto|].
  unfold bind at 1. cbn [sftp_root].
  destruct (MkdirAll_touches "sftp_root" w) as (err & w1 & -> & _ & P1 & _).
  destruct err as [e|]; [eauto|].
  unfold bind at 1.
  destruct (write_files_touches (Files def) w1) as ([] & w2 & -> & _ & P2 & _).
  unfold bind at 1. cbn [sftp_port].
  destruct (runtime_facts.Listen_in_use (Port def) w2) as [e ->]; [congruence|].
  eauto.
Qed.

(** *** Two mocks in one process *)



(** Two mocks on two ports write the same file, and stopping both leaves
    it there with what an earlier run left. *)
Example two_mocks_one_tree :
  let first := sftp_mock 2222 [{| FilePath := "/welcome.txt"; Content := "hi" |}] in
  let second := sftp_mock 2223 [{| FilePath := "/welcome.txt"; Content := "bye" |}] in
  exists h1 w1 h2 w2 w3 w4,
    start first host = (Returned (h1, None), w1)
    /\ w_fs w1 !! "sftp_root/welcome.txt" = Some (FFile "hi")
    /\ start second w1 = (Returned (h2, None), w2)
    /\ w_fs w2 !! "sftp_root/welcome.txt" = Some (FFile "bye")
    /\ sftp_root h1 = sftp_root h2
    /\ sftp_Stop h1 w2 = (Returned None, w3)
    /\ sftp_Stop h2 w3 = (Returned None, w4)
    /\ w_ports w4 = ∅
    /\ w_fs w4 !! "sftp_root/welcome.txt" = Some (FFile "bye")
    /\ w_fs w4 !! "sftp_root/old.txt" = Some (FFile "left over").
Proof.
  eexists _, _, _, _, _, _.
  split; [vm_compute; reflexivity|]. split; [vm_compute; reflexivity|].
  split; [vm_compute; reflexivity|]. split; [vm_compute; reflexivity|].
  split; [reflexivity|].
  split; [vm_compute; reflexivity|]. split; [vm_compute; reflexivity|].
  split; [vm_compute; reflexivity|]. split; vm_compute; reflexivity.
Qed.

End sftp_facts.
